(** * OllamaIQ: the benchmark core, embedded and verified

    A shallow embedding of the run registry ([run_manager.py]), the run
    orchestrator ([app.py]) and the model tester with its code sandbox
    ([ollama_etch_tester.py]).

    Conventions of the embedding
    - a Python [str] is a [string] whose characters are code points below 256;
    - a Python [int] is a [Z]; a Python [float] is a primitive binary64 [float],
      so that [int((a / b) * c)] is computed exactly as the interpreter does;
    - a function that can raise returns a [res]; [try]/[except] is [catch];
    - a [dict] used as a table of runs is a [gmap]; a [dict] used as a JSON-like
      record of unknown shape is a [VDict] association list, read from the
      right (the last binding of a key is the live one);
    - what lies outside the repository (the interpreter that runs the generated
      harness, the LLM client, the clock, [round], [statistics]) is a section
      variable or a field of an environment record.

    The first part holds the definitions, the second part the theorems. *)

From Stdlib Require Import ZArith List String Ascii Bool Lia Floats Uint63.
From Stdlib Require Import DecimalFacts DecimalPos DecimalN DecimalZ.
From stdpp Require Import gmap strings list pretty.

Set Warnings "-register-all".
Local Open Scope string_scope.
Local Open Scope Z_scope.
Local Open Scope list_scope.

(* ===================================================================== *)
(** * Part I.  The embedding                                              *)
(* ===================================================================== *)

(** ** Python values, exceptions, strings *)

Module Py.

(** The exceptions the modelled code can raise. [Exception] stands for any
    other exception, with its [str(e)]. *)
Inductive exn : Type :=
| KeyError (key : string)
| TypeError (msg : string)
| AttributeError (msg : string)
| Exception (msg : string).

Definition str_exn (e : exn) : string :=
  match e with
  | KeyError k => k
  | TypeError m => m
  | AttributeError m => m
  | Exception m => m
  end.

Inductive res (A : Type) : Type :=
| Ok (a : A)
| Raise (e : exn).
Arguments Ok {A} a.
Arguments Raise {A} e.

Definition bind {A B} (m : res A) (k : A -> res B) : res B :=
  match m with
  | Ok a => k a
  | Raise e => Raise e
  end.

(** [try: m except Exception as e: h e] *)
Definition catch {A} (m : res A) (h : exn -> res A) : res A :=
  match m with
  | Ok a => Ok a
  | Raise e => h e
  end.

(** The JSON-like values: [None], [bool], [int], [str], [list], and [dict]
    with [str] keys. Floats are outside this universe. *)
Inductive value : Type :=
| VNone
| VBool (b : bool)
| VInt (z : Z)
| VStr (s : string)
| VList (l : list value)
| VDict (kvs : list (string * value)).

(** [bool(v)] *)
Definition truthy (v : value) : bool :=
  match v with
  | VNone => false
  | VBool b => b
  | VInt z => negb (z =? 0)%Z
  | VStr s => negb (String.eqb s "")
  | VList l => match l with [] => false | _ => true end
  | VDict kvs => match kvs with [] => false | _ => true end
  end.

(** [a or b] on values *)
Definition por (a b : value) : value := if truthy a then a else b.

(** [d.get(k)] on the bindings of a dict: the last binding of [k] wins. *)
Fixpoint dict_get (k : string) (kvs : list (string * value)) : option value :=
  match kvs with
  | [] => None
  | (k', v) :: rest =>
      match dict_get k rest with
      | Some v' => Some v'
      | None => if String.eqb k k' then Some v else None
      end
  end.

(** [k in d] *)
Definition dict_mem (k : string) (kvs : list (string * value)) : bool :=
  match dict_get k kvs with Some _ => true | None => false end.

(** [d.get(k, default)] *)
Definition dict_get_default (k : string) (kvs : list (string * value)) (d : value) : value :=
  match dict_get k kvs with Some v => v | None => d end.

(** The double quote, which a string literal cannot hold. *)
Definition dq : ascii := "034"%char.
Definition nl : ascii := "010"%char.

(** [p in s] for strings: [p] occurs in [s] as a contiguous substring. *)
Fixpoint str_in (p s : string) : bool :=
  String.prefix p s ||
  match s with
  | EmptyString => false
  | String _ s' => str_in p s'
  end.

(** [s[:n]] *)
Fixpoint str_take (n : nat) (s : string) : string :=
  match n, s with
  | S n', String c s' => String c (str_take n' s')
  | _, _ => EmptyString
  end.

(** [str.isspace] on one code point below 256. *)
Definition is_space (c : ascii) : bool :=
  let n := nat_of_ascii c in
  ((9 <=? n)%nat && (n <=? 13)%nat) || ((28 <=? n)%nat && (n <=? 32)%nat)
  || (n =? 133)%nat || (n =? 160)%nat.

Fixpoint lstrip (s : list ascii) : list ascii :=
  match s with
  | c :: r => if is_space c then lstrip r else s
  | [] => []
  end.

(** [s.strip()] *)
Definition strip_l (s : list ascii) : list ascii := rev (lstrip (rev (lstrip s))).
Definition strip (s : string) : string :=
  string_of_list_ascii (strip_l (list_ascii_of_string s)).

(** [s.lower()] and [s.upper()] on the ASCII letters. *)
Definition lower_ascii (c : ascii) : ascii :=
  let n := nat_of_ascii c in
  if ((65 <=? n)%nat && (n <=? 90)%nat) then ascii_of_nat (n + 32) else c.
Definition upper_ascii (c : ascii) : ascii :=
  let n := nat_of_ascii c in
  if ((97 <=? n)%nat && (n <=? 122)%nat) then ascii_of_nat (n - 32) else c.
Fixpoint str_map (f : ascii -> ascii) (s : string) : string :=
  match s with
  | EmptyString => EmptyString
  | String c s' => String (f c) (str_map f s')
  end.
Definition lower : string -> string := str_map lower_ascii.
Definition upper : string -> string := str_map upper_ascii.

(** [str(n)] for an int *)
Definition str_int (z : Z) : string := pretty z.

(** Python [float(z)] for an int within the 63-bit range, and [int(f)]
    (truncation toward zero) for a finite float. *)
Definition float_of_int (z : Z) : float :=
  if (z <? 0)%Z then PrimFloat.opp (PrimFloat.of_uint63 (Uint63.of_Z (- z)))
  else PrimFloat.of_uint63 (Uint63.of_Z z).

Definition int_of_float (f : float) : Z :=
  match Prim2SF f with
  | S754_finite s m e =>
      let mag := if (0 <=? e)%Z then Z.shiftl (Z.pos m) e else Z.shiftr (Z.pos m) (- e) in
      if s then (- mag)%Z else mag
  | _ => 0%Z
  end.

(** [a / b] on ints (true division), for ints that convert exactly. *)
Definition true_div (a b : Z) : float :=
  PrimFloat.div (float_of_int a) (float_of_int b).

(** [bool(f)] on a float: zero is falsy, everything else (nan too) is truthy *)
Definition truthy_float (f : float) : bool :=
  negb (PrimFloat.eqb f PrimFloat.zero).

(** [repr(v)] and [str(v)]. How Python quotes and escapes a string inside a
    [repr] is left to [repr_str]. *)
Section repr.
Variable repr_str : string -> string.

Fixpoint repr (v : value) : string :=
  match v with
  | VNone => "None"
  | VBool true => "True"
  | VBool false => "False"
  | VInt z => str_int z
  | VStr s => repr_str s
  | VList l =>
      "[" +:+
      (fix elems (l : list value) : string :=
         match l with
         | [] => ""
         | [x] => repr x
         | x :: l' => repr x +:+ ", " +:+ elems l'
         end) l +:+ "]"
  | VDict kvs =>
      "{" +:+
      (fix members (kvs : list (string * value)) : string :=
         match kvs with
         | [] => ""
         | [(k, x)] => repr_str k +:+ ": " +:+ repr x
         | (k, x) :: kvs' => repr_str k +:+ ": " +:+ repr x +:+ ", " +:+ members kvs'
         end) kvs +:+ "}"
  end.

Definition str (v : value) : string :=
  match v with
  | VStr s => s
  | _ => repr v
  end.
End repr.

(** A bool is an int in arithmetic and comparisons. *)
Definition as_int (v : value) : option Z :=
  match v with
  | VInt z => Some z
  | VBool b => Some (Z.b2z b)
  | _ => None
  end.

End Py.

(** ** The JSON codec of the sandbox pipe

    [json.dumps] (default separators, [ensure_ascii]) and [json.loads], on the
    values of [Py.value]. Numbers are ints: a JSON number with a fraction or
    an exponent, [NaN] and [Infinity], and a [\u] escape of a code point above
    255 denote values outside [Py.value], and [loads] gives no result for
    them. *)

Module Json.
Import Py.

Definition backslash : ascii := "\"%char.

Definition hex_digit (n : nat) : ascii :=
  if (n <? 10)%nat then ascii_of_nat (48 + n) else ascii_of_nat (87 + n).

Definition hex_val (c : ascii) : option nat :=
  let n := nat_of_ascii c in
  if ((48 <=? n)%nat && (n <=? 57)%nat) then Some (n - 48)%nat
  else if ((97 <=? n)%nat && (n <=? 102)%nat) then Some (n - 87)%nat
  else if ((65 <=? n)%nat && (n <=? 70)%nat) then Some (n - 55)%nat
  else None.

(** One character of a string, as [json.dumps] writes it. *)
Definition escape_char (c : ascii) : list ascii :=
  let n := nat_of_ascii c in
  if Ascii.eqb c dq then [backslash; dq]
  else if Ascii.eqb c backslash then [backslash; backslash]
  else if (n =? 10)%nat then [backslash; "n"%char]
  else if (n =? 13)%nat then [backslash; "r"%char]
  else if (n =? 9)%nat then [backslash; "t"%char]
  else if (n =? 8)%nat then [backslash; "b"%char]
  else if (n =? 12)%nat then [backslash; "f"%char]
  else if ((32 <=? n)%nat && (n <=? 126)%nat) then [c]
  else [backslash; "u"%char; "0"%char; "0"%char; hex_digit (n / 16); hex_digit (n mod 16)].

Definition escape (s : list ascii) : list ascii := flat_map escape_char s.

(** The character a one-letter escape stands for. *)
Definition unescape (e : ascii) : option ascii :=
  if Ascii.eqb e dq then Some dq
  else if Ascii.eqb e backslash then Some backslash
  else if Ascii.eqb e "/"%char then Some "/"%char
  else if Ascii.eqb e "b"%char then Some "008"%char
  else if Ascii.eqb e "f"%char then Some "012"%char
  else if Ascii.eqb e "n"%char then Some "010"%char
  else if Ascii.eqb e "r"%char then Some "013"%char
  else if Ascii.eqb e "t"%char then Some "009"%char
  else None.

Definition hex4 (a b c d : ascii) : option nat :=
  match hex_val a, hex_val b, hex_val c, hex_val d with
  | Some x, Some y, Some z, Some w => Some (((x * 16 + y) * 16 + z) * 16 + w)%nat
  | _, _, _, _ => None
  end.

Definition cons_fst {A B} (a : A) (r : option (list A * B)) : option (list A * B) :=
  match r with
  | Some (l, b) => Some (a :: l, b)
  | None => None
  end.

(** The body of a string after its opening quote, up to the closing quote
    (the strict scanner: a raw control character is an error). *)
Fixpoint scanstring (s : list ascii) : option (list ascii * list ascii) :=
  match s with
  | [] => None
  | c :: r =>
      if Ascii.eqb c dq then Some ([], r)
      else if Ascii.eqb c backslash then
        match r with
        | [] => None
        | e :: r1 =>
            if Ascii.eqb e "u"%char then
              match r1 with
              | h1 :: h2 :: h3 :: h4 :: r2 =>
                  match hex4 h1 h2 h3 h4 with
                  | Some n => if (n <? 256)%nat then cons_fst (ascii_of_nat n) (scanstring r2) else None
                  | None => None
                  end
              | _ => None
              end
            else
              match unescape e with
              | Some ch => cons_fst ch (scanstring r1)
              | None => None
              end
        end
      else if (nat_of_ascii c <? 32)%nat then None
      else cons_fst c (scanstring r)
  end.

(** Decimal digits *)
Fixpoint render_uint (u : Decimal.uint) : list ascii :=
  match u with
  | Decimal.Nil => []
  | Decimal.D0 u => "0"%char :: render_uint u
  | Decimal.D1 u => "1"%char :: render_uint u
  | Decimal.D2 u => "2"%char :: render_uint u
  | Decimal.D3 u => "3"%char :: render_uint u
  | Decimal.D4 u => "4"%char :: render_uint u
  | Decimal.D5 u => "5"%char :: render_uint u
  | Decimal.D6 u => "6"%char :: render_uint u
  | Decimal.D7 u => "7"%char :: render_uint u
  | Decimal.D8 u => "8"%char :: render_uint u
  | Decimal.D9 u => "9"%char :: render_uint u
  end.

Definition digit_of (c : ascii) : option (Decimal.uint -> Decimal.uint) :=
  if Ascii.eqb c "0"%char then Some Decimal.D0
  else if Ascii.eqb c "1"%char then Some Decimal.D1
  else if Ascii.eqb c "2"%char then Some Decimal.D2
  else if Ascii.eqb c "3"%char then Some Decimal.D3
  else if Ascii.eqb c "4"%char then Some Decimal.D4
  else if Ascii.eqb c "5"%char then Some Decimal.D5
  else if Ascii.eqb c "6"%char then Some Decimal.D6
  else if Ascii.eqb c "7"%char then Some Decimal.D7
  else if Ascii.eqb c "8"%char then Some Decimal.D8
  else if Ascii.eqb c "9"%char then Some Decimal.D9
  else None.

Fixpoint scan_uint (s : list ascii) : Decimal.uint * list ascii :=
  match s with
  | [] => (Decimal.Nil, [])
  | c :: r =>
      match digit_of c with
      | Some d => let (u, r') := scan_uint r in (d u, r')
      | None => (Decimal.Nil, s)
      end
  end.

Definition render_int (z : Z) : list ascii :=
  match z with
  | Z0 => ["0"%char]
  | Zpos p => render_uint (Pos.to_uint p)
  | Zneg p => "-"%char :: render_uint (Pos.to_uint p)
  end.

(** A number is an optional minus sign and then either a single zero or
    digits that do not start with a zero. Digits that start with a superfluous
    zero never lead to a value ([loads] finds extra data behind the zero), and
    a fraction or exponent behind the digits makes a float. *)
Definition starts_float (r : list ascii) : bool :=
  match r with
  | c :: _ => Ascii.eqb c "."%char || Ascii.eqb c "e"%char || Ascii.eqb c "E"%char
  | [] => false
  end.

Definition scan_number (s : list ascii) : option (Z * list ascii) :=
  let '(neg, s1) := match s with
                    | c :: r => if Ascii.eqb c "-"%char then (true, r) else (false, s)
                    | [] => (false, s)
                    end in
  let '(u, r) := scan_uint s1 in
  if Decimal.uint_beq (Decimal.unorm u) u && negb (starts_float r)
  then Some (if neg then (- Z.of_N (N.of_uint u))%Z else Z.of_N (N.of_uint u), r)
  else None.

Definition is_ws (c : ascii) : bool :=
  Ascii.eqb c " "%char || Ascii.eqb c "009"%char || Ascii.eqb c "010"%char || Ascii.eqb c "013"%char.

Fixpoint skip_ws (s : list ascii) : list ascii :=
  match s with
  | c :: r => if is_ws c then skip_ws r else s
  | [] => []
  end.

Definition lit (s : string) : list ascii := list_ascii_of_string s.

(** What follows the prefix [p] in [s], when [s] starts with [p] *)
Fixpoint strip_prefix (p s : list ascii) : option (list ascii) :=
  match p with
  | [] => Some s
  | a :: p' =>
      match s with
      | b :: s' => if Ascii.eqb a b then strip_prefix p' s' else None
      | [] => None
      end
  end.

(** [json.dumps] *)
Fixpoint render (v : value) : list ascii :=
  match v with
  | VNone => lit "null"
  | VBool true => lit "true"
  | VBool false => lit "false"
  | VInt z => render_int z
  | VStr s => dq :: escape (list_ascii_of_string s) ++ [dq]
  | VList l =>
      "["%char ::
      (fix elems (l : list value) : list ascii :=
         match l with
         | [] => []
         | [x] => render x
         | x :: l' => render x ++ lit ", " ++ elems l'
         end) l ++ ["]"%char]
  | VDict kvs =>
      "{"%char ::
      (fix members (kvs : list (string * value)) : list ascii :=
         match kvs with
         | [] => []
         | [(k, x)] => dq :: escape (list_ascii_of_string k) ++ dq :: lit ": " ++ render x
         | (k, x) :: kvs' =>
             dq :: escape (list_ascii_of_string k) ++ dq :: lit ": " ++ render x ++ lit ", " ++ members kvs'
         end) kvs ++ ["}"%char]
  end.

Definition dumps (v : value) : string := string_of_list_ascii (render v).

(** The elements of a list and the members of a dict as [render] writes
    them between the brackets *)
Fixpoint render_elems (l : list value) : list ascii :=
  match l with
  | [] => []
  | x :: l' =>
      match l' with
      | [] => render x
      | _ :: _ => render x ++ lit ", " ++ render_elems l'
      end
  end.

Fixpoint render_members (kvs : list (string * value)) : list ascii :=
  match kvs with
  | [] => []
  | (k, x) :: kvs' =>
      match kvs' with
      | [] => dq :: escape (list_ascii_of_string k) ++ dq :: lit ": " ++ render x
      | _ :: _ =>
          dq :: escape (list_ascii_of_string k) ++ dq :: lit ": " ++ render x
          ++ lit ", " ++ render_members kvs'
      end
  end.

(** Character classes of the grammar: a decimal digit; the first character
    of a number; the first character of any value; and what can stand right
    behind a value that [render] wrote (nothing, a comma, a closing bracket) *)
Definition is_digit (c : ascii) : bool :=
  match digit_of c with Some _ => true | None => false end.

Definition is_num_start (c : ascii) : bool := is_digit c || Ascii.eqb c "-"%char.

Definition is_value_start (c : ascii) : bool :=
  is_num_start c || Ascii.eqb c dq || Ascii.eqb c "["%char || Ascii.eqb c "{"%char
  || Ascii.eqb c "n"%char || Ascii.eqb c "t"%char || Ascii.eqb c "f"%char.

Definition follows (r : list ascii) : bool :=
  match r with
  | [] => true
  | c :: _ => Ascii.eqb c ","%char || Ascii.eqb c "]"%char || Ascii.eqb c "}"%char
  end.

(** The recursive-descent decoder, with fuel for the nesting. *)
Fixpoint parse_value (n : nat) (s : list ascii) : option (value * list ascii) :=
  match n with
  | O => None
  | S n =>
      match s with
      | [] => None
      | c :: r =>
          if Ascii.eqb c dq then
            match scanstring r with
            | Some (str, r') => Some (VStr (string_of_list_ascii str), r')
            | None => None
            end
          else if Ascii.eqb c "["%char then
            match skip_ws r with
            | c' :: r' =>
                if Ascii.eqb c' "]"%char then Some (VList [], r')
                else match parse_elems n (c' :: r') with
                     | Some (l, r'') => Some (VList l, r'')
                     | None => None
                     end
            | [] => None
            end
          else if Ascii.eqb c "{"%char then
            match skip_ws r with
            | c' :: r' =>
                if Ascii.eqb c' "}"%char then Some (VDict [], r')
                else match parse_members n (c' :: r') with
                     | Some (kvs, r'') => Some (VDict kvs, r'')
                     | None => None
                     end
            | [] => None
            end
          else
            match strip_prefix (lit "null") s with
            | Some r' => Some (VNone, r')
            | None =>
            match strip_prefix (lit "true") s with
            | Some r' => Some (VBool true, r')
            | None =>
            match strip_prefix (lit "false") s with
            | Some r' => Some (VBool false, r')
            | None =>
                match scan_number s with
                | Some (z, r') => Some (VInt z, r')
                | None => None
                end
            end end end
      end
  end
with parse_elems (n : nat) (s : list ascii) : option (list value * list ascii) :=
  match n with
  | O => None
  | S n =>
      match parse_value n s with
      | Some (v, r) =>
          match skip_ws r with
          | c :: r' =>
              if Ascii.eqb c "]"%char then Some ([v], r')
              else if Ascii.eqb c ","%char then
                match parse_elems n (skip_ws r') with
                | Some (l, r'') => Some (v :: l, r'')
                | None => None
                end
              else None
          | [] => None
          end
      | None => None
      end
  end
with parse_members (n : nat) (s : list ascii) : option (list (string * value) * list ascii) :=
  match n with
  | O => None
  | S n =>
      match s with
      | c :: r =>
          if Ascii.eqb c dq then
            match scanstring r with
            | Some (k, r1) =>
                match skip_ws r1 with
                | c1 :: r2 =>
                    if Ascii.eqb c1 ":"%char then
                      match parse_value n (skip_ws r2) with
                      | Some (v, r3) =>
                          match skip_ws r3 with
                          | c3 :: r4 =>
                              if Ascii.eqb c3 "}"%char then Some ([(string_of_list_ascii k, v)], r4)
                              else if Ascii.eqb c3 ","%char then
                                match parse_members n (skip_ws r4) with
                                | Some (kvs, r5) => Some ((string_of_list_ascii k, v) :: kvs, r5)
                                | None => None
                                end
                              else None
                          | [] => None
                          end
                      | None => None
                      end
                    else None
                | [] => None
                end
            | None => None
            end
          else None
      | [] => None
      end
  end.

(** Where a decoder that started in some text in front of an object text
    [O] (an opening brace, a quote, and then [o2]) can have stopped: inside
    that text, with all of [O] still ahead, or behind the brace and quote of
    [O], taken for the end of a string *)
Definition crossed (O o2 rest : list ascii) : Prop :=
  (exists u', rest = u' ++ O) \/ rest = o2.

(** [json.loads]: leading whitespace, one value, trailing whitespace, and
    nothing else. The length of the text is fuel enough for its nesting. *)
Definition loads_l (s : list ascii) : option value :=
  match parse_value (S (length s)) (skip_ws s) with
  | Some (v, r) => match skip_ws r with [] => Some v | _ => None end
  | None => None
  end.

Definition loads (s : string) : option value := loads_l (list_ascii_of_string s).

End Json.

(** ** The code sandbox ([_run_code_safely] and the harness it generates) *)

Module Sandbox.
Import Py.

(** *** The child process

    What the interpreter makes of [code_src] once it is pasted into the
    harness file: how its top-level statements end, and the callable the
    harness's search ([solve], [solution], [main], then any public callable)
    finds among the globals. The bindings the harness itself relies on
    ([json], [print], [_run]) are taken to be left alone by the source. *)

Inductive top_level : Type :=
| TopReturns (out err : string)   (* runs to its end, having written out and err *)
| TopExits (out err : string)     (* ends the process: an uncaught exception, an exit *)
| TopOvertime.                    (* is still running when the timeout expires *)

Inductive call_outcome : Type :=
| Returns (out : string) (v : value)
| Raises (out : string) (msg : string)     (* an [Exception], with its [str(e)] *)
| Exits (out err : string)                 (* ends the process from inside the call *)
| Overtime.

Record program : Type := Program {
  top : top_level;
  (* the outcome of the k-th call, on the given positional arguments *)
  callable : option (nat -> list value -> call_outcome)
}.

(** The result of [subprocess.run(..., capture_output=True, timeout=timeout)] *)
Inductive completed : Type :=
| TimeoutExpired
| Completed (stdout stderr : string).

Inductive run_end : Type :=
| Finished (passed : Z) (results : list value) (out : string)
| Exited (out err : string)
| TimedOut.

Definition is_str (v : value) : bool :=
  match v with VStr _ => true | _ => false end.

Section harness.
(** [==] on values and [repr] are Python's. *)
Variable py_eq : value -> value -> bool.
Variable repr_str : string -> string.

(** [fn(inp)] when [isinstance(inp, (list, str, int))], else [fn( *inp)] *)
Definition call (fn : nat -> list value -> call_outcome) (k : nat) (inp : value) : call_outcome :=
  match inp with
  | VList _ | VStr _ | VInt _ | VBool _ => fn k [inp]
  | VDict kvs => fn k (map (fun kv => VStr (fst kv)) kvs)
  | VNone => Raises "" "argument after * must be an iterable, not NoneType"
  end.

(** [ok = result == expected], with the whitespace-trimmed retry on strings *)
Definition compare (result expected : value) : bool :=
  if py_eq result expected then true
  else match expected, result with
       | VStr e, VStr r => String.eqb (strip r) (strip e)
       | _, _ => false
       end.

(** The [for inp, expected in tests] loop of [_run] *)
Fixpoint run_tests (fn : nat -> list value -> call_outcome) (k : nat)
    (tests : list (value * value)) (passed : Z) (results : list value) (out : string) : run_end :=
  match tests with
  | [] => Finished passed results out
  | (inp, expected) :: rest =>
      match call fn k inp with
      | Returns o result =>
          let ok := compare result expected in
          run_tests fn (S k) rest (if ok then passed + 1 else passed)
            (results ++ [VDict [("input", VStr (repr repr_str inp)); ("expected", expected);
                                ("got", result); ("passed", VBool ok)]])
            (out +:+ o)
      | Raises o msg =>
          run_tests fn (S k) rest passed
            (results ++ [VDict [("input", VStr (repr repr_str inp)); ("expected", expected);
                                ("error", VStr msg); ("passed", VBool false)]])
            (out +:+ o)
      | Exits o err => Exited (out +:+ o) err
      | Overtime => TimedOut
      end
  end.

(** What [_run] prints at its end *)
Definition report_of (passed : Z) (tests : list (value * value)) (results : list value) : value :=
  VDict [("passed", VInt passed); ("total", VInt (Z.of_nat (length tests))); ("results", VList results)].

Definition no_function : value := VDict [("error", VStr "No function found")].

Definition print (v : value) : string := Json.dumps v +:+ String nl "".

(** The harness file run as a process: the source's top-level statements,
    then [_run()]. *)
Definition harness_process (p : program) (tests : list (value * value)) : completed :=
  match top p with
  | TopOvertime => TimeoutExpired
  | TopExits out err => Completed out err
  | TopReturns out err =>
      match callable p with
      | None => Completed (out +:+ print no_function) err
      | Some fn =>
          match run_tests fn 0 tests 0 [] "" with
          | Finished passed results o =>
              Completed (out +:+ o +:+ print (report_of passed tests results)) err
          | Exited o err' => Completed (out +:+ o) (err +:+ err')
          | TimedOut => TimeoutExpired
          end
      end
  end.

(** *** The parent: [_run_code_safely] *)

Variable python : string -> program.

Definition dangerous : list string :=
  ["subprocess"; "socket"; "requests"; "eval("; "exec("; "__import__"; "open("; "os.system"].

Definition failure (total : nat) (msg : string) : value * value * value :=
  (VInt 0, VInt (Z.of_nat total), VList [VDict [("error", VStr msg)]]).

(** What the parent makes of the decoded [data] *)
Definition read_data (data : value) (total : nat) : res (value * value * value) :=
  match data with
  | VDict kvs =>
      if dict_mem "error" kvs
      then Ok (VInt 0, VInt (Z.of_nat total),
               VList [VDict [("error", dict_get_default "error" kvs VNone)]])
      else Ok (dict_get_default "passed" kvs (VInt 0),
               dict_get_default "total" kvs (VInt (Z.of_nat total)),
               dict_get_default "results" kvs (VList []))
  | VStr s =>
      if str_in "error" s then Raise (TypeError "string indices must be integers")
      else Raise (AttributeError "'str' object has no attribute 'get'")
  | VList l =>
      if existsb (fun x => match x with VStr e => String.eqb e "error" | _ => false end) l
      then Raise (TypeError "list indices must be integers or slices, not str")
      else Raise (AttributeError "'list' object has no attribute 'get'")
  | VNone => Raise (TypeError "argument of type 'NoneType' is not iterable")
  | VBool _ => Raise (TypeError "argument of type 'bool' is not iterable")
  | VInt _ => Raise (TypeError "argument of type 'int' is not iterable")
  end.

Definition _run_code_safely (code_src : string) (test_cases : list (value * value)) (timeout : Z)
    : res (value * value * value) :=
  let total := length test_cases in
  if String.eqb code_src "" then Ok (failure total "No code extracted from response")
  else
    match find (fun pattern => str_in pattern code_src) dangerous with
    | Some pattern => Ok (failure total ("Forbidden pattern: " +:+ pattern))
    | None =>
        match harness_process (python code_src) test_cases with
        | TimeoutExpired =>
            Ok (failure total ("Execution timeout (" +:+ str_int timeout +:+ "s)"))
        | Completed out err =>
            let stdout := strip out in
            let stderr := strip err in
            if String.eqb stdout "" then
              Ok (failure total ("No output. Stderr: " +:+ str_take 200 stderr))
            else
              match Json.loads stdout with
              | Some data => read_data data total
              | None => Ok (failure total ("Invalid JSON: " +:+ str_take 100 stdout))
              end
        end
    end.

End harness.
End Sandbox.

(** ** The model tester ([ollama_etch_tester.py]) *)

Module Tester.
Import Py.

(** *** Responses of the LLM client *)

(** A response is a plain value ([None], a [str], a [dict], ...) or an object
    with attributes, which carries the text its [str()] gives. *)
Inductive response : Type :=
| RespValue (v : value)
| RespObject (attrs : list (string * value)) (shown : string).

(** A deterministic client: the outcome of [chat(model, prompt)] and the
    seconds it took, given the calls made before it. *)
Record client : Type := Client {
  chat : list (string * string) -> string -> string -> res response * float
}.

(** Computations that call the client: the log of calls is threaded through,
    and an exception leaves the log as it was when it was raised. *)
Definition M (A : Type) : Type := list (string * string) -> res A * list (string * string).

Definition ret {A} (a : A) : M A := fun log => (Ok a, log).
Definition lift {A} (r : res A) : M A := fun log => (r, log).
Definition bindM {A B} (m : M A) (k : A -> M B) : M B :=
  fun log =>
    match m log with
    | (Ok a, log') => k a log'
    | (Raise e, log') => (Raise e, log')
    end.

Declare Scope tester_scope.
Delimit Scope tester_scope with tester.
Notation "x <- m ; k" := (bindM m (fun x => k))
  (at level 20, m at level 100, k at level 200, only parsing) : tester_scope.
Notation "' p <- m ; k" := (bindM m (fun x => match x with p => k end))
  (at level 20, p pattern, m at level 100, k at level 200, only parsing) : tester_scope.

(** [v[:n]] on a value *)
Definition slice (n : nat) (v : value) : res value :=
  match v with
  | VStr s => Ok (VStr (str_take n s))
  | VList l => Ok (VList (take n l))
  | VDict _ => Raise (KeyError "slice(None, n, None)")
  | _ => Raise (TypeError "object is not subscriptable")
  end.

Definition truthy_err (error : option string) : bool :=
  match error with
  | Some m => negb (String.eqb m "")
  | None => false
  end.

Definition value_of_err (error : option string) : value :=
  match error with
  | Some m => VStr m
  | None => VNone
  end.

Section tester.
Variable repr_str : string -> string.
(** [==] on values, for the harness *)
Variable py_eq : value -> value -> bool.
(** The interpreter that runs a generated harness *)
Variable python : string -> Sandbox.program.
(** [round(x, ndigits)], [statistics.mean], [statistics.median] *)
Variable py_round : float -> Z -> float.
Variable mean : list float -> float.
Variable median : list float -> float.
(** [_extract_code] is not needed by any property below and is left open. *)
Variable _extract_code : value -> res string.

Definition str_response (resp : response) : string :=
  match resp with
  | RespValue v => str repr_str v
  | RespObject _ shown => shown
  end.

(** [getattr(resp, name, None)] *)
Definition getattr (resp : response) (name : string) : value :=
  match resp with
  | RespObject attrs _ => dict_get_default name attrs VNone
  | RespValue _ => VNone
  end.

Definition hasattr (resp : response) (name : string) : bool :=
  match resp with
  | RespObject attrs _ => dict_mem name attrs
  | RespValue _ => false
  end.

(** [m.get('content')] on whatever the message is *)
Definition get_content (message : value) : res value :=
  match message with
  | VDict m => Ok (dict_get_default "content" m VNone)
  | _ => Raise (AttributeError "object has no attribute 'get'")
  end.

Definition _get_response_text (resp : response) : res value :=
  match resp with
  | RespValue VNone => Ok VNone
  | RespValue (VStr s) => Ok (VStr s)
  | RespValue (VDict d) =>
      bind (get_content (dict_get_default "message" d (VDict []))) (fun content =>
      Ok (por (por (por content (dict_get_default "response" d VNone))
                   (dict_get_default "text" d VNone))
              (VStr (str_response resp))))
  | _ =>
      let first := por (por (getattr resp "text") (getattr resp "response")) (getattr resp "content") in
      if truthy first then Ok first
      else
        bind (if hasattr resp "message" then get_content (getattr resp "message") else Ok VNone)
          (fun content => Ok (por content (VStr (str_response resp))))
  end.

(** [_chat_with_model]: the latency, the text and the error *)
Definition _chat_with_model (c : client) (model prompt : string) : M (float * value * option string) :=
  fun log =>
    let '(r, dt) := chat c log model prompt in
    let log' := log ++ [(model, prompt)] in
    match bind r _get_response_text with
    | Ok text => (Ok (dt, text, None), log')
    | Raise e => (Ok (dt, VNone, Some (str_exn e)), log')
    end.

(** *** The test tables *)

Record smart_test : Type := SmartTest {
  s_name : string;
  s_prompt : string;
  s_check : string -> bool;
  s_points : Z;
  s_category : string
}.

Record coding_test : Type := CodingTest {
  c_name : string;
  c_difficulty : string;
  c_prompt : string;
  c_test_cases : list (value * value);
  c_points : Z
}.

(** A word character of a regular expression, among the ASCII characters *)
Definition is_word (c : ascii) : bool :=
  let n := nat_of_ascii c in
  ((48 <=? n)%nat && (n <=? 57)%nat) || ((65 <=? n)%nat && (n <=? 90)%nat)
  || ((97 <=? n)%nat && (n <=? 122)%nat) || (n =? 95)%nat.

Fixpoint drop_prefix (p s : string) : option string :=
  match p, s with
  | EmptyString, _ => Some s
  | String a p', String b s' => if Ascii.eqb a b then drop_prefix p' s' else None
  | String _ _, EmptyString => None
  end.

(** [re.search(r'\bW\b', s)] for a word [W] of word characters *)
Fixpoint search_word_from (prev_word : bool) (w s : string) : bool :=
  (negb prev_word &&
   match drop_prefix w s with
   | Some EmptyString => true
   | Some (String c _) => negb (is_word c)
   | None => false
   end)
  || match s with
     | EmptyString => false
     | String c s' => search_word_from (is_word c) w s'
     end.
Definition search_word (w s : string) : bool := search_word_from false w s.

Definition quoted (s : string) : string := String dq (s +:+ String dq "").
Definition line (s : string) : string := s +:+ String nl "".

Definition SMARTNESS_TESTS : list smart_test :=
  [ SmartTest "Basic Arithmetic" "What is 17 + 28? Reply with just the number."
      (search_word "45") 10 "math";
    SmartTest "Multiplication" "What is 12 × 15? Reply with just the number."
      (search_word "180") 10 "math";
    SmartTest "Word Problem"
      "A store sells apples for $2 each. If you buy 7 apples and pay with a $20 bill, how much change do you get? Just the number."
      (search_word "6") 10 "math";
    SmartTest "Sequence Pattern"
      "What comes next in this sequence: 2, 6, 12, 20, 30, ? Reply with just the number."
      (search_word "42") 15 "logic";
    SmartTest "Logical Deduction"
      "All roses are flowers. Some flowers fade quickly. Can we conclude that some roses fade quickly? Answer yes or no only."
      (fun r => str_in "no" (lower r)) 15 "logic";
    SmartTest "Comparison Logic" "If A > B, B > C, and C > D, is A > D? Answer yes or no only."
      (fun r => str_in "yes" (lower r) && negb (str_in "no" (lower r))) 15 "logic";
    SmartTest "Factual Knowledge" "What is the capital of France? Reply with just the city name."
      (fun r => str_in "paris" (lower r)) 10 "knowledge";
    SmartTest "Reading Comprehension"
      "Read this: 'The blue car is faster than the red car. The green car is slower than the red car.' Which car is the slowest? Reply with just the color."
      (fun r => str_in "green" (lower r)) 15 "knowledge" ].

Definition only_function : string := "Return ONLY the function definition, no explanations.".

Definition ints (l : list Z) : value := VList (map VInt l).

Definition CODING_TESTS : list coding_test :=
  [ CodingTest "Sum of List" "easy"
      (line "Write a Python function called `solve(nums)` that returns the sum of all numbers in the list."
       +:+ line "Example: solve([1, 2, 3]) should return 6" +:+ only_function)
      [(ints [1; 2; 3], VInt 6); (ints [0; 0; 0], VInt 0); (ints [-1; 1; 5], VInt 5);
       (ints [10], VInt 10); (ints [], VInt 0)]
      25;
    CodingTest "Find Maximum" "easy"
      (line "Write a Python function called `solve(nums)` that returns the maximum number in the list."
       +:+ line "Example: solve([1, 5, 3]) should return 5" +:+ only_function)
      [(ints [1; 5; 3], VInt 5); (ints [-1; -5; -3], VInt (-1)); (ints [7], VInt 7);
       (ints [0; 0; 1], VInt 1)]
      25;
    CodingTest "Count Vowels" "medium"
      (line "Write a Python function called `solve(text)` that returns the count of vowels (a, e, i, o, u) in the string."
       +:+ line ("Example: solve(" +:+ quoted "hello" +:+ ") should return 2") +:+ only_function)
      [(VStr "hello", VInt 2); (VStr "AEIOU", VInt 5); (VStr "xyz", VInt 0);
       (VStr "Programming", VInt 3); (VStr "", VInt 0)]
      30;
    CodingTest "Reverse Words" "medium"
      (line "Write a Python function called `solve(text)` that reverses the order of words in a string."
       +:+ line ("Example: solve(" +:+ quoted "hello world" +:+ ") should return " +:+ quoted "world hello")
       +:+ only_function)
      [(VStr "hello world", VStr "world hello"); (VStr "a b c", VStr "c b a");
       (VStr "single", VStr "single"); (VStr "  spaced  ", VStr "spaced")]
      30;
    CodingTest "Fibonacci Sequence" "hard"
      (line "Write a Python function called `solve(n)` that returns the nth Fibonacci number (0-indexed)."
       +:+ line "F(0)=0, F(1)=1, F(n)=F(n-1)+F(n-2)"
       +:+ line "Example: solve(6) should return 8 (sequence: 0,1,1,2,3,5,8)" +:+ only_function)
      [(VInt 0, VInt 0); (VInt 1, VInt 1); (VInt 6, VInt 8); (VInt 10, VInt 55); (VInt 15, VInt 610)]
      40 ].

(** *** The two batteries *)

Local Open Scope tester_scope.

(** The per-bucket counters [{"earned": e, "total": t}], in the order of the
    dict literal. [bump] is [table[k][...] += ...]. *)
Fixpoint bump (k : string) (f : Z * Z -> Z * Z) (t : list (string * (Z * Z)))
    : res (list (string * (Z * Z))) :=
  match t with
  | [] => Raise (KeyError k)
  | (k', v) :: r =>
      if String.eqb k k' then Ok ((k', f v) :: r)
      else bind (bump k f r) (fun r' => Ok ((k', v) :: r'))
  end.

(** [round((earned / total) * 100, 1) if total > 0 else 0] *)
Definition percentage (earned total : Z) : float :=
  if (total >? 0)%Z
  then py_round (PrimFloat.mul (true_div earned total) (float_of_int 100)) 1
  else PrimFloat.zero.

Record smart_result : Type := SmartResult {
  sr_name : string;
  sr_category : string;
  sr_points : Z;
  sr_passed : bool;
  sr_latency_s : float;
  sr_response : value;
  sr_error : option string
}.

Record battery (R : Type) : Type := Battery {
  b_score : float;
  b_earned_points : Z;
  b_total_points : Z;
  b_bucket_scores : list (string * float);
  b_tests : list R
}.
Arguments Battery {R}.
Arguments b_score {R}.
Arguments b_earned_points {R}.
Arguments b_total_points {R}.
Arguments b_bucket_scores {R}.
Arguments b_tests {R}.

(** The state of a battery loop: results, total_points, earned_points and
    the bucket counters *)
Record acc (R : Type) : Type := Acc {
  a_results : list R;
  a_total : Z;
  a_earned : Z;
  a_buckets : list (string * (Z * Z))
}.
Arguments Acc {R}.
Arguments a_results {R}.
Arguments a_total {R}.
Arguments a_earned {R}.
Arguments a_buckets {R}.

Definition finish {R} (a : acc R) : battery R :=
  Battery (percentage (a_earned a) (a_total a)) (a_earned a) (a_total a)
    (map (fun kv => (fst kv, percentage (fst (snd kv)) (snd (snd kv)))) (a_buckets a))
    (a_results a).

Fixpoint smartness_loop (c : client) (model : string) (tests : list smart_test)
    (a : acc smart_result) : M (acc smart_result) :=
  match tests with
  | [] => ret a
  | test :: rest =>
      buckets <- lift (bump (s_category test) (fun et => (fst et, snd et + s_points test)%Z)
                         (a_buckets a)) ;
      ' (latency, response, error) <- _chat_with_model c model (s_prompt test) ;
      let passed := truthy response && negb (truthy_err error)
                    && s_check test (str repr_str response) in
      buckets' <- lift (if passed
                        then bump (s_category test) (fun et => (fst et + s_points test, snd et)%Z) buckets
                        else Ok buckets) ;
      recorded <- lift (if truthy response then slice 500 response else Ok (value_of_err error)) ;
      smartness_loop c model rest
        (Acc (a_results a ++ [SmartResult (s_name test) (s_category test) (s_points test) passed
                                (py_round latency 3) recorded error])
             (a_total a + s_points test)
             (if passed then a_earned a + s_points test else a_earned a)
             buckets')
  end.

Definition _run_smartness_tests (c : client) (model : string) : M (battery smart_result) :=
  a <- smartness_loop c model SMARTNESS_TESTS
         (Acc [] 0 0 [("math", (0, 0)); ("logic", (0, 0)); ("knowledge", (0, 0))]) ;
  ret (finish a).

Record coding_result : Type := CodingResult {
  cr_name : string;
  cr_difficulty : string;
  cr_points : Z;
  cr_earned : Z;
  cr_passed_tests : value;
  cr_total_tests : value;
  cr_latency_s : float;
  cr_error : option string;
  cr_code : option string;
  cr_raw_response : value;
  cr_test_results : value
}.

(** [int((passed / total) * points) if total > 0 else 0] *)
Definition points_earned (passed total : value) (points : Z) : res Z :=
  match as_int total with
  | None => Raise (TypeError "'>' not supported between these instances")
  | Some t =>
      if (t >? 0)%Z then
        match as_int passed with
        | Some p => Ok (int_of_float (PrimFloat.mul (true_div p t) (float_of_int points)))
        | None => Raise (TypeError "unsupported operand type(s) for /")
        end
      else Ok 0%Z
  end.

Fixpoint coding_loop (c : client) (model : string) (tests : list coding_test)
    (a : acc coding_result) : M (acc coding_result) :=
  match tests with
  | [] => ret a
  | test :: rest =>
      buckets <- lift (bump (c_difficulty test) (fun et => (fst et, snd et + c_points test)%Z)
                         (a_buckets a)) ;
      ' (latency, response, error) <- _chat_with_model c model (c_prompt test) ;
      if truthy_err error then
        coding_loop c model rest
          (Acc (a_results a ++ [CodingResult (c_name test) (c_difficulty test) (c_points test) 0
                                  (VInt 0) (VInt (Z.of_nat (length (c_test_cases test))))
                                  (py_round latency 3) error None VNone (VList [])])
               (a_total a + c_points test) (a_earned a) buckets)
      else
        code <- lift (_extract_code response) ;
        ' (passed, total, test_details) <-
            lift (Sandbox._run_code_safely py_eq repr_str python code (c_test_cases test) 5) ;
        earned <- lift (points_earned passed total (c_points test)) ;
        buckets' <- lift (bump (c_difficulty test) (fun et => (fst et + earned, snd et)%Z) buckets) ;
        raw <- lift (if truthy response then slice 300 response else Ok VNone) ;
        shown <- lift (slice 5 test_details) ;
        coding_loop c model rest
          (Acc (a_results a ++ [CodingResult (c_name test) (c_difficulty test) (c_points test) earned
                                  passed total (py_round latency 3) None
                                  (if String.eqb code "" then None else Some (str_take 500 code))
                                  raw shown])
               (a_total a + c_points test) (a_earned a + earned) buckets')
  end.

Definition _run_coding_tests (c : client) (model : string) : M (battery coding_result) :=
  a <- coding_loop c model CODING_TESTS
         (Acc [] 0 0 [("easy", (0, 0)); ("medium", (0, 0)); ("hard", (0, 0))]) ;
  ret (finish a).

(** The share [floor(points * passed / total)] the specification names *)
Definition floor_share (points passed total : Z) : Z := (points * passed / total)%Z.

(** The float computation checked against the exact share, for every pair
    with [0 <= passed <= total] and [1 <= total <= bound] *)
Definition agrees (points : Z) (bound : nat) : bool :=
  forallb (fun t => forallb (fun k =>
     match points_earned (VInt (Z.of_nat k)) (VInt (Z.of_nat t)) points with
     | Ok z => (z =? floor_share points (Z.of_nat k) (Z.of_nat t))%Z
     | Raise _ => false
     end) (seq 0 (S t))) (seq 1 bound).

(** *** [test_model] *)

Record latency_stats : Type := LatencyStats {
  ls_mean : option float;
  ls_median : option float;
  ls_min : option float;
  ls_max : option float
}.

Record details : Type := Details {
  d_score : float;
  d_points : string;
  d_buckets : list (string * float)
}.

Record report : Type := Report {
  model_of : string;
  stats : latency_stats;
  smartness_score : option float;
  code_score : option float;
  smartness_details : option details;
  coding_details : option details;
  tests_of : list (string * list (float * string))
}.

Definition float_min (l : list float) : float :=
  match l with
  | [] => PrimFloat.zero
  | x :: r => fold_left (fun m y => if PrimFloat.ltb y m then y else m) r x
  end.
Definition float_max (l : list float) : float :=
  match l with
  | [] => PrimFloat.zero
  | x :: r => fold_left (fun m y => if PrimFloat.ltb m y then y else m) r x
  end.

Definition smartness_pass (t : smart_result) : float * string :=
  (sr_latency_s t,
   "[" +:+ upper (sr_category t) +:+ "] " +:+ sr_name t +:+ ": "
   +:+ (if sr_passed t then "✓ PASS" else "✗ FAIL")
   +:+ " (" +:+ str_int (sr_points t) +:+ "pts) - " +:+ str_take 100 (str repr_str (sr_response t))).

Definition coding_pass (t : coding_result) : res (float * string) :=
  match as_int (cr_passed_tests t) with
  | None => Raise (TypeError "'>' not supported between these instances")
  | Some p =>
      let ratio := str repr_str (cr_passed_tests t) +:+ "/" +:+ str repr_str (cr_total_tests t) in
      let status := (if (p >? 0)%Z then "✓ " else "✗ ") +:+ ratio in
      let head := "[" +:+ upper (cr_difficulty t) +:+ "] " +:+ cr_name t +:+ ": " +:+ status
                  +:+ " (" +:+ str_int (cr_earned t) +:+ "/" +:+ str_int (cr_points t) +:+ "pts)" in
      Ok (cr_latency_s t,
          if truthy_err (cr_error t) then head +:+ " - Error: " +:+ default "" (cr_error t)
          else match cr_code t with
               | Some code => head +:+ String nl "" +:+ "Code: " +:+ str_take 200 code +:+ "..."
               | None => head
               end)
  end.

Fixpoint coding_passes (ts : list coding_result) : res (list (float * string)) :=
  match ts with
  | [] => Ok []
  | t :: rest =>
      bind (coding_pass t) (fun line => bind (coding_passes rest) (fun lines => Ok (line :: lines)))
  end.

Definition points_text (earned total : Z) : string := str_int earned +:+ "/" +:+ str_int total.

Definition test_model (c : client) (model : string) (repeat : Z) : M report :=
  smartness_results <- _run_smartness_tests c model ;
  coding_results <- _run_coding_tests c model ;
  let all_latencies :=
    List.filter truthy_float (map sr_latency_s (b_tests smartness_results))
    ++ List.filter truthy_float (map cr_latency_s (b_tests coding_results)) in
  let latency :=
    match all_latencies with
    | [] => LatencyStats None None None None
    | _ => LatencyStats (Some (py_round (mean all_latencies) 4))
             (Some (py_round (median all_latencies) 4))
             (Some (py_round (float_min all_latencies) 4))
             (Some (py_round (float_max all_latencies) 4))
    end in
  let smartness_passes := map smartness_pass (b_tests smartness_results) in
  passes <- lift (coding_passes (b_tests coding_results)) ;
  ret (Report model latency
         (Some (b_score smartness_results)) (Some (b_score coding_results))
         (Some (Details (b_score smartness_results)
                  (points_text (b_earned_points smartness_results) (b_total_points smartness_results))
                  (b_bucket_scores smartness_results)))
         (Some (Details (b_score coding_results)
                  (points_text (b_earned_points coding_results) (b_total_points coding_results))
                  (b_bucket_scores coding_results)))
         [("smartness", smartness_passes); ("coding", passes)]).

(** The calls one battery makes for a model: each test's prompt, once, in
    table order. *)
Definition battery_calls (model : string) : list (string * string) :=
  map (fun t => (model, s_prompt t)) SMARTNESS_TESTS
  ++ map (fun t => (model, c_prompt t)) CODING_TESTS.

End tester.
End Tester.

(** ** The run registry ([run_manager.py]) *)

Module RunManager.
Import Py.

Inductive status : Type := pending | running | done | error.

Definition status_eqb (a b : status) : bool :=
  match a, b with
  | pending, pending | running, running | done, done | error, error => true
  | _, _ => false
  end.

Section registry.
(** The metadata and the result are dicts the registry only stores. *)
Variables Meta Result : Type.

Record run : Type := Run {
  id : string;
  status_of : status;
  messages : list string;
  progress : Z;
  metadata : Meta;
  result : option Result
}.

(** [RUNS[run_id] = {...}] with the token [uuid.uuid4().hex] drew *)
Definition create_run (token : string) (meta : Meta) (RUNS : gmap string run)
    : string * gmap string run :=
  (token, <[token := Run token pending [] 0 meta None]> RUNS).

(** [run_id in RUNS] and [RUNS[run_id]] *)
Definition contains (RUNS : gmap string run) (run_id : string) : bool :=
  match RUNS !! run_id with Some _ => true | None => false end.

Definition getitem (RUNS : gmap string run) (run_id : string) : res run :=
  match RUNS !! run_id with
  | Some r => Ok r
  | None => Raise (KeyError run_id)
  end.

Definition set_running (run_id : string) (RUNS : gmap string run) : res (gmap string run) :=
  if contains RUNS run_id then
    bind (getitem RUNS run_id) (fun r =>
    Ok (<[run_id := Run (id r) running (messages r) (progress r) (metadata r) (result r)]> RUNS))
  else Ok RUNS.

Definition append_message (run_id msg : string) (RUNS : gmap string run) : res (gmap string run) :=
  if contains RUNS run_id then
    bind (getitem RUNS run_id) (fun r =>
    Ok (<[run_id := Run (id r) (status_of r) (messages r ++ [msg]) (progress r) (metadata r) (result r)]> RUNS))
  else Ok RUNS.

Definition set_progress (run_id : string) (pct : Z) (RUNS : gmap string run) : res (gmap string run) :=
  if contains RUNS run_id then
    bind (getitem RUNS run_id) (fun r =>
    Ok (<[run_id := Run (id r) (status_of r) (messages r) pct (metadata r) (result r)]> RUNS))
  else Ok RUNS.

Definition set_result (run_id : string) (res_ : Result) (RUNS : gmap string run) : res (gmap string run) :=
  if contains RUNS run_id then
    bind (getitem RUNS run_id) (fun r =>
    let r1 := Run (id r) done (messages r) (progress r) (metadata r) (result r) in
    let r2 := Run (id r1) (status_of r1) (messages r1) (progress r1) (metadata r1) (Some res_) in
    Ok (<[run_id := Run (id r2) (status_of r2) (messages r2) 100 (metadata r2) (result r2)]> RUNS))
  else Ok RUNS.

Definition set_error (run_id err_msg : string) (RUNS : gmap string run) : res (gmap string run) :=
  if contains RUNS run_id then
    bind (getitem RUNS run_id) (fun r =>
    let r1 := Run (id r) error (messages r) (progress r) (metadata r) (result r) in
    Ok (<[run_id := Run (id r1) (status_of r1) (messages r1 ++ [err_msg]) (progress r1) (metadata r1) (result r1)]> RUNS))
  else Ok RUNS.

Definition get_run (run_id : string) (RUNS : gmap string run) : option run := RUNS !! run_id.

End registry.

Arguments Run {Meta Result}.
Arguments id {Meta Result}.
Arguments status_of {Meta Result}.
Arguments messages {Meta Result}.
Arguments progress {Meta Result}.
Arguments metadata {Meta Result}.
Arguments result {Meta Result}.
Arguments create_run {Meta Result}.
Arguments contains {Meta Result}.
Arguments getitem {Meta Result}.
Arguments set_running {Meta Result}.
Arguments append_message {Meta Result}.
Arguments set_progress {Meta Result}.
Arguments set_result {Meta Result}.
Arguments set_error {Meta Result}.
Arguments get_run {Meta Result}.

End RunManager.

(** ** The run orchestrator ([app.py]) *)

Module App.
Import Py RunManager.

Record metadata : Type := Metadata {
  md_host : string;
  md_models : list string;
  md_repeat : Z
}.

(** [top_summary]: each entry is there or not *)
Record top_summary : Type := Top {
  fastest : option (string * option float);
  best_code : option (string * float);
  best_smart : option (string * float)
}.

Record summary : Type := Summary {
  host_of : string;
  models_tested : list Tester.report;
  available_models : list string;
  timestamp : float;
  error_of : option string;
  top_of : option top_summary;
  db_id : option Z
}.

(** What the orchestrator takes from outside *)
Record env : Type := Env {
  (* the names [_normalize_models(client.list())] gives, or what [client.list()] raised *)
  listing : res (list string);
  (* [test_model(client, mn, repeat)] *)
  run_test_model : string -> Z -> res Tester.report;
  (* [time.time()] *)
  clock : float;
  (* writing latest_results.json: its path, or the exception *)
  dump_file : res string;
  (* [db.save_run(summary)] *)
  save_run : res Z;
  (* how an f-string shows a score, a latency or None *)
  show : option float -> string
}.

(** The registry with every state it went through, oldest first: what a
    poller can see between two mutations. *)
Record world : Type := World {
  RUNS : gmap string (run metadata summary);
  history : list (gmap string (run metadata summary))
}.

Definition W (A : Type) : Type := world -> res A * world.

Definition retW {A} (a : A) : W A := fun w => (Ok a, w).
Definition liftW {A} (r : res A) : W A := fun w => (r, w).
Definition bindW {A B} (m : W A) (k : A -> W B) : W B :=
  fun w =>
    match m w with
    | (Ok a, w') => k a w'
    | (Raise e, w') => (Raise e, w')
    end.
Definition catchW {A} (m : W A) (h : exn -> W A) : W A :=
  fun w =>
    match m w with
    | (Ok a, w') => (Ok a, w')
    | (Raise e, w') => h e w'
    end.

Declare Scope app_scope.
Delimit Scope app_scope with app.
Notation "x <- m ; k" := (bindW m (fun x => k))
  (at level 20, m at level 100, k at level 200, only parsing) : app_scope.
Notation "m ;; k" := (bindW m (fun _ => k))
  (at level 100, k at level 200, only parsing, right associativity) : app_scope.
Local Open Scope app_scope.

(** [arun(run_manager.op(...))]: one mutation under the lock *)
Definition arun (op : gmap string (run metadata summary) -> res (gmap string (run metadata summary)))
    : W unit :=
  fun w =>
    match op (RUNS w) with
    | Ok R => (Ok tt, World R (history w ++ [R]))
    | Raise e => (Raise e, w)
    end.

(** [if run_id: arun(op(run_id, ...))] *)
Definition when_run (run_id : option string)
    (op : string -> gmap string (run metadata summary) -> res (gmap string (run metadata summary)))
    : W unit :=
  match run_id with
  | Some rid => if String.eqb rid "" then retW tt else arun (op rid)
  | None => retW tt
  end.

(** [int(((idx - 1) / total) * 100)] and [int((idx / total) * 95)] *)
Definition progress_before (idx total : Z) : Z :=
  int_of_float (PrimFloat.mul (true_div (idx - 1) total) (float_of_int 100)).
Definition progress_after (idx total : Z) : Z :=
  int_of_float (PrimFloat.mul (true_div idx total) (float_of_int 95)).

Fixpoint test_loop (e : env) (repeat : Z) (run_id : option string) (total idx : Z)
    (test_models : list string) (tested : list Tester.report) : W (list Tester.report) :=
  match test_models with
  | [] => retW tested
  | mn :: rest =>
      when_run run_id (fun rid => append_message rid
        ("Testing model: " +:+ mn +:+ " (" +:+ str_int idx +:+ "/" +:+ str_int total +:+ ")...")) ;;
      when_run run_id (fun rid => set_progress rid (progress_before idx total)) ;;
      res_ <- liftW (run_test_model e mn repeat) ;
      when_run run_id (fun rid => append_message rid
        ("Completed " +:+ mn +:+ ": smartness=" +:+ show e (Tester.smartness_score res_)
         +:+ "% mean=" +:+ show e (Tester.ls_mean (Tester.stats res_)) +:+ "s")) ;;
      when_run run_id (fun rid => set_progress rid (progress_after idx total)) ;;
      test_loop e repeat run_id total (idx + 1) rest (tested ++ [res_])
  end.

Definition _run_tests_sync (e : env) (host : string) (api_key : option string) (repeat : Z)
    (models : list string) (run_id : option string) : W summary :=
  match listing e with
  | Raise ex =>
      when_run run_id (fun rid => set_error rid (str_exn ex)) ;;
      retW (Summary host [] [] (clock e) (Some (str_exn ex)) None None)
  | Ok names =>
      let test_models :=
        match models with
        | [] => List.filter (fun mn => str_in "etch" (lower mn)) names
        | _ => List.filter (fun mn => existsb (String.eqb mn) names) models
        end in
      match test_models with
      | [] => retW (Summary host [] names (clock e) None None None)
      | _ =>
          tested <- test_loop e repeat run_id (Z.of_nat (length test_models)) 1 test_models [] ;
          when_run run_id (fun rid => set_progress rid 95) ;;
          retW (Summary host tested names (clock e) None None None)
      end
  end.

(** [min(ms, key=...)] and [max(ms, key=...)]: the first extremum wins. *)
Definition min_by {A} (key : A -> float) (x : A) (l : list A) : A :=
  fold_left (fun best y => if PrimFloat.ltb (key y) (key best) then y else best) l x.
Definition max_by {A} (key : A -> float) (x : A) (l : list A) : A :=
  fold_left (fun best y => if PrimFloat.ltb (key best) (key y) then y else best) l x.

(** [mean or float('inf')] *)
Definition fastest_key (m : Tester.report) : float :=
  match Tester.ls_mean (Tester.stats m) with
  | Some x => if truthy_float x then x else PrimFloat.infinity
  | None => PrimFloat.infinity
  end.

(** [(score is not None) and float(score) or -1] *)
Definition score_key (score : option float) : float :=
  match score with
  | Some x => if truthy_float x then x else PrimFloat.opp PrimFloat.one
  | None => PrimFloat.opp PrimFloat.one
  end.

Definition best_by (score : Tester.report -> option float) (ms : list Tester.report)
    : option (string * float) :=
  match ms with
  | [] => None
  | m :: rest =>
      let best := max_by (fun m => score_key (score m)) m rest in
      match score best with
      | Some x => Some (Tester.model_of best, x)
      | None => None
      end
  end.

Definition top_summary_of (ms : list Tester.report) : top_summary :=
  match ms with
  | [] => Top None None None
  | m :: rest =>
      let f := min_by fastest_key m rest in
      Top (Some (Tester.model_of f, Tester.ls_mean (Tester.stats f)))
        (best_by Tester.code_score ms) (best_by Tester.smartness_score ms)
  end.

Definition with_top (s : summary) (t : top_summary) : summary :=
  Summary (host_of s) (models_tested s) (available_models s) (timestamp s) (error_of s)
    (Some t) (db_id s).
Definition with_db_id (s : summary) (i : Z) : summary :=
  Summary (host_of s) (models_tested s) (available_models s) (timestamp s) (error_of s)
    (top_of s) (Some i).

(** The body of the background thread *)
Definition bg (e : env) (host : string) (api_key : option string) (repeat : Z)
    (models : list string) (run_id : string) : W unit :=
  arun (set_running run_id) ;;
  arun (append_message run_id "Starting run...") ;;
  catchW
    (s <- _run_tests_sync e host api_key repeat models (Some run_id) ;
     let s := with_top s (top_summary_of (models_tested s)) in
     arun (append_message run_id "Tests complete; saving result") ;;
     arun (set_result run_id s) ;;
     match dump_file e with
     | Ok p => arun (append_message run_id ("Saved results to " +:+ p))
     | Raise e2 => arun (append_message run_id ("Failed to save results: " +:+ str_exn e2))
     end ;;
     catchW
       (run_db_id <- liftW (save_run e) ;
        arun (append_message run_id ("Saved run into DB (id=" +:+ str_int run_db_id +:+ ")")) ;;
        arun (set_result run_id (with_db_id s run_db_id)))
       (fun e3 => arun (append_message run_id ("Failed to persist run to DB: " +:+ str_exn e3))) ;;
     arun (set_progress run_id 100))
    (fun ex => arun (set_error run_id (str_exn ex))).

(** [start_run]: the run is registered, and the thread's mutations follow.
    [None] is the [host required] reply. *)
Definition start_run (e : env) (token : string) (host : string) (api_key : option string)
    (repeat : Z) (models : list string) (R0 : gmap string (run metadata summary))
    : option (string * world) :=
  if String.eqb host "" then None
  else
    let '(run_id, R1) := create_run token (Metadata host models repeat) R0 in
    Some (run_id, snd (bg e host api_key repeat models run_id (World R1 [R1]))).

(** What a poller of [run_id] sees of a field over the history *)
Definition observed {A} (field : run metadata summary -> A) (run_id : string) (w : world) : list A :=
  omap (fun R => field <$> (R !! run_id)) (history w).

(** The changes of a sequence: runs of equal neighbours collapsed *)
Fixpoint changes (l : list status) : list status :=
  match l with
  | [] => []
  | x :: r =>
      match r with
      | y :: _ => if status_eqb x y then changes r else x :: changes r
      | [] => [x]
      end
  end.

(** The progress values a poller sees while the run is [running] *)
Definition running_progress (run_id : string) (w : world) : list Z :=
  map snd (List.filter (fun sp => status_eqb (fst sp) running)
             (observed (fun r => (status_of r, progress r)) run_id w)).

(** The same for the run that [start_run] registers *)
Definition progress_of_run (e : env) (token host : string) (api_key : option string)
    (repeat : Z) (models : list string) (R0 : gmap string (run metadata summary)) : list Z :=
  match start_run e token host api_key repeat models R0 with
  | Some (run_id, w) => running_progress run_id w
  | None => []
  end.

Fixpoint non_decreasing (l : list Z) : bool :=
  match l with
  | [] => true
  | x :: r =>
      match r with
      | y :: _ => (x <=? y)%Z && non_decreasing r
      | [] => true
      end
  end.

End App.

(** ** More of the registry: its mutations as one family *)

Module RunManagerMore.
Import Py RunManager.

Section registry.
Variables Meta Result : Type.

(** The five mutations of [run_manager.py], each with its arguments *)
Inductive mutation : Type :=
| SetRunning
| AppendMessage (msg : string)
| SetProgress (pct : Z)
| SetResult (res_ : Result)
| SetError (err_msg : string).

Definition apply_mutation (m : mutation) (run_id : string) (RUNS : gmap string (run Meta Result))
    : res (gmap string (run Meta Result)) :=
  match m with
  | SetRunning => set_running run_id RUNS
  | AppendMessage msg => append_message run_id msg RUNS
  | SetProgress pct => set_progress run_id pct RUNS
  | SetResult res_ => set_result run_id res_ RUNS
  | SetError err_msg => set_error run_id err_msg RUNS
  end.

(** What a mutation does to the run it names, when the registry holds it *)
Definition mutated (m : mutation) (r : run Meta Result) : run Meta Result :=
  match m with
  | SetRunning => Run (id r) running (messages r) (progress r) (metadata r) (result r)
  | AppendMessage msg =>
      Run (id r) (status_of r) (messages r ++ [msg]) (progress r) (metadata r) (result r)
  | SetProgress pct => Run (id r) (status_of r) (messages r) pct (metadata r) (result r)
  | SetResult res_ => Run (id r) done (messages r) 100 (metadata r) (Some res_)
  | SetError msg => Run (id r) error (messages r ++ [msg]) (progress r) (metadata r) (result r)
  end.

(** Every run is stored under its own id. *)
Definition keyed (RUNS : gmap string (run Meta Result)) : Prop :=
  forall k r, RUNS !! k = Some r -> id r = k.

(** [old] is an initial segment of [new] *)
Definition extends (old new : list string) : Prop := exists more, new = old ++ more.

End registry.

Arguments SetRunning {Result}.
Arguments AppendMessage {Result}.
Arguments SetProgress {Result}.
Arguments SetResult {Result}.
Arguments SetError {Result}.
Arguments apply_mutation {Meta Result}.
Arguments mutated {Meta Result}.
Arguments keyed {Meta Result}.

End RunManagerMore.

(** ** More of the web application: host and model lists *)

Module AppMore.
Import Py RunManager App.

(** [_unique(seq)]: the elements in the order of their first occurrence.
    [seen] is the Python set, [out] the list built so far. *)
Fixpoint _unique_loop (seq : list string) (seen : gset string) (out : list string)
    : list string :=
  match seq with
  | [] => out
  | x :: rest =>
      if decide (x ∈ seen) then _unique_loop rest seen out
      else _unique_loop rest ({[ x ]} ∪ seen) (out ++ [x])
  end.

Definition _unique (seq : list string) : list string := _unique_loop seq ∅ [].

(** [get_saved_hosts()], from [DEFAULT_HOST] and what [db.list_hosts()] gives *)
Definition get_saved_hosts (DEFAULT_HOST : string) (list_hosts : list string) : list string :=
  let s := _unique list_hosts in
  if existsb (String.eqb DEFAULT_HOST) s then s else s ++ [DEFAULT_HOST].

(** The models [_run_tests_sync] tests: the requested ones that the host
    has, in the order of the request; with no request, the host's models whose
    lower-cased name contains [etch]. *)
Definition test_models_of (models names : list string) : list string :=
  match models with
  | [] => List.filter (fun mn => str_in "etch" (lower mn)) names
  | _ => List.filter (fun mn => existsb (String.eqb mn) names) models
  end.

(** One element of what [client.list()] gave, as [_normalize_models] looks at
    it. Names are strings; [None] is Python's [None] or a missing key. *)
Inductive raw_model : Type :=
| RawStr (s : string)
    (* a str *)
| RawDict (name model : option string) (shown : string)
    (* a dict: [m.get('name')], [m.get('model')], [str(m)] *)
| RawGroup (entries : list (option (option string)))
    (* a pair of a str and a list or tuple: for each entry, whether it has a
       [model] attribute, and its value *)
| RawObject (model : option string)
    (* an object with a [model] attribute *)
| RawOther (shown : string).
    (* anything else: [str(m)] *)

(** What [client.list()] gave: something [list()] accepts, or not (then
    [shown] is [str(models_raw)]). *)
Inductive raw_listing : Type :=
| Iterable (items : list raw_model)
| NotIterable (shown : string).

(** [if name and name not in names: names.append(name)] *)
Definition add_name (name : option string) (names : list string) : list string :=
  match name with
  | Some s =>
      if negb (String.eqb s "") && negb (existsb (String.eqb s) names)
      then names ++ [s] else names
  | None => names
  end.

(** [a or b] on names: the first that is neither [None] nor empty *)
Definition name_or (a b : option string) : option string :=
  match a with
  | Some s => if String.eqb s "" then b else a
  | None => b
  end.

Definition add_entry (names : list string) (entry : option (option string)) : list string :=
  match entry with
  | Some nm => add_name nm names
  | None => names
  end.

Definition normalize_step (names : list string) (m : raw_model) : list string :=
  match m with
  | RawStr s => add_name (Some s) names
  | RawDict name model shown => add_name (name_or (name_or name model) (Some shown)) names
  | RawGroup entries => fold_left add_entry entries names
  | RawObject model => add_name model names
  | RawOther shown => add_name (Some shown) names
  end.

Definition _normalize_models (models_raw : raw_listing) : list string :=
  match models_raw with
  | Iterable items => fold_left normalize_step items []
  | NotIterable shown => [shown]
  end.

(** The two facts that every step of [_normalize_models] keeps *)
Definition clean (names : list string) : Prop := NoDup names /\ ("" ∉ names).

(** A step of the orchestrator that writes to no run but [token]'s, and one
    that always returns *)
Definition only_writes {A} (token : string) (m : W A) : Prop :=
  forall w, forall other, other <> token -> RUNS (snd (m w)) !! other = RUNS w !! other.
Definition returns {A} (m : W A) : Prop :=
  forall w, exists a, fst (m w) = Ok a.

(** The run of [token] is in the registry with this status. *)
Definition run_has_status (st : status) (token : string)
    (R : gmap string (run metadata summary)) : Prop :=
  status_of <$> (R !! token) = Some st.

End AppMore.

(** ** More of the sandbox: the records of a batch *)

Module SandboxMore.
Import Py Sandbox.

(** Whether a result record of the harness is marked passed *)
Definition record_passed (record : value) : bool :=
  match record with
  | VDict kvs =>
      match dict_get "passed" kvs with
      | Some (VBool true) => true
      | _ => false
      end
  | _ => false
  end.

(** The record is the one of this test: it shows the test's input and holds
    its expected value. *)
Definition record_of_test (repr_str : string -> string) (test : value * value)
    (record : value) : Prop :=
  match record with
  | VDict kvs =>
      dict_get "input" kvs = Some (VStr (repr repr_str (fst test)))
      /\ dict_get "expected" kvs = Some (snd test)
  | _ => False
  end.

End SandboxMore.

(** ** More of the tester: the accounts of a battery *)

Module TesterMore.
Import Py Tester.

#[global] Arguments Battery {R}.
#[global] Arguments b_score {R}.
#[global] Arguments b_earned_points {R}.
#[global] Arguments b_total_points {R}.
#[global] Arguments b_bucket_scores {R}.
#[global] Arguments b_tests {R}.
#[global] Arguments Acc {R}.
#[global] Arguments a_results {R}.
#[global] Arguments a_total {R}.
#[global] Arguments a_earned {R}.
#[global] Arguments a_buckets {R}.

(** The sum of [val] over the records, and over those of one bucket *)
Definition total_sum {R} (val : R -> Z) (l : list R) : Z :=
  fold_right (fun t s => (val t + s)%Z) 0%Z l.
Definition cat_sum {R} (val : R -> Z) (cat : R -> string) (k : string) (l : list R) : Z :=
  fold_right (fun t s => if String.eqb (cat t) k then (val t + s)%Z else s) 0%Z l.

(** The bucket counters that go with a list of records *)
Definition tally {R} (earned pts : R -> Z) (cat : R -> string) (keys : list string)
    (l : list R) : list (string * (Z * Z)) :=
  map (fun k => (k, (cat_sum earned cat k l, cat_sum pts cat k l))) keys.

(** The points a smartness record earned *)
Definition sr_earned (t : smart_result) : Z := if sr_passed t then sr_points t else 0%Z.

(** The record is the one of this test of the table; a smartness record
    with an error has not passed, a coding record with an error earned
    nothing and has no code. *)
Definition smart_record (test : smart_test) (t : smart_result) : Prop :=
  sr_name t = s_name test /\ sr_category t = s_category test
  /\ sr_points t = s_points test
  /\ (truthy_err (sr_error t) = true -> sr_passed t = false).
Definition coding_record (test : coding_test) (t : coding_result) : Prop :=
  cr_name t = c_name test /\ cr_difficulty t = c_difficulty test
  /\ cr_points t = c_points test
  /\ (truthy_err (cr_error t) = true -> cr_earned t = 0%Z /\ cr_code t = None).

(** The state of a battery loop agrees with the records made so far. *)
Definition accounted {R} (earned pts : R -> Z) (cat : R -> string) (keys : list string)
    (a : acc R) : Prop :=
  a_total a = total_sum pts (a_results a)
  /\ a_earned a = total_sum earned (a_results a)
  /\ a_buckets a = tally earned pts cat keys (a_results a).

(** Whether the text [a], read after a character that was a word character
    or not ([prev]), ends with a word character; whether [b] starts with one *)
Fixpoint ends_word (prev : bool) (a : string) : bool :=
  match a with
  | EmptyString => prev
  | String c a' => ends_word (is_word c) a'
  end.
Definition starts_word (b : string) : bool :=
  match b with
  | EmptyString => false
  | String c _ => is_word c
  end.

(** A client whose every call fails or is answered with a response whose
    text is a string or [None] *)
Definition answers_text (repr_str : string -> string) (c : client) : Prop :=
  forall log model prompt,
    match bind (fst (chat c log model prompt)) (_get_response_text repr_str) with
    | Ok (VStr _) | Ok VNone | Raise _ => True
    | Ok _ => False
    end.

(** An interpreter under which every source runs to the end of its top
    level, and no call of the function under test ends the process *)
Definition honest (python : string -> Sandbox.program) : Prop :=
  forall src,
    (exists out err, Sandbox.top (python src) = Sandbox.TopReturns out err)
    /\ forall fn, Sandbox.callable (python src) = Some fn ->
         forall k args o e, fn k args <> Sandbox.Exits o e.

(** A code extraction that returns on every text: the empty code on
    [None], some code on a string *)
Definition extracts (_extract_code : value -> res string) : Prop :=
  _extract_code VNone = Ok "" /\ forall s, exists code, _extract_code (VStr s) = Ok code.

(** A client none of whose calls returns *)
Definition unreachable (c : client) : Prop :=
  forall log model prompt, exists ex dt,
    chat c log model prompt = (Raise ex, dt) /\ str_exn ex <> "".

End TesterMore.

(** ** Sample inputs, for the instances of the theorems *)

Module Samples.
Import Py.

Definition sample_registry : gmap string (RunManager.run unit string) :=
  <["a1" := RunManager.Run "a1" RunManager.running ["Starting run..."] 40 tt None]> ∅.

(** A report with the given scores and nothing else *)
Definition bare_report (name : string) (code smart : option float) : Tester.report :=
  Tester.Report name (Tester.LatencyStats None None None None) smart code None None [].

(** A host whose model listing fails *)
Definition env_listing_fails : App.env :=
  App.Env (Raise (Exception "connection refused"))
    (fun mn _ => Ok (bare_report mn None None))
    PrimFloat.zero (Ok "latest_results.json") (Ok 7) (fun _ => "None").

(** A host with 23 models, all selected *)
Definition names23 : list string := map (fun n : nat => "m" +:+ pretty n) (seq 1 23).
Definition env_23 : App.env :=
  App.Env (Ok names23) (fun mn _ => Ok (bare_report mn (Some PrimFloat.one) (Some PrimFloat.one)))
    PrimFloat.zero (Ok "latest_results.json") (Ok 7) (fun _ => "1.0").

(** A chat response whose message has an empty content *)
Definition empty_content_response : list (string * value) :=
  [("model", VStr "etch-1"); ("message", VDict [("role", VStr "assistant"); ("content", VStr "")])].

(** [==] on the values the samples use, and a [repr] of strings good enough
    for text without quotes or escapes *)
Fixpoint sample_eq (a b : value) : bool :=
  match a, b with
  | VNone, VNone => true
  | VInt x, VInt y => (x =? y)%Z
  | VBool x, VBool y => Bool.eqb x y
  | VInt x, VBool y | VBool y, VInt x => (x =? Z.b2z y)%Z
  | VStr x, VStr y => String.eqb x y
  | VList x, VList y =>
      (fix all2 (x y : list value) : bool :=
         match x, y with
         | [], [] => true
         | u :: x', v :: y' => sample_eq u v && all2 x' y'
         | _, _ => false
         end) x y
  | _, _ => false
  end.
Definition sample_repr_str (s : string) : string := "'" +:+ s +:+ "'".

(** [def solve(nums): return sum(nums)] as the harness sees it *)
Definition sum_callable (k : nat) (args : list value) : Sandbox.call_outcome :=
  match args with
  | [VList l] =>
      Sandbox.Returns ""
        (VInt (fold_right (fun v acc => match v with VInt z => (z + acc)%Z | _ => acc end) 0%Z l))
  | _ => Sandbox.Raises "" "unsupported operand type(s) for +"
  end.

(** A source that defines [solve], prints a result of its own and ends the
    process before the harness runs:
<<
def solve(nums): return sum(nums)
print('{"passed": 23, "total": 5}')
raise SystemExit
>> *)
Definition forged_report : value := VDict [("passed", VInt 23); ("total", VInt 5)].
Definition forging_source : string :=
  Tester.line "def solve(nums): return sum(nums)"
  +:+ Tester.line ("print('" +:+ Json.dumps forged_report +:+ "')")
  +:+ "raise SystemExit".
Definition forging_python (src : string) : Sandbox.program :=
  if String.eqb src forging_source
  then Sandbox.Program (Sandbox.TopExits (Sandbox.print forged_report) "") (Some sum_callable)
  else Sandbox.Program (Sandbox.TopExits "" "SyntaxError: invalid syntax") None.

(** A source that tests itself on import and fails its own assertion:
<<
def solve(nums): return sum(nums)
print('self-test', solve([1, 2, 3]))
assert solve([]) == 1
>>
    The process writes a line to stdout, a traceback to stderr, and ends
    before the harness runs. *)
Definition asserting_source : string :=
  Tester.line "def solve(nums): return sum(nums)"
  +:+ Tester.line "print('self-test', solve([1, 2, 3]))"
  +:+ "assert solve([]) == 1".
Definition asserting_stderr : string :=
  Tester.line "Traceback (most recent call last):" +:+ "AssertionError".
Definition asserting_python (src : string) : Sandbox.program :=
  if String.eqb src asserting_source
  then Sandbox.Program (Sandbox.TopExits (Tester.line "self-test 6") asserting_stderr)
         (Some sum_callable)
  else Sandbox.Program (Sandbox.TopExits "" "SyntaxError: invalid syntax") None.

(** A source that never finishes:
<<
def solve(nums):
    while True: pass
>> *)
Definition looping_source : string :=
  Tester.line "def solve(nums):" +:+ "    while True: pass".
Definition looping_python (src : string) : Sandbox.program :=
  Sandbox.Program (Sandbox.TopReturns "" "") (Some (fun _ _ => Sandbox.Overtime)).

(** A source that defines [solve] and prints a line of its own first:
<<
def solve(nums): return sum(nums)
print('ready')
>> *)
Definition chatty_source : string :=
  Tester.line "def solve(nums): return sum(nums)" +:+ "print('ready')".
Definition chatty_python (src : string) : Sandbox.program :=
  Sandbox.Program (Sandbox.TopReturns (Tester.line "ready") "") (Some sum_callable).

(** The first coding test of the table, "Sum of List" (25 points, 5 cases) *)
Definition sum_of_list : Tester.coding_test :=
  hd (Tester.CodingTest "" "" "" [] 0) Tester.CODING_TESTS.

(** A client that gives every prompt the same answer in a quarter second,
    an interpreter for which every source is the summing [solve], and stand-ins
    for [round], [mean], [median] and [_extract_code] *)
Definition quarter : float := PrimFloat.div PrimFloat.one (PrimFloat.of_uint63 4).
Definition parrot : Tester.client :=
  Tester.Client (fun _ _ _ =>
    (Ok (Tester.RespValue (VDict [("message", VDict [("content", VStr "The answer is 45.")])])),
     quarter)).
(** A client whose every call fails *)
Definition dead : Tester.client :=
  Tester.Client (fun _ _ _ => (Raise (Exception "connection refused"), quarter)).
Definition summing_python (src : string) : Sandbox.program :=
  Sandbox.Program (Sandbox.TopReturns "" "") (Some sum_callable).
Definition sample_round (x : float) (ndigits : Z) : float := x.
Definition sample_mean (l : list float) : float := Tester.float_min l.
Definition sample_extract (v : value) : res string :=
  match v with
  | VStr s => Ok s
  | _ => Raise (TypeError "expected string or bytes-like object")
  end.

(** [_extract_code] cut down to its first line and its last: no code in no
    text, and the text itself as the code *)
Definition sample_extract_total (v : value) : res string :=
  match v with
  | VStr s => Ok s
  | _ => Ok ""
  end.

End Samples.

(* ===================================================================== *)
(** * Part II.  The theorems                                              *)
(* ===================================================================== *)

(** ** The run registry *)

Module RunManagerFacts.
Import Py RunManager Samples.

Section facts.
Context {Meta Result : Type}.
Implicit Types (RUNS : gmap string (run Meta Result)) (r : run Meta Result).

Lemma contains_absent RUNS run_id : RUNS !! run_id = None -> contains RUNS run_id = false.
Proof. unfold contains. intros ->. reflexivity. Qed.

Lemma contains_present RUNS run_id r : RUNS !! run_id = Some r -> contains RUNS run_id = true.
Proof. unfold contains. intros ->. reflexivity. Qed.

Lemma set_running_present RUNS run_id r :
  RUNS !! run_id = Some r ->
  set_running run_id RUNS
  = Ok (<[run_id := Run (id r) running (messages r) (progress r) (metadata r) (result r)]> RUNS).
Proof. intros H. unfold set_running, getitem. rewrite (contains_present _ _ _ H), H. reflexivity. Qed.

Lemma append_message_present RUNS run_id msg r :
  RUNS !! run_id = Some r ->
  append_message run_id msg RUNS
  = Ok (<[run_id := Run (id r) (status_of r) (messages r ++ [msg]) (progress r) (metadata r) (result r)]> RUNS).
Proof. intros H. unfold append_message, getitem. rewrite (contains_present _ _ _ H), H. reflexivity. Qed.

Lemma set_progress_present RUNS run_id pct r :
  RUNS !! run_id = Some r ->
  set_progress run_id pct RUNS
  = Ok (<[run_id := Run (id r) (status_of r) (messages r) pct (metadata r) (result r)]> RUNS).
Proof. intros H. unfold set_progress, getitem. rewrite (contains_present _ _ _ H), H. reflexivity. Qed.

Lemma set_result_present RUNS run_id res_ r :
  RUNS !! run_id = Some r ->
  set_result run_id res_ RUNS
  = Ok (<[run_id := Run (id r) done (messages r) 100 (metadata r) (Some res_)]> RUNS).
Proof. intros H. unfold set_result, getitem. rewrite (contains_present _ _ _ H), H. reflexivity. Qed.

Lemma set_error_present RUNS run_id msg r :
  RUNS !! run_id = Some r ->
  set_error run_id msg RUNS
  = Ok (<[run_id := Run (id r) error (messages r ++ [msg]) (progress r) (metadata r) (result r)]> RUNS).
Proof. intros H. unfold set_error, getitem. rewrite (contains_present _ _ _ H), H. reflexivity. Qed.

(** C8. A mutation on a run id the registry does not hold returns normally
    and leaves the whole registry as it was, for each of [set_running],
    [append_message], [set_progress], [set_result] and [set_error]; on a run
    id it holds, [set_result] returns normally with the run's status [done],
    its result stored and its progress 100, the run's other fields and every
    other run untouched. *)
Theorem unknown_run_noop_and_set_result RUNS run_id msg pct res_ :
  (RUNS !! run_id = None ->
     set_running run_id RUNS = Ok RUNS
     /\ append_message run_id msg RUNS = Ok RUNS
     /\ set_progress run_id pct RUNS = Ok RUNS
     /\ set_result run_id res_ RUNS = Ok RUNS
     /\ set_error run_id msg RUNS = Ok RUNS)
  /\ (forall r, RUNS !! run_id = Some r ->
        exists RUNS',
          set_result run_id res_ RUNS = Ok RUNS'
          /\ RUNS' !! run_id = Some (Run (id r) done (messages r) 100 (metadata r) (Some res_))
          /\ forall other, other <> run_id -> RUNS' !! other = RUNS !! other).
Proof.
  split.
  - intros Habs.
    unfold set_running, append_message, set_progress, set_result, set_error.
    rewrite (contains_absent _ _ Habs). repeat split; reflexivity.
  - intros r Hr. eexists. split; [apply (set_result_present _ _ _ _ Hr) |]. split.
    + apply lookup_insert_eq.
    + intros other Hne. apply lookup_insert_ne. congruence.
Qed.

End facts.

Lemma unknown_run_noop_and_set_result_witness :
  (set_running "zz" sample_registry = Ok sample_registry
   /\ append_message "zz" "hello" sample_registry = Ok sample_registry
   /\ set_progress "zz" 7 sample_registry = Ok sample_registry
   /\ set_result "zz" "summary" sample_registry = Ok sample_registry
   /\ set_error "zz" "hello" sample_registry = Ok sample_registry)
  /\ exists RUNS',
       set_result "a1" "summary" sample_registry = Ok RUNS'
       /\ RUNS' !! "a1" = Some (Run "a1" done ["Starting run..."] 100 tt (Some "summary")).
Proof.
  split.
  - apply (proj1 (unknown_run_noop_and_set_result sample_registry "zz" "hello" 7 "summary")).
    reflexivity.
  - destruct (proj2 (unknown_run_noop_and_set_result sample_registry "a1" "hello" 7 "summary")
                _ eq_refl) as (R & H1 & H2 & _).
    exists R. split; [exact H1 | exact H2].
Defined.
End RunManagerFacts.

(** ** The run orchestrator *)

Module AppFacts.
Import Py RunManager App RunManagerFacts Samples.
Local Open Scope app_scope.

Implicit Types (R : gmap string (run metadata summary)) (r : run metadata summary).

(** One mutation on a run the registry holds: the registry after it, and the
    history one state longer. *)
Lemma arun_present (op : gmap string (run metadata summary) -> res (gmap string (run metadata summary)))
    R h R' :
  op R = Ok R' -> arun op (World R h) = (Ok tt, World R' (h ++ [R'])).
Proof. intros H. unfold arun. cbn. rewrite H. reflexivity. Qed.

(** One step of a symbolic run: the mutation is applied to the registry [R],
    known to hold [token], and the registry after it is named, with the run
    it now holds for [token]. *)
Ltac arun_step token :=
  match goal with
  | H : ?R !! token = Some ?r |- context [arun ?op (World ?R ?h)] =>
      erewrite (arun_present op R h)
        by (first [ apply set_running_present | apply append_message_present
                  | apply set_progress_present | apply set_result_present
                  | apply set_error_present ]; exact H);
      cbn [id status_of messages progress RunManager.metadata result app];
      match goal with
      | |- context [World (<[token := ?r']> R) _] =>
          let R' := fresh "R" in
          let HR := fresh "HR" in
          pose proof (lookup_insert_eq R token r') as HR;
          remember (<[token := r']> R) as R' eqn:ER; clear ER
      end
  end.

(** C1 (the code at the failing input). When listing the models raises, the
    run that [start_run] registers is seen pending, running, in error and then
    done: [_run_tests_sync] records the error and still returns a summary,
    which the thread hands to [set_result]. Both terminal states are reached,
    and the run ends [done] with the exception text in its log. *)
Theorem listing_failure_error_then_done e token host api_key repeat models R0 ex :
  listing e = Raise ex ->
  host <> "" ->
  token <> "" ->
  exists w,
    start_run e token host api_key repeat models R0 = Some (token, w)
    /\ changes (observed status_of token w) = [pending; running; error; done]
    /\ status_of <$> (RUNS w !! token) = Some done
    /\ In (str_exn ex) (default [] (messages <$> (RUNS w !! token))).
Proof.
  intros Hl Hh Ht. unfold start_run.
  destruct (String.eqb host "") eqn:E; [apply String.eqb_eq in E; contradiction |].
  cbn [create_run]. eexists. split; [reflexivity |].
  pose proof (lookup_insert_eq R0 token (Run token pending [] 0 (Metadata host models repeat) None)) as H1.
  remember (<[token := Run token pending [] 0 (Metadata host models repeat) None]> R0) as R1 eqn:E1.
  clear E1.
  unfold bg, _run_tests_sync. rewrite Hl. cbn [when_run].
  destruct (String.eqb token "") eqn:Et; [apply String.eqb_eq in Et; contradiction |].
  unfold bindW, catchW, retW, liftW.
  do 5 (arun_step token).
  destruct (dump_file e), (save_run e); repeat (arun_step token);
    cbn [snd RUNS history]; unfold observed; cbn [history omap list_omap];
    repeat match goal with H : ?R !! token = Some _ |- context [?R !! token] => rewrite H end;
    cbn [fmap option_fmap option_map status_of messages changes status_eqb default];
    (split; [reflexivity | split; [reflexivity |]]);
    unfold Datatypes.id; right; left; reflexivity.
Qed.

Lemma listing_failure_error_then_done_witness :
  exists w,
    start_run env_listing_fails "4f1c" "http://localhost:11434" None 1 [] ∅ = Some ("4f1c", w)
    /\ changes (observed status_of "4f1c" w) = [pending; running; error; done]
    /\ status_of <$> (RUNS w !! "4f1c") = Some done
    /\ In "connection refused" (default [] (messages <$> (RUNS w !! "4f1c"))).
Proof.
  apply (listing_failure_error_then_done env_listing_fails "4f1c" "http://localhost:11434"
           None 1 [] ∅ (Exception "connection refused")).
  - reflexivity.
  - discriminate.
  - discriminate.
Defined.

(** C3 (the code at the failing input). With 23 models selected, the
    progress written before testing model 22 is 91 and the progress written
    after completing it is 90; a poller of that run sees the progress of the
    running run go down. *)
Theorem progress_drops_for_model_22_of_23 :
  progress_before 22 23 = 91
  /\ progress_after 22 23 = 90
  /\ non_decreasing
       (progress_of_run env_23 "4f1c" "http://localhost:11434" None 1 names23 ∅) = false.
Proof.
  split; [vm_compute; reflexivity |]. split; vm_compute; reflexivity.
Qed.

(** The two progress formulas agree with the claimed order up to 22 models,
    and from 25 models on the last model's own two writes are out of order. *)
Lemma progress_monotone_up_to_22 (total idx : nat) :
  (1 <= idx)%nat -> (idx <= total)%nat -> (total <= 22)%nat ->
  (progress_before (Z.of_nat idx) (Z.of_nat total) <= progress_after (Z.of_nat idx) (Z.of_nat total))%Z
  /\ (progress_after (Z.of_nat idx) (Z.of_nat total) <= progress_before (Z.of_nat idx + 1) (Z.of_nat total))%Z.
Proof.
  intros H1 H2 H3.
  assert (Hall : forallb (fun t => forallb (fun i =>
             (progress_before (Z.of_nat i) (Z.of_nat t) <=? progress_after (Z.of_nat i) (Z.of_nat t))%Z
             && (progress_after (Z.of_nat i) (Z.of_nat t) <=? progress_before (Z.of_nat i + 1) (Z.of_nat t))%Z)
             (seq 1 t)) (seq 1 22) = true) by (vm_compute; reflexivity).
  rewrite forallb_forall in Hall.
  specialize (Hall total). rewrite in_seq in Hall.
  assert (Ht : forallb (fun i =>
             (progress_before (Z.of_nat i) (Z.of_nat total) <=? progress_after (Z.of_nat i) (Z.of_nat total))%Z
             && (progress_after (Z.of_nat i) (Z.of_nat total) <=? progress_before (Z.of_nat i + 1) (Z.of_nat total))%Z)
             (seq 1 total) = true) by (apply Hall; lia).
  rewrite forallb_forall in Ht. specialize (Ht idx). rewrite in_seq in Ht.
  assert (Hi := Ht ltac:(lia)). apply andb_prop in Hi. destruct Hi as [Ha Hb].
  split; apply Z.leb_le; assumption.
Qed.

Lemma progress_last_model_drops (total : nat) :
  (25 <= total)%nat -> (total <= 1000)%nat ->
  (progress_after (Z.of_nat total) (Z.of_nat total) < progress_before (Z.of_nat total) (Z.of_nat total))%Z.
Proof.
  intros H1 H2.
  assert (Hall : forallb (fun t =>
             (progress_after (Z.of_nat t) (Z.of_nat t) <? progress_before (Z.of_nat t) (Z.of_nat t))%Z)
             (seq 25 976) = true) by (vm_compute; reflexivity).
  rewrite forallb_forall in Hall. apply Z.ltb_lt. apply Hall. rewrite in_seq. lia.
Qed.



End AppFacts.

(** ** The model tester *)

Module TesterFacts.
Import Py Tester Samples.
Local Open Scope tester_scope.

Section facts.
Variable repr_str : string -> string.
Variable py_eq : value -> value -> bool.
Variable python : string -> Sandbox.program.
Variable py_round : float -> Z -> float.
Variable mean median : list float -> float.
Variable _extract_code : value -> res string.

(** C10. A dict response whose message has the empty string as content, and
    which has no [response] and no [text] key, is answered with [str(resp)],
    which is not the empty content: the falsy content falls through every
    [or]. *)
Theorem empty_content_gives_str_of_dict (d m : list (string * value)) :
  dict_get "message" d = Some (VDict m) ->
  dict_get "content" m = Some (VStr "") ->
  dict_get "response" d = None ->
  dict_get "text" d = None ->
  _get_response_text repr_str (RespValue (VDict d)) = Ok (VStr (str repr_str (VDict d)))
  /\ str repr_str (VDict d) <> "".
Proof.
  intros Hm Hc Hr Ht. split.
  - unfold _get_response_text, dict_get_default, get_content. rewrite Hm. cbn [bind].
    unfold dict_get_default. rewrite Hc, Hr, Ht. reflexivity.
  - cbn. discriminate.
Qed.

(** *** Points *)

Lemma agrees_sound points passed total :
  agrees points 100 = true ->
  (0 <= passed <= total)%Z -> (0 < total <= 100)%Z ->
  points_earned (VInt passed) (VInt total) points = Ok (floor_share points passed total).
Proof.
  intros Hall Hp Ht. unfold agrees in Hall. rewrite forallb_forall in Hall.
  specialize (Hall (Z.to_nat total)). rewrite in_seq in Hall.
  assert (Hrow := Hall ltac:(lia)). rewrite forallb_forall in Hrow.
  specialize (Hrow (Z.to_nat passed)). rewrite in_seq in Hrow.
  assert (Hcell := Hrow ltac:(lia)).
  rewrite !Z2Nat.id in Hcell by lia.
  destruct (points_earned (VInt passed) (VInt total) points); [| discriminate].
  apply Z.eqb_eq in Hcell. congruence.
Qed.

Lemma coding_points test : In test CODING_TESTS -> c_points test = 25%Z \/ c_points test = 30%Z \/ c_points test = 40%Z.
Proof.
  unfold CODING_TESTS. cbn [In].
  intros [<- | [<- | [<- | [<- | [<- | []]]]]]; cbn [c_points]; auto.
Qed.

(** C5 (amended). For every coding test and every pair with
    0 <= passed <= total, as the harness reports them (totals up to 100), the
    points earned are the float computation [int((passed / total) * points)],
    and it equals floor(points * passed / total) when total > 0; when the
    total is 0 the points earned are 0, whatever was passed. *)
Theorem points_earned_is_floor_share test passed total :
  In test CODING_TESTS ->
  (0 <= passed <= total)%Z ->
  (total <= 100)%Z ->
  points_earned (VInt passed) (VInt total) (c_points test)
  = Ok (if (total >? 0)%Z then floor_share (c_points test) passed total else 0%Z)
  /\ forall anything points, points_earned anything (VInt 0) points = Ok 0%Z.
Proof.
  intros Hin Hp Ht. split; [| reflexivity].
  destruct (total >? 0)%Z eqn:E.
  - apply Z.gtb_lt in E.
    destruct (coding_points test Hin) as [-> | [-> | ->]];
      apply agrees_sound; try lia; vm_compute; reflexivity.
  - assert (total = 0%Z) as -> by (rewrite Z.gtb_ltb, Z.ltb_ge in E; lia).
    reflexivity.
Qed.

(** *** The calls of a battery *)

Lemma chat_shape c model prompt log :
  exists dt text err,
    _chat_with_model repr_str c model prompt log = (Ok (dt, text, err), log ++ [(model, prompt)]).
Proof.
  unfold _chat_with_model. destruct (chat c log model prompt) as [r dt].
  destruct (bind r (_get_response_text repr_str)); eauto.
Qed.

Ltac lift_step H :=
  match type of H with
  | context [lift ?r ?l] =>
      change (lift r l) with (r, l) in H; destruct r; [cbn beta iota in H | discriminate H]
  end.

Lemma smartness_loop_calls c model tests a log a' log' :
  smartness_loop repr_str py_round c model tests a log = (Ok a', log') ->
  log' = log ++ map (fun t => (model, s_prompt t)) tests.
Proof.
  revert a log. induction tests as [| test rest IH]; intros a log H.
  - cbn in H. inversion H. now rewrite app_nil_r.
  - cbn [smartness_loop] in H. unfold bindM in H.
    lift_step H.
    destruct (chat_shape c model (s_prompt test) log) as (dt & text & err & Hc).
    rewrite Hc in H. cbn beta iota in H.
    lift_step H. lift_step H.
    apply IH in H. rewrite H, <- app_assoc. reflexivity.
Qed.

Lemma coding_loop_calls c model tests a log a' log' :
  coding_loop repr_str py_eq python py_round _extract_code c model tests a log = (Ok a', log') ->
  log' = log ++ map (fun t => (model, c_prompt t)) tests.
Proof.
  revert a log. induction tests as [| test rest IH]; intros a log H.
  - cbn in H. inversion H. now rewrite app_nil_r.
  - cbn [coding_loop] in H. unfold bindM in H.
    lift_step H.
    destruct (chat_shape c model (c_prompt test) log) as (dt & text & err & Hc).
    rewrite Hc in H. cbn beta iota in H.
    destruct (truthy_err err).
    + apply IH in H. rewrite H, <- app_assoc. reflexivity.
    + unfold bindM in H. lift_step H. lift_step H.
      match goal with x : (value * value * value)%type |- _ => destruct x as [[passed total] test_details] end.
      lift_step H. lift_step H. lift_step H. lift_step H.
      apply IH in H. rewrite H, <- app_assoc. reflexivity.
Qed.

(** C9. [test_model] gives the same report, and leaves the same log of
    calls, whatever [repeat] it is given, for one client and model; and a
    call that returns has sent each test's prompt of the two tables exactly
    once, in table order. *)
Theorem repeat_does_not_matter c model (r1 r2 : Z) log :
  test_model repr_str py_eq python py_round mean median _extract_code c model r1 log
  = test_model repr_str py_eq python py_round mean median _extract_code c model r2 log
  /\ forall rep log',
       test_model repr_str py_eq python py_round mean median _extract_code c model r1 log
       = (Ok rep, log') ->
       log' = log ++ battery_calls model.
Proof.
  split; [reflexivity |].
  intros rep log' H. unfold test_model, _run_smartness_tests, _run_coding_tests in H.
  unfold bindM at 1 2 in H.
  destruct (smartness_loop _ _ _ _ _ _ log) as [[a1 | e1] l1] eqn:E1; [| discriminate H].
  apply smartness_loop_calls in E1.
  change (ret (finish py_round a1) l1) with (Ok (finish py_round a1), l1) in H. cbn beta iota in H.
  unfold bindM at 1 2 in H.
  destruct (coding_loop _ _ _ _ _ _ _ _ _ l1) as [[a2 | e2] l2] eqn:E2; [| discriminate H].
  apply coding_loop_calls in E2.
  change (ret (finish py_round a2) l2) with (Ok (finish py_round a2), l2) in H. cbn beta iota in H.
  unfold bindM in H. lift_step H. unfold ret in H. inversion H. subst.
  unfold battery_calls. now rewrite app_assoc.
Qed.

End facts.

Lemma empty_content_gives_str_of_dict_witness :
  _get_response_text sample_repr_str (RespValue (VDict empty_content_response))
  = Ok (VStr (str sample_repr_str (VDict empty_content_response)))
  /\ str sample_repr_str (VDict empty_content_response) <> "".
Proof.
  apply (empty_content_gives_str_of_dict sample_repr_str empty_content_response
           [("role", VStr "assistant"); ("content", VStr "")]); reflexivity.
Defined.

Lemma points_earned_is_floor_share_witness :
  points_earned (VInt 3) (VInt 5) (c_points sum_of_list)
  = Ok (if (5 >? 0)%Z then floor_share (c_points sum_of_list) 3 5 else 0%Z)
  /\ forall anything points, points_earned anything (VInt 0) points = Ok 0%Z.
Proof.
  apply (points_earned_is_floor_share sum_of_list 3 5).
  - left. reflexivity.
  - lia.
  - lia.
Defined.

(** C5 (as stated, refuted). The sandbox hands back whatever report the
    child process printed: for the first coding test and a source that prints
    a report of its own with passed = 23 and total = 5 and ends the process,
    [_run_code_safely] returns (23, 5, []), and the points earned,
    [int((23 / 5) * 25)], are 114, while floor(25 * 23 / 5) is 115. *)
Lemma forged_report_earns_114_not_115 :
  In sum_of_list CODING_TESTS
  /\ Sandbox._run_code_safely sample_eq sample_repr_str forging_python forging_source
       (c_test_cases sum_of_list) 5
     = Ok (VInt 23, VInt 5, VList [])
  /\ points_earned (VInt 23) (VInt 5) (c_points sum_of_list) = Ok 114%Z
  /\ floor_share (c_points sum_of_list) 23 5 = 115%Z.
Proof.
  split; [left; reflexivity |]. repeat split; vm_compute; reflexivity.
Qed.

Lemma repeat_does_not_matter_witness :
  test_model sample_repr_str sample_eq summing_python sample_round sample_mean sample_mean
    sample_extract parrot "etch-1" 1 []
  = test_model sample_repr_str sample_eq summing_python sample_round sample_mean sample_mean
      sample_extract parrot "etch-1" 3 []
  /\ exists rep,
       test_model sample_repr_str sample_eq summing_python sample_round sample_mean sample_mean
         sample_extract parrot "etch-1" 1 []
       = (Ok rep, battery_calls "etch-1").
Proof.
  destruct (repeat_does_not_matter sample_repr_str sample_eq summing_python sample_round
              sample_mean sample_mean sample_extract parrot "etch-1" 1 3 []) as [H1 H2].
  split; [exact H1 |].
  destruct (test_model sample_repr_str sample_eq summing_python sample_round sample_mean
              sample_mean sample_extract parrot "etch-1" 1 []) as [[rep | e] log'] eqn:E.
  - exists rep. rewrite (H2 rep log' eq_refl). reflexivity.
  - exfalso. vm_compute in E. discriminate E.
Defined.

End TesterFacts.

(** ** The JSON codec *)

Module JsonFacts.
Import Py Json.

(** *** Strings *)

Lemma cons_fst_some {A B} (a : A) (r : option (list A * B)) l b :
  cons_fst a r = Some (l, b) -> exists l', r = Some (l', b) /\ l = a :: l'.
Proof.
  destruct r as [[l' b'] |]; cbn; [| discriminate].
  intros H. inversion H. subst. eauto.
Qed.

(** The scanner reads back one written character. *)
Lemma scan_escape_char c rest :
  scanstring (escape_char c ++ rest) = cons_fst c (scanstring rest).
Proof.
  destruct c as [[] [] [] [] [] [] [] []]; reflexivity.
Qed.

Lemma scan_escape s r : scanstring (escape s ++ dq :: r) = Some (s, r).
Proof.
  induction s as [| c s IH]; [reflexivity |].
  unfold escape in *. cbn [flat_map]. rewrite <- app_assoc, scan_escape_char, IH. reflexivity.
Qed.

(** *** Numbers *)

Lemma follows_no_digit c r : follows (c :: r) = true -> is_digit c = false.
Proof.
  cbn [follows]. intros H.
  destruct (Ascii.eqb c ",") eqn:E1; [apply Ascii.eqb_eq in E1; subst; reflexivity |].
  destruct (Ascii.eqb c "]") eqn:E2; [apply Ascii.eqb_eq in E2; subst; reflexivity |].
  destruct (Ascii.eqb c "}") eqn:E3; [apply Ascii.eqb_eq in E3; subst; reflexivity |].
  discriminate.
Qed.

Lemma follows_no_float r : follows r = true -> starts_float r = false.
Proof.
  destruct r as [| c r]; [reflexivity |]. cbn [follows starts_float]. intros H.
  destruct (Ascii.eqb c ",") eqn:E1; [apply Ascii.eqb_eq in E1; subst; reflexivity |].
  destruct (Ascii.eqb c "]") eqn:E2; [apply Ascii.eqb_eq in E2; subst; reflexivity |].
  destruct (Ascii.eqb c "}") eqn:E3; [apply Ascii.eqb_eq in E3; subst; reflexivity |].
  discriminate.
Qed.

Lemma scan_render_uint u r : follows r = true -> scan_uint (render_uint u ++ r) = (u, r).
Proof.
  intros Hr. induction u; cbn [render_uint app scan_uint];
    try (rewrite IHu; reflexivity).
  destruct r as [| c r]; [reflexivity |]. apply follows_no_digit in Hr. unfold is_digit in Hr.
  cbn [scan_uint]. destruct (digit_of c); [discriminate | reflexivity].
Qed.

Lemma render_uint_head u :
  u <> Decimal.Nil -> exists c t, render_uint u = c :: t /\ is_digit c = true.
Proof. destruct u; [congruence | ..]; intros _; eexists _, _; split; reflexivity. Qed.

Lemma digit_not_minus c : is_digit c = true -> Ascii.eqb c "-" = false.
Proof.
  intros H. destruct (Ascii.eqb c "-") eqn:E; [| reflexivity].
  apply Ascii.eqb_eq in E. subst. discriminate.
Qed.

Lemma unorm_to_uint p : Decimal.unorm (Pos.to_uint p) = Pos.to_uint p.
Proof.
  rewrite <- (DecimalPos.Unsigned.to_of (Pos.to_uint p)), DecimalPos.Unsigned.of_to. reflexivity.
Qed.

Lemma uint_beq_refl u : Decimal.uint_beq u u = true.
Proof. induction u; cbn; auto. Qed.

Lemma scan_digits_of_pos p r :
  follows r = true ->
  scan_number (render_uint (Pos.to_uint p) ++ r) = Some (Zpos p, r).
Proof.
  intros Hr. unfold scan_number.
  destruct (render_uint_head (Pos.to_uint p) (DecimalPos.Unsigned.to_uint_nonnil p))
    as (c & t & Hu & Hd).
  pose proof (scan_render_uint (Pos.to_uint p) r Hr) as Hs.
  rewrite Hu in *. cbn [app] in *. rewrite (digit_not_minus c Hd), Hs.
  rewrite unorm_to_uint, uint_beq_refl, (follows_no_float r Hr). cbn [andb negb].
  unfold N.of_uint. rewrite DecimalPos.Unsigned.of_to. reflexivity.
Qed.

Lemma scan_render_int z r : follows r = true -> scan_number (render_int z ++ r) = Some (z, r).
Proof.
  intros Hr. destruct z as [| p | p]; cbn [render_int].
  - unfold scan_number. cbn [app]. change (Ascii.eqb "0" "-") with false. cbn iota.
    change ("0"%char :: r) with (render_uint (Decimal.D0 Decimal.Nil) ++ r).
    rewrite (scan_render_uint _ r Hr), (follows_no_float r Hr). reflexivity.
  - apply scan_digits_of_pos, Hr.
  - pose proof (scan_digits_of_pos p r Hr) as H. unfold scan_number in *. cbn [app].
    change (Ascii.eqb "-" "-") with true. cbn iota.
    destruct (render_uint_head (Pos.to_uint p) (DecimalPos.Unsigned.to_uint_nonnil p))
      as (c & t & Hu & Hd).
    rewrite Hu in *. cbn [app] in *. rewrite (digit_not_minus c Hd) in H.
    destruct (scan_uint (c :: t ++ r)) as [u r1].
    destruct (Decimal.uint_beq (Decimal.unorm u) u && negb (starts_float r1)); [| discriminate].
    inversion H as [[Hz Hr1]]. rewrite Hz. reflexivity.
Qed.

(** *** The shape of what [render] writes *)

Lemma render_list l : render (VList l) = "["%char :: render_elems l ++ ["]"%char].
Proof. reflexivity. Qed.

Lemma render_dict kvs : render (VDict kvs) = "{"%char :: render_members kvs ++ ["}"%char].
Proof. reflexivity. Qed.

Lemma render_int_head z : exists c t, render_int z = c :: t /\ is_num_start c = true.
Proof.
  destruct z as [| p | p]; cbn [render_int].
  - eexists _, _. split; reflexivity.
  - destruct (render_uint_head (Pos.to_uint p) (DecimalPos.Unsigned.to_uint_nonnil p))
      as (c & t & -> & Hd).
    exists c, t. split; [reflexivity |]. unfold is_num_start. rewrite Hd. reflexivity.
  - eexists _, _. split; reflexivity.
Qed.

Lemma render_head v : exists c t, render v = c :: t /\ is_value_start c = true.
Proof.
  destruct v as [| [] | z | s | l | kvs]; try (eexists _, _; split; reflexivity).
  - destruct (render_int_head z) as (c & t & Hr & Hc). exists c, t. cbn [render].
    split; [exact Hr |]. unfold is_value_start. rewrite Hc. reflexivity.
Qed.

Lemma value_start_plain c :
  is_value_start c = true ->
  is_ws c = false /\ Ascii.eqb c "]" = false /\ Ascii.eqb c "}" = false.
Proof.
  intros H. destruct c as [[] [] [] [] [] [] [] []]; cbv in H; try discriminate H;
    repeat split; reflexivity.
Qed.

Lemma render_elems_head x l :
  exists c t, render_elems (x :: l) = c :: t /\ is_value_start c = true.
Proof.
  destruct (render_head x) as (c & t & Hr & Hc). cbn [render_elems].
  destruct l; rewrite Hr; eexists _, _; (split; [reflexivity | exact Hc]).
Qed.

Lemma skip_ws_plain c t : is_ws c = false -> skip_ws (c :: t) = c :: t.
Proof. intros H. cbn [skip_ws]. rewrite H. reflexivity. Qed.

(** A value that starts like a number is decoded by the number scanner. *)
Lemma parse_value_number n c s :
  is_num_start c = true ->
  parse_value (S n) (c :: s)
  = match scan_number (c :: s) with
    | Some (z, r) => Some (VInt z, r)
    | None => None
    end.
Proof.
  intros H. destruct c as [[] [] [] [] [] [] [] []]; cbv in H; try discriminate H; reflexivity.
Qed.

(** One step of the decoder, by the first character *)
Lemma parse_value_string n s :
  parse_value (S n) (dq :: s)
  = match scanstring s with
    | Some (str, r') => Some (VStr (string_of_list_ascii str), r')
    | None => None
    end.
Proof. reflexivity. Qed.

Lemma parse_value_list n s :
  parse_value (S n) ("["%char :: s)
  = match skip_ws s with
    | c' :: r' =>
        if Ascii.eqb c' "]"%char then Some (VList [], r')
        else match parse_elems n (c' :: r') with
             | Some (l, r'') => Some (VList l, r'')
             | None => None
             end
    | [] => None
    end.
Proof. reflexivity. Qed.

Lemma parse_value_dict n s :
  parse_value (S n) ("{"%char :: s)
  = match skip_ws s with
    | c' :: r' =>
        if Ascii.eqb c' "}"%char then Some (VDict [], r')
        else match parse_members n (c' :: r') with
             | Some (kvs, r'') => Some (VDict kvs, r'')
             | None => None
             end
    | [] => None
    end.
Proof. reflexivity. Qed.

Lemma parse_elems_step n s :
  parse_elems (S n) s
  = match parse_value n s with
    | Some (v, r) =>
        match skip_ws r with
        | c :: r' =>
            if Ascii.eqb c "]"%char then Some ([v], r')
            else if Ascii.eqb c ","%char then
              match parse_elems n (skip_ws r') with
              | Some (l, r'') => Some (v :: l, r'')
              | None => None
              end
            else None
        | [] => None
        end
    | None => None
    end.
Proof. reflexivity. Qed.

Lemma parse_members_step n s :
  parse_members (S n) (dq :: s)
  = match scanstring s with
    | Some (k, r1) =>
        match skip_ws r1 with
        | c1 :: r2 =>
            if Ascii.eqb c1 ":"%char then
              match parse_value n (skip_ws r2) with
              | Some (v, r3) =>
                  match skip_ws r3 with
                  | c3 :: r4 =>
                      if Ascii.eqb c3 "}"%char then Some ([(string_of_list_ascii k, v)], r4)
                      else if Ascii.eqb c3 ","%char then
                        match parse_members n (skip_ws r4) with
                        | Some (kvs, r5) => Some ((string_of_list_ascii k, v) :: kvs, r5)
                        | None => None
                        end
                      else None
                  | [] => None
                  end
              | None => None
              end
            else None
        | [] => None
        end
    | None => None
    end.
Proof. reflexivity. Qed.

Lemma render_elems_cons x y l :
  render_elems (x :: y :: l) = render x ++ lit ", " ++ render_elems (y :: l).
Proof. reflexivity. Qed.

Lemma render_members_cons k x ky kvs :
  render_members ((k, x) :: ky :: kvs)
  = dq :: escape (list_ascii_of_string k) ++ dq :: lit ": " ++ render x
    ++ lit ", " ++ render_members (ky :: kvs).
Proof. reflexivity. Qed.

Lemma parse_elems_last n s v r :
  parse_value n s = Some (v, "]"%char :: r) -> parse_elems (S n) s = Some ([v], r).
Proof. intros E. rewrite parse_elems_step, E. reflexivity. Qed.

Lemma parse_elems_more n s v t :
  parse_value n s = Some (v, lit ", " ++ t) ->
  parse_elems (S n) s
  = match parse_elems n (skip_ws t) with
    | Some (l, r) => Some (v :: l, r)
    | None => None
    end.
Proof. intros E. rewrite parse_elems_step, E. reflexivity. Qed.

Lemma parse_members_last n s k t v r :
  scanstring s = Some (k, lit ": " ++ t) ->
  parse_value n (skip_ws t) = Some (v, "}"%char :: r) ->
  parse_members (S n) (dq :: s) = Some ([(string_of_list_ascii k, v)], r).
Proof.
  intros Hk E. rewrite parse_members_step, Hk.
  change (skip_ws (lit ": " ++ t)) with (":"%char :: " "%char :: t). cbn iota.
  change (Ascii.eqb ":" ":") with true. cbn iota.
  change (skip_ws (" "%char :: t)) with (skip_ws t). rewrite E. reflexivity.
Qed.

Lemma parse_members_more n s k t v t2 :
  scanstring s = Some (k, lit ": " ++ t) ->
  parse_value n (skip_ws t) = Some (v, lit ", " ++ t2) ->
  parse_members (S n) (dq :: s)
  = match parse_members n (skip_ws t2) with
    | Some (kvs, r) => Some ((string_of_list_ascii k, v) :: kvs, r)
    | None => None
    end.
Proof.
  intros Hk E. rewrite parse_members_step, Hk.
  change (skip_ws (lit ": " ++ t)) with (":"%char :: " "%char :: t). cbn iota.
  change (Ascii.eqb ":" ":") with true. cbn iota.
  change (skip_ws (" "%char :: t)) with (skip_ws t). rewrite E. reflexivity.
Qed.

Lemma skip_ws_render v r : skip_ws (render v ++ r) = render v ++ r.
Proof.
  destruct (render_head v) as (c & t & -> & Hc). cbn [app].
  apply skip_ws_plain, (value_start_plain c Hc).
Qed.

Lemma skip_ws_render_elems x l r : skip_ws (render_elems (x :: l) ++ r) = render_elems (x :: l) ++ r.
Proof.
  destruct (render_elems_head x l) as (c & t & -> & Hc). cbn [app].
  apply skip_ws_plain, (value_start_plain c Hc).
Qed.

(** What the decoder reads in what [render] wrote is what was written. *)
Lemma parse_render n :
  (forall v r v' r',
     follows r = true -> parse_value n (render v ++ r) = Some (v', r') -> v' = v /\ r' = r)
  /\ (forall x l r l' r',
        parse_elems n (render_elems (x :: l) ++ "]"%char :: r) = Some (l', r') ->
        l' = x :: l /\ r' = r)
  /\ (forall kx kvs r kvs' r',
        parse_members n (render_members (kx :: kvs) ++ "}"%char :: r) = Some (kvs', r') ->
        kvs' = kx :: kvs /\ r' = r).
Proof.
  induction n as [| n (IHv & IHe & IHm)];
    [repeat split; intros;
     match goal with H : _ = Some _ |- _ => cbn in H; discriminate H end |].
  split; [| split].
  - intros v r v' r' Hr H. destruct v as [| [] | z | s | l | kvs].
    + cbn in H. inversion H. auto.
    + cbn in H. inversion H. auto.
    + cbn in H. inversion H. auto.
    + cbn [render] in H. destruct (render_int_head z) as (c & t & Hz & Hc).
      pose proof (scan_render_int z r Hr) as Hs. rewrite Hz in H, Hs. cbn [app] in H, Hs.
      rewrite (parse_value_number n c _ Hc), Hs in H. inversion H. auto.
    + cbn [render] in H. cbn [app] in H. rewrite parse_value_string, <- app_assoc in H.
      cbn [app] in H. rewrite scan_escape, string_of_list_ascii_of_string in H.
      inversion H. auto.
    + rewrite render_list in H. cbn [app] in H. rewrite parse_value_list, <- app_assoc in H.
      cbn [app] in H. destruct l as [| x l].
      * cbn in H. inversion H. auto.
      * rewrite skip_ws_render_elems in H.
        destruct (render_elems_head x l) as (c & t & He & Hc).
        destruct (value_start_plain c Hc) as (_ & Hb & _).
        pose proof (IHe x l r) as IH. rewrite He in H, IH. cbn [app] in H, IH.
        rewrite Hb in H.
        destruct (parse_elems n (c :: t ++ "]"%char :: r)) as [[l' r''] |]; [| discriminate].
        destruct (IH l' r'' eq_refl) as [-> ->]. inversion H. auto.
    + rewrite render_dict in H. cbn [app] in H. rewrite parse_value_dict, <- app_assoc in H.
      cbn [app] in H. destruct kvs as [| kx kvs].
      * cbn in H. inversion H. auto.
      * pose proof (IHm kx kvs r) as IH.
        assert (Hd : exists t, render_members (kx :: kvs) = dq :: t)
          by (destruct kx; cbn [render_members]; destruct kvs; eauto).
        destruct Hd as [t Hd]. rewrite Hd in H, IH. cbn [app] in H, IH.
        rewrite skip_ws_plain in H by reflexivity.
        change (Ascii.eqb dq "}") with false in H. cbn iota in H.
        destruct (parse_members n (dq :: t ++ "}"%char :: r)) as [[kvs' r''] |]; [| discriminate].
        destruct (IH kvs' r'' eq_refl) as [-> ->]. inversion H. auto.
  - intros x l r l' r' H. destruct l as [| y l];
      [change (render_elems [x]) with (render x) in H
      | rewrite render_elems_cons in H].
    + destruct (parse_value n (render x ++ "]"%char :: r)) as [[v r1] |] eqn:E.
      * destruct (IHv x ("]"%char :: r) v r1 eq_refl E) as [-> ->].
        rewrite (parse_elems_last _ _ _ _ E) in H. inversion H. auto.
      * rewrite parse_elems_step, E in H. discriminate.
    + rewrite <- !app_assoc in H.
      destruct (parse_value n (render x ++ lit ", " ++ render_elems (y :: l) ++ "]"%char :: r))
        as [[v r1] |] eqn:E.
      * destruct (IHv x (lit ", " ++ render_elems (y :: l) ++ "]"%char :: r) v r1 eq_refl E)
          as [-> ->].
        rewrite (parse_elems_more _ _ _ _ E), skip_ws_render_elems in H.
        destruct (parse_elems n (render_elems (y :: l) ++ "]"%char :: r)) as [[l2 r2] |] eqn:E2;
          [| discriminate].
        apply IHe in E2. destruct E2 as [-> ->]. inversion H. auto.
      * rewrite parse_elems_step, E in H. discriminate.
  - intros [k x] kvs r kvs' r' H. destruct kvs as [| ky kvs];
      [change (render_members [(k, x)])
         with (dq :: escape (list_ascii_of_string k) ++ dq :: lit ": " ++ render x) in H
      | rewrite render_members_cons in H].
    + cbn [app] in H. rewrite <- !app_assoc in H. cbn [app] in H. rewrite <- !app_assoc in H.
      pose proof (scan_escape (list_ascii_of_string k) (lit ": " ++ render x ++ "}"%char :: r)) as Hk.
      destruct (parse_value n (skip_ws (render x ++ "}"%char :: r))) as [[v r1] |] eqn:E.
      * pose proof E as E'. rewrite skip_ws_render in E'.
        destruct (IHv x ("}"%char :: r) v r1 eq_refl E') as [-> ->].
        rewrite (parse_members_last _ _ _ _ _ _ Hk E), string_of_list_ascii_of_string in H.
        inversion H. auto.
      * rewrite parse_members_step, Hk in H.
        change (skip_ws (lit ": " ++ render x ++ "}"%char :: r))
          with (":"%char :: " "%char :: render x ++ "}"%char :: r) in H.
        cbn iota in H. change (Ascii.eqb ":" ":") with true in H. cbn iota in H.
        change (skip_ws (" "%char :: render x ++ "}"%char :: r))
          with (skip_ws (render x ++ "}"%char :: r)) in H.
        rewrite E in H. discriminate.
    + cbn [app] in H. rewrite <- !app_assoc in H. cbn [app] in H. rewrite <- !app_assoc in H.
      pose proof (scan_escape (list_ascii_of_string k)
                    (lit ": " ++ render x ++ lit ", " ++ render_members (ky :: kvs) ++ "}"%char :: r))
        as Hk.
      destruct (parse_value n (skip_ws (render x ++ lit ", " ++ render_members (ky :: kvs) ++ "}"%char :: r)))
        as [[v r1] |] eqn:E.
      * pose proof E as E'. rewrite skip_ws_render in E'.
        destruct (IHv x (lit ", " ++ render_members (ky :: kvs) ++ "}"%char :: r) v r1 eq_refl E')
          as [-> ->].
        rewrite (parse_members_more _ _ _ _ _ _ Hk E), string_of_list_ascii_of_string in H.
        assert (Hs : skip_ws (render_members (ky :: kvs) ++ "}"%char :: r)
                     = render_members (ky :: kvs) ++ "}"%char :: r)
          by (destruct ky; cbn [render_members]; destruct kvs; reflexivity).
        rewrite Hs in H.
        destruct (parse_members n (render_members (ky :: kvs) ++ "}"%char :: r)) as [[k2 r2] |] eqn:E2;
          [| discriminate].
        apply IHm in E2. destruct E2 as [-> ->]. inversion H. auto.
      * rewrite parse_members_step, Hk in H.
        change (skip_ws (lit ": " ++ render x ++ lit ", " ++ render_members (ky :: kvs) ++ "}"%char :: r))
          with (":"%char :: " "%char :: render x ++ lit ", " ++ render_members (ky :: kvs) ++ "}"%char :: r) in H.
        cbn iota in H. change (Ascii.eqb ":" ":") with true in H. cbn iota in H.
        change (skip_ws (" "%char :: render x ++ lit ", " ++ render_members (ky :: kvs) ++ "}"%char :: r))
          with (skip_ws (render x ++ lit ", " ++ render_members (ky :: kvs) ++ "}"%char :: r)) in H.
        rewrite E in H. discriminate.
Qed.

(** *** Text in front of an object

    [O] is the text of an object whose first key starts with the plain
    character [c0]. A decoder that starts in front of [O], inside some text
    [u], and reads on into [O] never ends at the end of [O]: it stops inside
    [u] (what is left ends with the whole of [O]), or it takes the opening
    brace and quote of [O] for the end of a string (what is left is [o2]). *)

Section crossing.
Variables (o2 t0 : list ascii) (c0 : ascii).
Let O : list ascii := "{"%char :: dq :: o2.
Hypothesis o2_head : o2 = c0 :: t0.
Hypothesis c0_plain :
  is_ws c0 = false /\ Ascii.eqb c0 ":" = false /\ Ascii.eqb c0 "," = false
  /\ Ascii.eqb c0 "]" = false /\ Ascii.eqb c0 "}" = false.
Hypothesis O_sound : forall n v r, parse_value n O = Some (v, r) -> r = [].

Let crossed : list ascii -> Prop := Json.crossed O o2.

Lemma skip_ws_cross u : exists u', skip_ws (u ++ O) = u' ++ O.
Proof.
  induction u as [| c u IH]; [exists []; reflexivity |].
  cbn [app skip_ws]. destruct (is_ws c); [exact IH | exists (c :: u); reflexivity].
Qed.

Lemma scanstring_step c r :
  scanstring (c :: r)
  = if Ascii.eqb c dq then Some ([], r)
    else if Ascii.eqb c backslash then
      match r with
      | [] => None
      | e :: r1 =>
          if Ascii.eqb e "u"%char then
            match r1 with
            | h1 :: h2 :: h3 :: h4 :: r2 =>
                match hex4 h1 h2 h3 h4 with
                | Some n => if (n <? 256)%nat then cons_fst (ascii_of_nat n) (scanstring r2) else None
                | None => None
                end
            | _ => None
            end
          else
            match unescape e with
            | Some ch => cons_fst ch (scanstring r1)
            | None => None
            end
      end
    else if (nat_of_ascii c <? 32)%nat then None
    else cons_fst c (scanstring r).
Proof. reflexivity. Qed.

Lemma hex4_brace {A} (F : nat -> list ascii -> option A) u2 :
  (length u2 < 4)%nat ->
  match u2 ++ O with
  | h1 :: h2 :: h3 :: h4 :: r2 =>
      match hex4 h1 h2 h3 h4 with
      | Some n => F n r2
      | None => None
      end
  | _ => None
  end = None.
Proof.
  intros Hlen. unfold O. rewrite o2_head.
  destruct u2 as [| a [| b [| c [| d u]]]]; cbn in Hlen; try lia; cbn [app]; unfold hex4.
  - destruct t0; reflexivity.
  - destruct (hex_val a); reflexivity.
  - destruct (hex_val a), (hex_val b); reflexivity.
  - destruct (hex_val a), (hex_val b), (hex_val c); reflexivity.
Qed.

Lemma crossed_cons_fst (a : ascii) r str rest :
  (forall str', r = Some (str', rest) -> crossed rest) ->
  cons_fst a r = Some (str, rest) -> crossed rest.
Proof. intros H E. apply cons_fst_some in E as (l' & E & _). eauto. Qed.

Lemma scanstring_cross m :
  forall u, (length u <= m)%nat ->
  forall str rest, scanstring (u ++ O) = Some (str, rest) -> crossed rest.
Proof.
  induction m as [| m IH]; intros u Hlen str rest H.
  - destruct u; [| cbn in Hlen; lia]. cbn in H. inversion H. subst rest. right. reflexivity.
  - destruct u as [| c u1]; [cbn in H; inversion H; subst rest; right; reflexivity |].
    cbn [app length] in *. rewrite scanstring_step in H.
    destruct (Ascii.eqb c dq); [inversion H; left; eauto |].
    destruct (Ascii.eqb c backslash).
    + destruct u1 as [| e u2]; [cbn in H; discriminate |].
      cbn [app length] in *. destruct (Ascii.eqb e "u").
      * destruct (Nat.lt_ge_cases (length u2) 4) as [Hs | Hl].
        -- rewrite (hex4_brace _ u2 Hs) in H. discriminate.
        -- destruct u2 as [| h1 [| h2 [| h3 [| h4 u3]]]]; cbn in Hl; try lia.
           cbn [app] in H. destruct (hex4 h1 h2 h3 h4); [| discriminate].
           destruct (_ <? 256)%nat; [| discriminate].
           eapply crossed_cons_fst; [| exact H]. intros str' E.
           apply (IH u3) in E; [exact E | cbn in Hlen; lia].
      * destruct (unescape e); [| discriminate].
        eapply crossed_cons_fst; [| exact H]. intros str' E.
        apply (IH u2) in E; [exact E | lia].
    + destruct (_ <? 32)%nat; [discriminate |].
      eapply crossed_cons_fst; [| exact H]. intros str' E.
      apply (IH u1) in E; [exact E | lia].
Qed.

Lemma scan_uint_cross u :
  scan_uint (u ++ O) = (fst (scan_uint u), snd (scan_uint u) ++ O).
Proof.
  induction u as [| c u IH]; [reflexivity |].
  cbn [app scan_uint]. destruct (digit_of c); [| reflexivity].
  rewrite IH. destruct (scan_uint u). reflexivity.
Qed.

Lemma scan_number_cross u z rest :
  scan_number (u ++ O) = Some (z, rest) -> crossed rest.
Proof.
  unfold scan_number. intros H. destruct u as [| c u1].
  - cbn in H. discriminate.
  - cbn [app] in H. destruct (Ascii.eqb c "-").
    + rewrite scan_uint_cross in H.
      destruct (_ && _); [| discriminate]. inversion H. left. eauto.
    + change (c :: u1 ++ O) with ((c :: u1) ++ O) in H. rewrite scan_uint_cross in H.
      destruct (_ && _); [| discriminate]. inversion H. left. eauto.
Qed.

Lemma strip_prefix_cross p :
  ~ In "{"%char p ->
  forall u rest, strip_prefix p (u ++ O) = Some rest -> crossed rest.
Proof.
  induction p as [| a p IH]; intros Hp u rest H.
  - cbn in H. inversion H. left. eauto.
  - destruct u as [| b u1].
    + cbn in H. destruct (Ascii.eqb a "{") eqn:E; [| discriminate].
      apply Ascii.eqb_eq in E. subst. exfalso. apply Hp. left. reflexivity.
    + cbn [app strip_prefix] in H. destruct (Ascii.eqb a b); [| discriminate].
      apply (IH (fun Hin => Hp (or_intror Hin)) u1 rest H).
Qed.

(** What stands behind skipped whitespace, once the decoder has crossed or
    has nothing left *)
Lemma after_skip rest1 :
  crossed rest1 \/ rest1 = [] ->
  skip_ws rest1 = []
  \/ exists c r', skip_ws rest1 = c :: r'
       /\ ((exists u', r' = u' ++ O) \/ c = "{"%char \/ c = c0).
Proof.
  intros [[[u' ->] | ->] | ->].
  - destruct (skip_ws_cross u') as [u2 ->]. right. destruct u2 as [| c u3].
    + exists "{"%char, (dq :: o2). split; [reflexivity |]. right. left. reflexivity.
    + exists c, (u3 ++ O). split; [reflexivity |]. left. eauto.
  - right. rewrite o2_head. exists c0, t0. split; [| right; right; reflexivity].
    apply skip_ws_plain, c0_plain.
  - left. reflexivity.
Qed.

Lemma parse_value_step n c r :
  parse_value (S n) (c :: r)
  = if Ascii.eqb c dq then parse_value (S n) (dq :: r)
    else if Ascii.eqb c "["%char then parse_value (S n) ("["%char :: r)
    else if Ascii.eqb c "{"%char then parse_value (S n) ("{"%char :: r)
    else
      match strip_prefix (lit "null") (c :: r) with
      | Some r' => Some (VNone, r')
      | None =>
      match strip_prefix (lit "true") (c :: r) with
      | Some r' => Some (VBool true, r')
      | None =>
      match strip_prefix (lit "false") (c :: r) with
      | Some r' => Some (VBool false, r')
      | None =>
          match scan_number (c :: r) with
          | Some (z, r') => Some (VInt z, r')
          | None => None
          end
      end end end.
Proof.
  destruct (Ascii.eqb c dq) eqn:E1; [apply Ascii.eqb_eq in E1; subst; reflexivity |].
  destruct (Ascii.eqb c "[") eqn:E2; [apply Ascii.eqb_eq in E2; subst; reflexivity |].
  destruct (Ascii.eqb c "{") eqn:E3; [apply Ascii.eqb_eq in E3; subst; reflexivity |].
  cbn [parse_value]. rewrite E1, E2, E3. reflexivity.
Qed.

Lemma parse_members_head n c r :
  parse_members (S n) (c :: r)
  = if Ascii.eqb c dq then parse_members (S n) (dq :: r) else None.
Proof.
  destruct (Ascii.eqb c dq) eqn:E1; [apply Ascii.eqb_eq in E1; subst; reflexivity |].
  cbn [parse_members]. rewrite E1. reflexivity.
Qed.

Lemma crossing n :
  (forall u v rest,
     parse_value n (u ++ O) = Some (v, rest) -> crossed rest \/ (u = [] /\ rest = []))
  /\ (forall u l rest, parse_elems n (u ++ O) = Some (l, rest) -> crossed rest)
  /\ (forall u kvs rest, parse_members n (u ++ O) = Some (kvs, rest) -> crossed rest).
Proof.
  induction n as [| n (IHv & IHe & IHm)];
    [repeat split; intros;
     match goal with H : _ = Some _ |- _ => cbn in H; discriminate H end |].
  assert (Hv' : forall u v rest,
             parse_value n (u ++ O) = Some (v, rest) -> crossed rest \/ rest = []).
  { intros u v rest H. destruct (IHv u v rest H) as [Hc | [_ ->]]; auto. }
  split; [| split].
  - intros u v rest H. destruct u as [| c u1].
    { right. split; [reflexivity |]. exact (O_sound _ _ _ H). }
    left. cbn [app] in H. rewrite parse_value_step in H.
    destruct (Ascii.eqb c dq).
    { rewrite parse_value_string in H.
      destruct (scanstring (u1 ++ O)) as [[str r'] |] eqn:E; [| discriminate].
      inversion H. subst rest. exact (scanstring_cross _ u1 (le_n _) _ _ E). }
    destruct (Ascii.eqb c "[").
    { rewrite parse_value_list in H. destruct (skip_ws_cross u1) as [u2 Hu]. rewrite Hu in H.
      destruct u2 as [| c' u3].
      - cbn [app] in H. unfold O in H at 1.
        change (Ascii.eqb "{" "]") with false in H. cbn iota in H.
        change ("{"%char :: dq :: o2) with ([] ++ O) in H.
        destruct (parse_elems n ([] ++ O)) as [[l r''] |] eqn:E; [| discriminate].
        inversion H. subst rest. exact (IHe _ _ _ E).
      - cbn [app] in H. destruct (Ascii.eqb c' "]"); [inversion H; left; eauto |].
        change (c' :: u3 ++ O) with ((c' :: u3) ++ O) in H.
        destruct (parse_elems n ((c' :: u3) ++ O)) as [[l r''] |] eqn:E; [| discriminate].
        inversion H. subst rest. exact (IHe _ _ _ E). }
    destruct (Ascii.eqb c "{").
    { rewrite parse_value_dict in H. destruct (skip_ws_cross u1) as [u2 Hu]. rewrite Hu in H.
      destruct u2 as [| c' u3].
      - cbn [app] in H. unfold O in H at 1.
        change (Ascii.eqb "{" "}") with false in H. cbn iota in H.
        change ("{"%char :: dq :: o2) with ([] ++ O) in H.
        destruct (parse_members n ([] ++ O)) as [[l r''] |] eqn:E; [| discriminate].
        inversion H. subst rest. exact (IHm _ _ _ E).
      - cbn [app] in H. destruct (Ascii.eqb c' "}"); [inversion H; left; eauto |].
        change (c' :: u3 ++ O) with ((c' :: u3) ++ O) in H.
        destruct (parse_members n ((c' :: u3) ++ O)) as [[l r''] |] eqn:E; [| discriminate].
        inversion H. subst rest. exact (IHm _ _ _ E). }
    change (c :: u1 ++ O) with ((c :: u1) ++ O) in H.
    destruct (strip_prefix (lit "null") ((c :: u1) ++ O)) as [r' |] eqn:E1.
    { inversion H. subst rest. refine (strip_prefix_cross _ _ _ _ E1). cbn. intuition discriminate. }
    destruct (strip_prefix (lit "true") ((c :: u1) ++ O)) as [r' |] eqn:E2.
    { inversion H. subst rest. refine (strip_prefix_cross _ _ _ _ E2). cbn. intuition discriminate. }
    destruct (strip_prefix (lit "false") ((c :: u1) ++ O)) as [r' |] eqn:E3.
    { inversion H. subst rest. refine (strip_prefix_cross _ _ _ _ E3). cbn. intuition discriminate. }
    destruct (scan_number ((c :: u1) ++ O)) as [[z r'] |] eqn:E4; [| discriminate].
    inversion H. subst rest. exact (scan_number_cross _ _ _ E4).
  - intros u l rest H. rewrite parse_elems_step in H.
    destruct (parse_value n (u ++ O)) as [[v r1] |] eqn:E; [| discriminate].
    destruct (after_skip r1 (Hv' _ _ _ E)) as [Hs | (c & r' & Hs & Hc)]; rewrite Hs in H;
      [discriminate |].
    destruct Hc as [[u' ->] | [-> | ->]].
    + destruct (Ascii.eqb c "]"); [inversion H; left; eauto |].
      destruct (Ascii.eqb c ","); [| discriminate].
      destruct (skip_ws_cross u') as [u2 Hu]. rewrite Hu in H.
      destruct (parse_elems n (u2 ++ O)) as [[l2 r2] |] eqn:E2; [| discriminate].
      inversion H. subst rest. exact (IHe _ _ _ E2).
    + cbn in H. discriminate.
    + destruct c0_plain as (_ & _ & Hb & Ha & _). rewrite Ha, Hb in H. discriminate.
  - intros u kvs rest H. destruct u as [| c u1]; [cbn in H; discriminate |].
    cbn [app] in H. rewrite parse_members_head in H.
    destruct (Ascii.eqb c dq); [| discriminate]. rewrite parse_members_step in H.
    destruct (scanstring (u1 ++ O)) as [[k r1] |] eqn:E; [| discriminate].
    apply (scanstring_cross _ u1 (le_n _)) in E.
    destruct (after_skip r1 (or_introl E)) as [Hs | (c1 & r2 & Hs & Hc)]; rewrite Hs in H;
      [discriminate |].
    destruct Hc as [[u' ->] | [-> | ->]];
      [| cbn in H; discriminate
       | destruct c0_plain as (_ & Hb & _); rewrite Hb in H; discriminate].
    destruct (Ascii.eqb c1 ":"); [| discriminate].
    destruct (skip_ws_cross u') as [u2 Hu]. rewrite Hu in H.
    destruct (parse_value n (u2 ++ O)) as [[v r3] |] eqn:E3; [| discriminate].
    destruct (after_skip r3 (Hv' _ _ _ E3)) as [Hs3 | (c3 & r4 & Hs3 & Hc3)]; rewrite Hs3 in H;
      [discriminate |].
    destruct Hc3 as [[u4 ->] | [-> | ->]].
    + destruct (Ascii.eqb c3 "}"); [inversion H; left; eauto |].
      destruct (Ascii.eqb c3 ","); [| discriminate].
      destruct (skip_ws_cross u4) as [u5 Hu5]. rewrite Hu5 in H.
      destruct (parse_members n (u5 ++ O)) as [[k2 r5] |] eqn:E5; [| discriminate].
      inversion H. subst rest. exact (IHm _ _ _ E5).
    + cbn in H. discriminate.
    + destruct c0_plain as (_ & _ & Hb & _ & Ha). rewrite Ha, Hb in H. discriminate.
Qed.

(** The whole text [u ++ O] decodes only when [u] is empty. *)
Lemma no_text_in_front n u v rest :
  parse_value n (u ++ O) = Some (v, rest) -> skip_ws rest = [] -> u = [] /\ rest = [].
Proof.
  intros H Hs. destruct (proj1 (crossing n) u v rest H) as [[[u' ->] | ->] | Hd]; [| | exact Hd].
  - destruct (skip_ws_cross u') as [u2 Hu]. rewrite Hu in Hs.
    destruct u2; discriminate.
  - rewrite o2_head, skip_ws_plain in Hs by apply c0_plain. discriminate.
Qed.

End crossing.

(** *** Strings and lists of characters *)

Lemma list_of_append a b :
  list_ascii_of_string (a +:+ b) = list_ascii_of_string a ++ list_ascii_of_string b.
Proof. induction a as [| c a IH]; simpl; [reflexivity | f_equal; exact IH]. Qed.

Lemma loads_of_list l : loads (string_of_list_ascii l) = loads_l l.
Proof. unfold loads. rewrite list_ascii_of_string_of_list_ascii. reflexivity. Qed.

Lemma lstrip_app a c t : is_space c = false -> lstrip (a ++ c :: t) = lstrip a ++ c :: t.
Proof.
  intros Hc. induction a as [| x a IH]; cbn [app lstrip]; [rewrite Hc; reflexivity |].
  destruct (is_space x); [exact IH | reflexivity].
Qed.

Lemma lstrip_head a : lstrip a = [] \/ exists c t, lstrip a = c :: t /\ is_space c = false.
Proof.
  induction a as [| x a IH]; [left; reflexivity |]. cbn [lstrip].
  destruct (is_space x) eqn:E; [exact IH | right; eauto].
Qed.

Lemma ws_is_space c : is_space c = false -> is_ws c = false.
Proof.
  intros H. destruct c as [[] [] [] [] [] [] [] []]; cbv in H; try discriminate H; reflexivity.
Qed.

(** Stripping the printed line of an object, with any text in front *)
Lemma strip_printed pre body :
  strip_l (pre ++ ("{"%char :: body ++ ["}"%char]) ++ [nl])
  = lstrip pre ++ "{"%char :: body ++ ["}"%char].
Proof.
  unfold strip_l. cbn [app]. rewrite lstrip_app by reflexivity.
  change (lstrip pre ++ "{"%char :: (body ++ ["}"%char]) ++ [nl])
    with (lstrip pre ++ ("{"%char :: body ++ ["}"%char]) ++ [nl]).
  rewrite app_assoc, rev_app_distr. cbn [rev app lstrip].
  change (is_space nl) with true. cbn iota.
  rewrite app_comm_cons, app_assoc, rev_app_distr. cbn [rev app lstrip].
  change (is_space "}") with false. cbn iota.
  change ("}"%char :: rev (lstrip pre ++ "{"%char :: body))
    with (["}"%char] ++ rev (lstrip pre ++ "{"%char :: body)).
  rewrite rev_app_distr, rev_involutive. cbn [rev app]. rewrite <- app_assoc. reflexivity.
Qed.

(** What [loads] makes of the printed line of a dict whose first key starts
    with a plain character, behind any text the process wrote before: the
    dict itself, or nothing. *)
Lemma loads_behind_text (pre : string) (kvs : list (string * value)) c0 t0 data :
  render (VDict kvs) = "{"%char :: dq :: c0 :: t0 ->
  is_ws c0 = false /\ Ascii.eqb c0 ":" = false /\ Ascii.eqb c0 "," = false
  /\ Ascii.eqb c0 "]" = false /\ Ascii.eqb c0 "}" = false ->
  loads (strip (pre +:+ dumps (VDict kvs) +:+ String nl "")) = Some data ->
  data = VDict kvs.
Proof.
  intros Hshape Hplain H. unfold strip, dumps in H.
  rewrite loads_of_list, !list_of_append, list_ascii_of_string_of_list_ascii in H.
  change (list_ascii_of_string (String nl "")) with [nl] in H.
  rewrite app_assoc in H. rewrite render_dict in H at 1.
  rewrite <- app_assoc, strip_printed, <- render_dict in H.
  unfold loads_l in H.
  assert (Hskip : skip_ws (lstrip (list_ascii_of_string pre) ++ render (VDict kvs))
                  = lstrip (list_ascii_of_string pre) ++ render (VDict kvs)).
  { destruct (lstrip_head (list_ascii_of_string pre)) as [-> | (c & t & -> & Hc)].
    - cbn [app]. rewrite <- (app_nil_r (render (VDict kvs))). apply skip_ws_render.
    - apply skip_ws_plain, ws_is_space, Hc. }
  rewrite Hskip in H.
  destruct (parse_value _ _) as [[v r] |] eqn:E; [| discriminate].
  destruct (skip_ws r) eqn:Hr; [| discriminate]. inversion H. subst v.
  rewrite Hshape in E.
  assert (Hsound : forall n v r,
             parse_value n ("{"%char :: dq :: c0 :: t0) = Some (v, r) -> v = VDict kvs /\ r = []).
  { intros n v r' Hp. rewrite <- Hshape, <- (app_nil_r (render (VDict kvs))) in Hp.
    exact (proj1 (parse_render n) (VDict kvs) [] v r' eq_refl Hp). }
  destruct (no_text_in_front (c0 :: t0) t0 c0 eq_refl Hplain
              (fun n v r Hp => proj2 (Hsound n v r Hp)) _ _ _ _ E Hr) as [Hu ->].
  rewrite Hu in E. exact (proj1 (Hsound _ _ _ E)).
Qed.

End JsonFacts.

(** ** The sandbox *)

Module SandboxFacts.
Import Py Sandbox Samples.

(** *** Substrings *)

Lemma prefix_split p s : String.prefix p s = true -> exists b, s = p +:+ b.
Proof.
  revert s. induction p as [| c p IH]; intros s H.
  - exists s. reflexivity.
  - destruct s as [| c' s]; [discriminate |]. cbn in H.
    destruct (ascii_dec c c') as [-> | ?]; [| discriminate].
    destruct (IH s H) as [b ->]. exists b. reflexivity.
Qed.

Lemma prefix_append p b : String.prefix p (p +:+ b) = true.
Proof.
  induction p as [| c p IH]; [destruct b; reflexivity |].
  simpl. destruct (ascii_dec c c); [exact IH | congruence].
Qed.

(** [str_in p s] holds exactly when [p] occurs in [s]. *)
Lemma str_in_spec p s : str_in p s = true <-> exists a b, s = a +:+ p +:+ b.
Proof.
  split.
  - induction s as [| c s IH]; cbn [str_in]; intros H; apply orb_prop in H as [H | H].
    + destruct (prefix_split _ _ H) as [b ->]. exists "", b. reflexivity.
    + discriminate.
    + destruct (prefix_split _ _ H) as [b ->]. exists "", b. reflexivity.
    + destruct (IH H) as (a & b & ->). exists (String c a), b. reflexivity.
  - intros (a & b & ->). induction a as [| c a IH].
    + cbn [String.append]. pose proof (prefix_append p b) as H.
      destruct (p +:+ b); simpl in *; rewrite H; reflexivity.
    + change (String c a +:+ p +:+ b) with (String c (a +:+ p +:+ b)).
      change (str_in p (String c (a +:+ p +:+ b)))
        with (String.prefix p (String c (a +:+ p +:+ b)) || str_in p (a +:+ p +:+ b)).
      rewrite IH. apply orb_true_r.
Qed.

(** Where a text occurs, its first character occurs. *)
Lemma str_in_head c y s : str_in (String c y) s = true -> str_in (String c "") s = true.
Proof.
  rewrite !str_in_spec. intros (a & b & ->). exists a, (y +:+ b). reflexivity.
Qed.

Lemma append_empty a b : a +:+ b = "" -> a = "" /\ b = "".
Proof. destruct a; [cbn; auto | discriminate]. Qed.

Lemma dangerous_nonempty p : In p dangerous -> p <> "".
Proof.
  unfold dangerous. cbn [In].
  intros [<- | [<- | [<- | [<- | [<- | [<- | [<- | [<- | []]]]]]]]]; discriminate.
Qed.

Section facts.
Variable py_eq : value -> value -> bool.
Variable repr_str : string -> string.

(** C4. A source that contains a substring of the deny-list is answered
    with 0 passed, the number of test cases as total, and one detail naming
    a deny-listed pattern that occurs in the source (the first such pattern
    in the order of the list), whatever the tests are; the answer is the same
    for every interpreter, so the source is not executed. *)
Theorem forbidden_pattern_is_rejected_unrun python code_src test_cases timeout pattern a b :
  In pattern dangerous ->
  code_src = a +:+ pattern +:+ b ->
  exists found,
    In found dangerous
    /\ (exists a' b', code_src = a' +:+ found +:+ b')
    /\ _run_code_safely py_eq repr_str python code_src test_cases timeout
       = Ok (VInt 0, VInt (Z.of_nat (length test_cases)),
             VList [VDict [("error", VStr ("Forbidden pattern: " +:+ found))]])
    /\ forall python',
         _run_code_safely py_eq repr_str python' code_src test_cases timeout
         = _run_code_safely py_eq repr_str python code_src test_cases timeout.
Proof.
  intros Hin Hsrc.
  assert (Hne : String.eqb code_src "" = false).
  { apply String.eqb_neq. intros ->. symmetry in Hsrc.
    apply append_empty in Hsrc as [_ H]. apply append_empty in H as [H _].
    exact (dangerous_nonempty _ Hin H). }
  destruct (find (fun p => str_in p code_src) dangerous) as [found |] eqn:Hf.
  - apply find_some in Hf as Hf'. destruct Hf' as [Hfin Hfs]. apply str_in_spec in Hfs.
    exists found. split; [exact Hfin |]. split; [exact Hfs |].
    unfold _run_code_safely. rewrite Hne, Hf. split; reflexivity.
  - exfalso. apply (find_none _ _ Hf) in Hin.
    assert (str_in pattern code_src = true) by (apply str_in_spec; eauto).
    cbn beta in Hin. congruence.
Qed.

(** The messages of the sandbox's own diagnostics *)
Lemma timeout_message_is_distinct (timeout : Z) (x : string) :
  "Execution timeout (" +:+ str_int timeout +:+ "s)" <> "No code extracted from response"
  /\ "Execution timeout (" +:+ str_int timeout +:+ "s)" <> "Forbidden pattern: " +:+ x
  /\ "Execution timeout (" +:+ str_int timeout +:+ "s)" <> "No output. Stderr: " +:+ x
  /\ "Execution timeout (" +:+ str_int timeout +:+ "s)" <> "Invalid JSON: " +:+ x.
Proof. repeat split; cbn; discriminate. Qed.

(** A process runs over time when the top-level statements do, or when the
    callable does on the first test. *)
Lemma overtime_process (p : program) tests :
  top p = TopOvertime
  \/ (exists out err fn inp expected rest,
        top p = TopReturns out err /\ callable p = Some fn
        /\ tests = (inp, expected) :: rest /\ call fn 0 inp = Overtime) ->
  harness_process py_eq repr_str p tests = TimeoutExpired.
Proof.
  unfold harness_process.
  intros [-> | (out & err & fn & inp & expected & rest & -> & -> & -> & Hc)]; [reflexivity |].
  cbn [run_tests]. rewrite Hc. reflexivity.
Qed.


(** *** The report of the harness *)

Lemma call_exits fn k inp o e :
  call fn k inp = Exits o e -> exists args, fn k args = Exits o e.
Proof. destruct inp; cbn [call]; eauto; discriminate. Qed.

Lemma run_tests_never_exits fn :
  (forall k args o e, fn k args <> Exits o e) ->
  forall tests k passed results out o e,
    run_tests py_eq repr_str fn k tests passed results out <> Exited o e.
Proof.
  intros Hfn. induction tests as [| [inp expected] rest IH]; intros k passed results out o e;
    cbn [run_tests]; [discriminate |].
  destruct (call fn k inp) as [o1 v | o1 msg | o1 e1 |] eqn:E; try apply IH; try discriminate.
  apply call_exits in E as [args E]. exfalso. exact (Hfn _ _ _ _ E).
Qed.

(** The harness counts at most one pass per test. *)
Lemma run_tests_count fn :
  forall tests k passed results out passed' results' out',
    run_tests py_eq repr_str fn k tests passed results out = Finished passed' results' out' ->
    (passed <= passed' <= passed + Z.of_nat (length tests))%Z.
Proof.
  induction tests as [| [inp expected] rest IH]; intros k passed results out p' r' o' H;
    cbn [run_tests] in H.
  - inversion H. cbn [length]. lia.
  - cbn [length]. destruct (call fn k inp) as [o1 v | o1 msg | o1 e1 |]; try discriminate.
    + apply IH in H. destruct (compare py_eq v expected); lia.
    + apply IH in H. lia.
Qed.

Lemma report_shape passed tests results :
  exists t0, Json.render (report_of passed tests results) = "{"%char :: dq :: "p"%char :: t0.
Proof. eexists. reflexivity. Qed.

Lemma no_function_shape :
  exists t0, Json.render no_function = "{"%char :: dq :: "e"%char :: t0.
Proof. eexists. reflexivity. Qed.

(** What the parent reads when the process printed a report, whatever text
    came before it on stdout *)
Lemma parent_reads_report python code_src test_cases timeout pre err passed results :
  harness_process py_eq repr_str (python code_src) test_cases
  = Completed (pre +:+ print (report_of passed test_cases results)) err ->
  (0 <= passed <= Z.of_nat (length test_cases))%Z ->
  exists p details,
    _run_code_safely py_eq repr_str python code_src test_cases timeout
    = Ok (VInt p, VInt (Z.of_nat (length test_cases)), details)
    /\ (0 <= p <= Z.of_nat (length test_cases))%Z.
Proof.
  intros Hp Hpassed. unfold _run_code_safely.
  destruct (String.eqb code_src ""); [unfold failure; eexists _, _; split; [reflexivity | lia] |].
  destruct (find _ dangerous); [unfold failure; eexists _, _; split; [reflexivity | lia] |].
  rewrite Hp.
  destruct (String.eqb (strip _) ""); [unfold failure; eexists _, _; split; [reflexivity | lia] |].
  destruct (Json.loads _) as [data |] eqn:E;
    [| unfold failure; eexists _, _; split; [reflexivity | lia]].
  destruct (report_shape passed test_cases results) as [t0 Hshape].
  unfold print in E.
  apply (JsonFacts.loads_behind_text pre _ "p" t0 data Hshape) in E;
    [| repeat split; reflexivity].
  subst data. eexists _, _. split; [reflexivity | exact Hpassed].
Qed.

Lemma parent_reads_no_function python code_src test_cases timeout pre err :
  harness_process py_eq repr_str (python code_src) test_cases
  = Completed (pre +:+ print no_function) err ->
  exists p details,
    _run_code_safely py_eq repr_str python code_src test_cases timeout
    = Ok (VInt p, VInt (Z.of_nat (length test_cases)), details)
    /\ (0 <= p <= Z.of_nat (length test_cases))%Z.
Proof.
  intros Hp. unfold _run_code_safely.
  destruct (String.eqb code_src ""); [unfold failure; eexists _, _; split; [reflexivity | lia] |].
  destruct (find _ dangerous); [unfold failure; eexists _, _; split; [reflexivity | lia] |].
  rewrite Hp.
  destruct (String.eqb (strip _) ""); [unfold failure; eexists _, _; split; [reflexivity | lia] |].
  destruct (Json.loads _) as [data |] eqn:E;
    [| unfold failure; eexists _, _; split; [reflexivity | lia]].
  destruct no_function_shape as [t0 Hshape].
  unfold print in E.
  apply (JsonFacts.loads_behind_text pre _ "e" t0 data Hshape) in E;
    [| repeat split; reflexivity].
  subst data. eexists _, _. split; [reflexivity | lia].
Qed.

Lemma append_assoc a b c : (a +:+ b) +:+ c = a +:+ (b +:+ c).
Proof.
  induction a as [| x a IH]; [reflexivity |].
  change (String x ((a +:+ b) +:+ c) = String x (a +:+ (b +:+ c))). rewrite IH. reflexivity.
Qed.


End facts.

Lemma forbidden_pattern_is_rejected_unrun_witness :
  exists found,
    In found dangerous
    /\ (exists a' b', "import os; os.system('ls')" = a' +:+ found +:+ b')
    /\ _run_code_safely sample_eq sample_repr_str summing_python "import os; os.system('ls')"
         [(VInt 1, VInt 1)] 5
       = Ok (VInt 0, VInt (Z.of_nat (length [(VInt 1, VInt 1)])),
             VList [VDict [("error", VStr ("Forbidden pattern: " +:+ found))]])
    /\ forall python',
         _run_code_safely sample_eq sample_repr_str python' "import os; os.system('ls')"
           [(VInt 1, VInt 1)] 5
         = _run_code_safely sample_eq sample_repr_str summing_python "import os; os.system('ls')"
             [(VInt 1, VInt 1)] 5.
Proof.
  apply (forbidden_pattern_is_rejected_unrun sample_eq sample_repr_str summing_python
           "import os; os.system('ls')" [(VInt 1, VInt 1)] 5 "os.system" "import os; " "('ls')").
  - unfold dangerous. cbn [In]. auto 10.
  - reflexivity.
Defined.




(** The two runs the claim is about, evaluated: a clean run of the summing
    [solve] passes 5 of 5, and the same source with a line printed first
    passes 0 of 5, its output no longer being JSON. *)
Example clean_run_passes_all :
  exists details,
    _run_code_safely sample_eq sample_repr_str summing_python chatty_source
      (Tester.c_test_cases sum_of_list) 5
    = Ok (VInt 5, VInt 5, details).
Proof. eexists. vm_compute. reflexivity. Qed.

Example chatty_run_passes_none :
  exists msg,
    _run_code_safely sample_eq sample_repr_str chatty_python chatty_source
      (Tester.c_test_cases sum_of_list) 5
    = Ok (failure 5 msg)
    /\ String.prefix "Invalid JSON: ready" msg = true.
Proof. eexists. split; vm_compute; reflexivity. Qed.


End SandboxFacts.

(** ** More on the run registry *)

Module RunManagerExtra.
Import Py RunManager RunManagerMore RunManagerFacts Samples.

Section facts.
Context {Meta Result : Type}.
Implicit Types (RUNS : gmap string (run Meta Result)) (r : run Meta Result)
  (m : mutation Result).

(** X1. A created run is found pending, with an empty log, progress 0 and no
    result, under the token it was given; every other run is as it was, and
    a token already in use is overwritten. *)
Theorem created_run_is_pending token (meta : Meta) RUNS :
  fst (create_run token meta RUNS) = token
  /\ get_run token (snd (create_run token meta RUNS))
     = Some (Run token pending [] 0 meta (None : option Result))
  /\ (forall other, other <> token ->
        get_run other (snd (create_run token meta RUNS)) = get_run other RUNS)
  /\ (RUNS !! token = None -> size (snd (create_run token meta RUNS)) = S (size RUNS)).
Proof.
  unfold create_run, get_run. cbn [fst snd]. split; [reflexivity |].
  split; [apply lookup_insert_eq |]. split.
  - intros other Hne. apply lookup_insert_ne. congruence.
  - intros Hfresh. apply map_size_insert_None, Hfresh.
Qed.

Lemma apply_mutation_present m run_id RUNS r :
  RUNS !! run_id = Some r ->
  apply_mutation m run_id RUNS = Ok (<[run_id := mutated m r]> RUNS).
Proof.
  intros H. destruct m; cbn [apply_mutation mutated].
  - apply set_running_present, H.
  - apply append_message_present, H.
  - apply set_progress_present, H.
  - apply set_result_present, H.
  - apply set_error_present, H.
Qed.

Lemma apply_mutation_absent m run_id RUNS :
  RUNS !! run_id = None -> apply_mutation m run_id RUNS = Ok RUNS.
Proof.
  intros H. destruct m; cbn [apply_mutation];
    unfold set_running, append_message, set_progress, set_result, set_error;
    rewrite (contains_absent _ _ H); reflexivity.
Qed.

(** Every mutation returns, and leaves the other runs alone. *)
Lemma apply_mutation_ok m run_id RUNS :
  exists RUNS',
    apply_mutation m run_id RUNS = Ok RUNS'
    /\ forall k, k <> run_id -> RUNS' !! k = RUNS !! k.
Proof.
  destruct (RUNS !! run_id) as [r |] eqn:Hr.
  - exists (<[run_id := mutated m r]> RUNS). split; [apply apply_mutation_present, Hr |].
    intros k Hk. apply lookup_insert_ne. congruence.
  - exists RUNS. split; [apply apply_mutation_absent, Hr | reflexivity].
Qed.

(** X2. Every mutation returns normally. It leaves every run but the named
    one as it was, never adds or removes a run, and on the named run keeps the
    id and the metadata, keeps every message already logged in place (the log
    only grows at its end), and keeps a stored result stored. *)
Theorem mutation_frame_and_log m run_id RUNS :
  exists RUNS',
    apply_mutation m run_id RUNS = Ok RUNS'
    /\ (forall k, k <> run_id -> RUNS' !! k = RUNS !! k)
    /\ (forall k, RUNS' !! k = None <-> RUNS !! k = None)
    /\ (forall r, RUNS !! run_id = Some r ->
          exists r', RUNS' !! run_id = Some r'
            /\ id r' = id r /\ metadata r' = metadata r
            /\ extends (messages r) (messages r')
            /\ (is_Some (result r) -> is_Some (result r'))).
Proof.
  destruct (RUNS !! run_id) as [r |] eqn:Hr.
  - exists (<[run_id := mutated m r]> RUNS). split; [apply apply_mutation_present, Hr |].
    split; [intros k Hk; apply lookup_insert_ne; congruence |]. split.
    + intros k. destruct (decide (k = run_id)) as [-> | Hne].
      * rewrite lookup_insert_eq, Hr. split; discriminate.
      * rewrite lookup_insert_ne by congruence. reflexivity.
    + intros r0 [= <-]. exists (mutated m r). split; [apply lookup_insert_eq |].
      destruct m; cbn [mutated id metadata messages result]; repeat split;
        try (exists []; symmetry; apply app_nil_r); try (eexists; reflexivity); auto.
  - exists RUNS. split; [apply apply_mutation_absent, Hr |].
    split; [reflexivity |]. split; [reflexivity |]. intros r0 [=].
Qed.

(** X3. A registry in which every run is stored under its own id stays so under
    [create_run] and under every mutation. *)
Theorem keyed_is_kept token (meta : Meta) m run_id RUNS :
  keyed RUNS ->
  keyed (snd (create_run token meta RUNS))
  /\ exists RUNS', apply_mutation m run_id RUNS = Ok RUNS' /\ keyed RUNS'.
Proof.
  intros Hk. split.
  - intros k r. unfold create_run. cbn [snd]. rewrite lookup_insert.
    destruct (decide (token = k)) as [-> | Hne]; [intros [= <-]; reflexivity | apply Hk].
  - destruct (RUNS !! run_id) as [r |] eqn:Hr.
    + eexists. split; [apply apply_mutation_present, Hr |].
      intros k r'. rewrite lookup_insert. destruct (decide (run_id = k)) as [-> | Hne]; [| apply Hk].
      intros [= <-]. specialize (Hk _ _ Hr). destruct m; exact Hk.
    + exists RUNS. split; [apply apply_mutation_absent, Hr | exact Hk].
Qed.

(** X4. No mutation looks at the status it overwrites: a finished run that is
    marked running again is running, with its result still stored. *)
Theorem finished_run_can_restart run_id (res_ : Result) RUNS r :
  RUNS !! run_id = Some r ->
  exists R1 R2 r2,
    set_result run_id res_ RUNS = Ok R1
    /\ set_running run_id R1 = Ok R2
    /\ R2 !! run_id = Some r2
    /\ status_of r2 = running /\ result r2 = Some res_ /\ progress r2 = 100%Z.
Proof.
  intros Hr. eexists _, _, _.
  split; [apply set_result_present, Hr |].
  split; [apply set_running_present, lookup_insert_eq |].
  split; [apply lookup_insert_eq |]. repeat split.
Qed.

End facts.

Lemma keyed_sample : keyed sample_registry.
Proof.
  intros k r. unfold sample_registry. rewrite lookup_insert.
  destruct (decide ("a1" = k)) as [<- | Hne]; [intros [= <-]; reflexivity |].
  rewrite lookup_empty. discriminate.
Qed.

Lemma keyed_is_kept_witness :
  keyed (snd (create_run "b2" tt sample_registry))
  /\ exists RUNS',
       apply_mutation (SetError "boom") "a1" sample_registry = Ok RUNS' /\ keyed RUNS'.
Proof. exact (keyed_is_kept "b2" tt (SetError "boom") "a1" sample_registry keyed_sample). Defined.

Lemma finished_run_can_restart_witness :
  exists R1 R2 r2,
    set_result "a1" "summary" sample_registry = Ok R1
    /\ set_running "a1" R1 = Ok R2
    /\ R2 !! "a1" = Some r2
    /\ status_of r2 = running /\ result r2 = Some "summary" /\ progress r2 = 100%Z.
Proof.
  exact (finished_run_can_restart "a1" "summary" sample_registry
           (Run "a1" running ["Starting run..."] 40 tt None) eq_refl).
Defined.

End RunManagerExtra.

(** ** More on the web application: host and model lists *)

Module AppListsExtra.
Import Py RunManager App AppMore.
Local Set Warnings "-clear-no-such-hyp".

Lemma _unique_loop_snoc seq x seen out :
  _unique_loop (seq ++ [x]) seen out
  = if decide (x ∈ seen \/ x ∈ seq) then _unique_loop seq seen out
    else _unique_loop seq seen out ++ [x].
Proof.
  revert seen out. induction seq as [| a seq IH]; intros seen out; cbn [app _unique_loop].
  - repeat case_decide; try reflexivity; exfalso; set_solver.
  - destruct (decide (a ∈ seen)) as [Ha | Ha]; rewrite IH;
      repeat case_decide; try reflexivity; exfalso; set_solver.
Qed.

(** X5. [_unique] read from the end of its input: a last element that occurred
    before is dropped, a new one is appended. With [_unique [] = []] this
    fixes the result: the elements in the order of their first occurrence. *)
Theorem unique_keeps_first_occurrences seq x :
  _unique [] = []
  /\ _unique (seq ++ [x]) = if decide (x ∈ seq) then _unique seq else _unique seq ++ [x].
Proof.
  split; [reflexivity |]. unfold _unique. rewrite _unique_loop_snoc.
  repeat case_decide; try reflexivity; exfalso; set_solver.
Qed.

Lemma unique_snoc seq x :
  (x ∈ seq) /\ _unique (seq ++ [x]) = _unique seq
  \/ (x ∉ seq) /\ _unique (seq ++ [x]) = _unique seq ++ [x].
Proof.
  unfold _unique. rewrite _unique_loop_snoc.
  repeat case_decide; [left | right]; (split; [set_solver | reflexivity]).
Qed.

Lemma unique_spec seq :
  NoDup (_unique seq) /\ (forall x, x ∈ _unique seq <-> x ∈ seq)
  /\ sublist (_unique seq) seq /\ (NoDup seq -> _unique seq = seq).
Proof.
  induction seq as [| x seq IH] using rev_ind.
  - repeat split; try constructor; intros H; exact H.
  - destruct IH as (Hnd & Hin & Hsub & Hid).
    destruct (unique_snoc seq x) as [[Hx ->] | [Hx ->]].
    + split; [exact Hnd |]. split; [intros y; rewrite Hin; set_solver |].
      split; [apply sublist_inserts_r, Hsub |].
      intros Hn. apply NoDup_app in Hn. destruct Hn as (_ & Hn & _).
      exfalso. apply (Hn x Hx). set_solver.
    + split.
      { apply NoDup_app. split; [exact Hnd |]. split; [| apply NoDup_singleton].
        intros y Hy Hy'. apply Hin in Hy. set_solver. }
      split; [intros y; rewrite !elem_of_app, Hin; reflexivity |].
      split; [apply sublist_app; [exact Hsub | reflexivity] |].
      intros Hn. apply NoDup_app in Hn. destruct Hn as (Hn & _ & _).
      rewrite (Hid Hn). reflexivity.
Qed.

(** X6. The list [_unique] returns has no element twice, has exactly the
    elements of its input, keeps them in the input's order, and is the input
    itself when that has no duplicates (so [_unique] applied twice is
    [_unique]). *)
Theorem unique_has_no_duplicates seq :
  NoDup (_unique seq)
  /\ (forall x, x ∈ _unique seq <-> x ∈ seq)
  /\ sublist (_unique seq) seq
  /\ (NoDup seq -> _unique seq = seq)
  /\ _unique (_unique seq) = _unique seq.
Proof.
  destruct (unique_spec seq) as (Hnd & Hin & Hsub & Hid).
  repeat split; try assumption; try apply Hin.
  exact (proj2 (proj2 (proj2 (unique_spec (_unique seq)))) Hnd).
Qed.

Lemma existsb_eqb_elem (x : string) (l : list string) :
  existsb (String.eqb x) l = true <-> x ∈ l.
Proof.
  rewrite existsb_exists. split.
  - intros (y & Hy & He). apply String.eqb_eq in He. subst y. apply list_elem_of_In, Hy.
  - intros H. exists x. split; [apply list_elem_of_In, H | apply String.eqb_refl].
Qed.

(** X7. The host list of the start page has no host twice, holds the default
    host and every stored host, and nothing else; the stored hosts come first,
    and a default host that is not stored comes last. *)
Theorem saved_hosts_hold_default DEFAULT_HOST list_hosts :
  NoDup (get_saved_hosts DEFAULT_HOST list_hosts)
  /\ DEFAULT_HOST ∈ get_saved_hosts DEFAULT_HOST list_hosts
  /\ (forall h, h ∈ get_saved_hosts DEFAULT_HOST list_hosts
                <-> h ∈ list_hosts \/ h = DEFAULT_HOST)
  /\ (exists more, get_saved_hosts DEFAULT_HOST list_hosts = _unique list_hosts ++ more
        /\ (DEFAULT_HOST ∈ list_hosts -> more = [])
        /\ (DEFAULT_HOST ∉ list_hosts -> more = [DEFAULT_HOST])).
Proof.
  destruct (unique_spec list_hosts) as (Hnd & Hin & _).
  unfold get_saved_hosts. cbv zeta.
  destruct (existsb (String.eqb DEFAULT_HOST) (_unique list_hosts)) eqn:E.
  - apply existsb_eqb_elem in E. split; [exact Hnd |]. split; [exact E |].
    split; [intros h; rewrite Hin; apply Hin in E; set_solver |].
    exists []. rewrite app_nil_r. split; [reflexivity |]. split; [reflexivity |].
    intros Hn. exfalso. apply Hn, Hin, E.
  - assert (Hn : DEFAULT_HOST ∉ _unique list_hosts).
    { intros H. apply existsb_eqb_elem in H. congruence. }
    split.
    { apply NoDup_app. split; [exact Hnd |]. split; [| apply NoDup_singleton].
      intros y Hy Hy'. set_solver. }
    split; [set_solver |].
    split; [intros h; rewrite elem_of_app, Hin; set_solver |].
    exists [DEFAULT_HOST]. split; [reflexivity |]. split; [| reflexivity].
    intros H. exfalso. apply Hn, Hin, H.
Qed.

Lemma filter_sublist {A} (f : A -> bool) (l : list A) : sublist (List.filter f l) l.
Proof.
  induction l as [| x l IH]; cbn [List.filter]; [constructor |].
  destruct (f x); [apply sublist_skip | apply sublist_cons]; exact IH.
Qed.

(** X8. Only models the host has are tested. Models that were asked for are
    tested in the order of the request, each as often as it was asked for;
    with no request the host's models with [etch] in their lower-cased name
    are tested, in the host's order. *)
Theorem tested_models_are_available models names :
  (forall mn, mn ∈ test_models_of models names -> mn ∈ names)
  /\ (models <> [] ->
        sublist (test_models_of models names) models
        /\ forall mn, mn ∈ test_models_of models names <-> mn ∈ models /\ mn ∈ names)
  /\ (models = [] ->
        sublist (test_models_of models names) names
        /\ forall mn, mn ∈ test_models_of models names
                      <-> mn ∈ names /\ str_in "etch" (lower mn) = true).
Proof.
  assert (Hf : forall (f : string -> bool) l mn,
             mn ∈ List.filter f l <-> mn ∈ l /\ f mn = true).
  { intros f l mn. rewrite !list_elem_of_In. apply filter_In. }
  split; [| split].
  - intros mn. unfold test_models_of. destruct models as [| m0 ms].
    + rewrite Hf. tauto.
    + rewrite Hf, existsb_eqb_elem. tauto.
  - intros Hne. destruct models as [| m0 ms]; [congruence |]. unfold test_models_of.
    split; [apply filter_sublist |]. intros mn. rewrite Hf, existsb_eqb_elem. reflexivity.
  - intros ->. unfold test_models_of. split; [apply filter_sublist |].
    intros mn. rewrite Hf. reflexivity.
Qed.

Lemma fold_left_pick_in {A} (pick : A -> A -> bool) (l : list A) (x : A) :
  In (fold_left (fun best y => if pick best y then y else best) l x) (x :: l).
Proof.
  revert x. induction l as [| y l IH]; intros x; cbn [fold_left]; [left; reflexivity |].
  specialize (IH (if pick x y then y else x)). destruct IH as [<- | IH].
  - destruct (pick x y); [right; left | left]; reflexivity.
  - right. right. exact IH.
Qed.

(** X9. The models a run's summary names as fastest, best at code and best at
    reasoning are models of the run, named with their own mean latency and
    score; with at least one model tested a fastest one is always named. *)
Theorem top_models_are_tested_models (ms : list Tester.report) :
  (forall name x, best_code (top_summary_of ms) = Some (name, x) ->
     exists m, In m ms /\ Tester.model_of m = name /\ Tester.code_score m = Some x)
  /\ (forall name x, best_smart (top_summary_of ms) = Some (name, x) ->
     exists m, In m ms /\ Tester.model_of m = name /\ Tester.smartness_score m = Some x)
  /\ (ms <> [] ->
     exists m, In m ms
       /\ fastest (top_summary_of ms)
          = Some (Tester.model_of m, Tester.ls_mean (Tester.stats m))).
Proof.
  assert (Hb : forall score name x, best_by score ms = Some (name, x) ->
             exists m, In m ms /\ Tester.model_of m = name /\ score m = Some x).
  { intros score name x. unfold best_by. destruct ms as [| m rest]; [discriminate |].
    cbv zeta. unfold max_by.
    pose proof (fold_left_pick_in
      (fun best y => PrimFloat.ltb (score_key (score best)) (score_key (score y))) rest m) as Hin.
    cbv beta in Hin. revert Hin.
    generalize (fold_left (fun best y =>
      if PrimFloat.ltb (score_key (score best)) (score_key (score y)) then y else best) rest m).
    intros b Hin. destruct (score b) as [s |] eqn:Es; [| discriminate].
    intros [= <- <-]. exists b. auto. }
  destruct ms as [| m rest].
  - repeat split; try discriminate. congruence.
  - cbn [top_summary_of] in *. cbv zeta. cbn [best_code best_smart fastest].
    split; [apply Hb |]. split; [apply Hb |]. intros _. unfold min_by.
    pose proof (fold_left_pick_in
      (fun best y => PrimFloat.ltb (fastest_key y) (fastest_key best)) rest m) as Hin.
    cbv beta in Hin. eexists. split; [exact Hin | reflexivity].
Qed.

End AppListsExtra.

Module NormalizeExtra.
Import Py RunManager App AppMore AppListsExtra.

Lemma add_name_clean name names : clean names -> clean (add_name name names).
Proof.
  intros [Hnd Hne]. destruct name as [s |]; [| split; assumption]. cbn [add_name].
  destruct (String.eqb s "") eqn:Es; cbn [negb andb]; [split; assumption |].
  destruct (existsb (String.eqb s) names) eqn:Ee; cbn [negb]; [split; assumption |].
  assert (Hs : s ∉ names) by (intros H; apply existsb_eqb_elem in H; congruence).
  apply String.eqb_neq in Es. split.
  - apply NoDup_app. split; [exact Hnd |]. split; [| apply NoDup_singleton].
    intros y Hy Hy'. apply list_elem_of_singleton in Hy'. subst y. exact (Hs Hy).
  - rewrite elem_of_app, list_elem_of_singleton. intros [H | H]; [exact (Hne H) | congruence].
Qed.

Lemma normalize_step_clean names m : clean names -> clean (normalize_step names m).
Proof.
  destruct m as [s | name model shown | entries | model | shown]; cbn [normalize_step];
    try apply add_name_clean.
  revert names. induction entries as [| en entries IH]; intros names H; cbn [fold_left];
    [exact H |].
  apply IH. destruct en as [nm |]; cbn [add_entry]; [apply add_name_clean, H | exact H].
Qed.

Lemma add_name_extends name names : exists more, add_name name names = names ++ more.
Proof.
  destruct name as [s |]; cbn [add_name]; [| exists []; symmetry; apply app_nil_r].
  destruct (negb (String.eqb s "") && negb (existsb (String.eqb s) names));
    [exists [s]; reflexivity | exists []; symmetry; apply app_nil_r].
Qed.

Lemma normalize_step_extends names m : exists more, normalize_step names m = names ++ more.
Proof.
  destruct m as [s | name model shown | entries | model | shown]; cbn [normalize_step];
    try apply add_name_extends.
  revert names. induction entries as [| en entries IH]; intros names; cbn [fold_left].
  - exists []. symmetry. apply app_nil_r.
  - destruct (IH (add_entry names en)) as [more ->].
    destruct en as [nm |]; cbn [add_entry]; [| exists more; reflexivity].
    destruct (add_name_extends nm names) as [more0 ->]. exists (more0 ++ more).
    symmetry. apply app_assoc.
Qed.

(** X10. Whatever shapes the listing mixes, [_normalize_models] returns no name
    twice and no empty name; and a name, once taken, keeps its place: the
    names of a longer listing start with the names of the shorter one. *)
Theorem normalized_names_are_distinct items more_items :
  NoDup (_normalize_models (Iterable items))
  /\ ("" ∉ _normalize_models (Iterable items))
  /\ exists more, _normalize_models (Iterable (items ++ more_items))
                  = _normalize_models (Iterable items) ++ more.
Proof.
  unfold _normalize_models.
  assert (H : forall l acc, clean acc -> clean (fold_left normalize_step l acc)).
  { induction l as [| m l IH]; intros acc Ha; cbn [fold_left]; [exact Ha |].
    apply IH, normalize_step_clean, Ha. }
  destruct (H items []) as [Hnd Hne].
  { split; [constructor | apply not_elem_of_nil]. }
  split; [exact Hnd |]. split; [exact Hne |].
  rewrite fold_left_app. generalize (fold_left normalize_step items []).
  induction more_items as [| m l IH]; intros acc; cbn [fold_left].
  - exists []. symmetry. apply app_nil_r.
  - destruct (normalize_step_extends acc m) as [more0 ->].
    destruct (IH (acc ++ more0)) as [more ->]. exists (more0 ++ more).
    symmetry. apply app_assoc.
Qed.

(** X11. On a listing of plain strings [_normalize_models] is [_unique] after
    the empty strings are dropped. *)
Theorem normalize_plain_names (l : list string) :
  _normalize_models (Iterable (map RawStr l))
  = _unique (List.filter (fun s => negb (String.eqb s "")) l).
Proof.
  unfold _normalize_models, _unique.
  assert (H : forall (seen : gset string) out, (forall x, x ∈ seen <-> x ∈ out) ->
            fold_left normalize_step (map RawStr l) out
            = _unique_loop (List.filter (fun s => negb (String.eqb s "")) l) seen out).
  { induction l as [| s l IH]; intros seen out Hs; cbn [map fold_left List.filter];
      [reflexivity |].
    cbn [normalize_step add_name]. destruct (String.eqb s "") eqn:Es; cbn [negb andb].
    - apply IH, Hs.
    - cbn [_unique_loop]. destruct (decide (s ∈ seen)) as [Hin | Hin].
      + assert (E : existsb (String.eqb s) out = true) by (apply existsb_eqb_elem, Hs, Hin).
        rewrite E. cbn [negb]. apply IH, Hs.
      + assert (E : existsb (String.eqb s) out = false).
        { destruct (existsb (String.eqb s) out) eqn:E; [| reflexivity].
          exfalso. apply Hin, Hs, existsb_eqb_elem, E. }
        rewrite E. cbn [negb]. apply IH. intros x.
        rewrite elem_of_union, elem_of_singleton, elem_of_app, list_elem_of_singleton, Hs.
        tauto. }
  apply H. intros x. rewrite elem_of_empty. split; [tauto | apply not_elem_of_nil].
Qed.

End NormalizeExtra.

(** ** More on the run orchestrator: how a run ends *)

Module AppRunExtra.
Import Py RunManager RunManagerMore App AppMore RunManagerFacts RunManagerExtra AppFacts Samples.
Local Open Scope app_scope.

Implicit Types (R : gmap string (run metadata summary)) (r : run metadata summary).

Lemma when_run_some token op :
  String.eqb token "" = false -> when_run (Some token) op = arun (op token).
Proof. intros H. unfold when_run. rewrite H. reflexivity. Qed.

(** [_run_tests_sync] once the models are listed *)
Lemma run_tests_sync_listed e host api_key repeat models run_id names :
  listing e = Ok names ->
  _run_tests_sync e host api_key repeat models run_id
  = match test_models_of models names with
    | [] => retW (Summary host [] names (clock e) None None None)
    | _ :: _ =>
        tested <- test_loop e repeat run_id
                    (Z.of_nat (length (test_models_of models names))) 1
                    (test_models_of models names) [] ;
        when_run run_id (fun rid => set_progress rid 95) ;;
        retW (Summary host tested names (clock e) None None None)
    end.
Proof. intros H. unfold _run_tests_sync. rewrite H. reflexivity. Qed.

(** A mutation of the registry never raises. *)
Lemma when_run_returns run_id (m : mutation summary) w :
  exists w', when_run run_id (fun rid => apply_mutation m rid) w = (Ok tt, w').
Proof.
  unfold when_run. destruct run_id as [rid |]; [| eexists; reflexivity].
  destruct (String.eqb rid ""); [eexists; reflexivity |].
  unfold arun. destruct (apply_mutation_ok m rid (RUNS w)) as (R' & -> & _).
  eexists. reflexivity.
Qed.

Lemma when_run_append run_id msg w :
  exists w', when_run run_id (fun rid => append_message rid msg) w = (Ok tt, w').
Proof. exact (when_run_returns run_id (AppendMessage msg) w). Qed.

Lemma when_run_progress run_id pct w :
  exists w', when_run run_id (fun rid => set_progress rid pct) w = (Ok tt, w').
Proof. exact (when_run_returns run_id (SetProgress pct) w). Qed.

Lemma when_run_error run_id msg w :
  exists w', when_run run_id (fun rid => set_error rid msg) w = (Ok tt, w').
Proof. exact (when_run_returns run_id (SetError msg) w). Qed.

Lemma test_loop_summary e repeat total mns :
  forall run_id idx tested w w',
    fst (test_loop e repeat run_id total idx mns tested w)
    = fst (test_loop e repeat None total idx mns tested w')
    /\ snd (test_loop e repeat None total idx mns tested w) = w.
Proof.
  induction mns as [| mn rest IH]; intros run_id idx tested w w'; [split; reflexivity |].
  cbn [test_loop]. unfold bindW, liftW, retW.
  destruct (when_run_append run_id
    ("Testing model: " +:+ mn +:+ " (" +:+ str_int idx +:+ "/" +:+ str_int total +:+ ")...")
    w) as [w1 ->].
  destruct (when_run_progress run_id (progress_before idx total) w1) as [w2 ->].
  cbn [when_run]. unfold retW.
  destruct (run_test_model e mn repeat) as [rep | ex]; [| split; reflexivity].
  destruct (when_run_append run_id
    ("Completed " +:+ mn +:+ ": smartness=" +:+ show e (Tester.smartness_score rep)
     +:+ "% mean=" +:+ show e (Tester.ls_mean (Tester.stats rep)) +:+ "s") w2) as [w3 ->].
  destruct (when_run_progress run_id (progress_after idx total) w3) as [w4 ->].
  cbn [when_run]. unfold retW.
  split; [apply (IH run_id _ _ w4 w') | apply (IH None _ _ w w)].
Qed.

(** X12. The summary [_run_tests_sync] returns, or the exception it raises, does
    not depend on whether it reports to a run, nor on the registry: the
    reports to the run are write-only. Called without a run id it leaves the
    registry as it was. *)
Theorem reporting_does_not_change_summary e host api_key repeat models run_id w w' :
  fst (_run_tests_sync e host api_key repeat models run_id w)
  = fst (_run_tests_sync e host api_key repeat models None w')
  /\ snd (_run_tests_sync e host api_key repeat models None w) = w.
Proof.
  destruct (listing e) as [names | ex] eqn:Hl.
  - rewrite !(run_tests_sync_listed _ _ _ _ _ _ names Hl).
    destruct (test_models_of models names) as [| m0 sel]; [split; reflexivity |].
    generalize (m0 :: sel). intros mns. unfold bindW, retW.
    destruct (test_loop_summary e repeat (Z.of_nat (length mns)) mns run_id 1 [] w w')
      as [Hf _].
    destruct (test_loop_summary e repeat (Z.of_nat (length mns)) mns None 1 [] w w')
      as [Hf' Hs].
    destruct (test_loop e repeat run_id (Z.of_nat (length mns)) 1 mns [] w) as [o1 w1].
    destruct (test_loop e repeat None (Z.of_nat (length mns)) 1 mns [] w') as [o2 w2].
    destruct (test_loop e repeat None (Z.of_nat (length mns)) 1 mns [] w) as [o3 w3].
    cbn [fst snd] in *. subst o2 o3 w3. cbn [when_run]. unfold retW.
    destruct o1 as [tested | ex]; [| split; reflexivity].
    destruct (when_run_progress run_id 95 w1) as [w4 ->]. split; reflexivity.
  - unfold _run_tests_sync. rewrite Hl. unfold bindW, retW.
    destruct (when_run_error run_id (str_exn ex) w) as [w1 ->]. split; reflexivity.
Qed.

End AppRunExtra.

Module AppLifeExtra.
Import Py RunManager RunManagerMore App AppMore RunManagerFacts RunManagerExtra AppFacts.
Import AppRunExtra Samples.
Local Open Scope app_scope.

Implicit Types (R : gmap string (run metadata summary)) (r : run metadata summary).

Lemma statuses_running token (h : list (gmap string (run metadata summary))) :
  Forall (run_has_status running token) h ->
  Forall (eq running) (omap (fun R => status_of <$> (R !! token)) h).
Proof.
  induction 1 as [| R h HR _ IH]; cbn [omap list_omap]; [constructor |].
  unfold run_has_status in HR. rewrite HR. constructor; [reflexivity | exact IH].
Qed.

Lemma changes_running_mid (mid l : list status) :
  Forall (eq running) mid ->
  changes (pending :: running :: running :: mid ++ l) = pending :: changes (running :: l).
Proof.
  intros H. change (changes (pending :: running :: running :: mid ++ l))
    with (pending :: changes (running :: mid ++ l)).
  f_equal. induction H as [| y mid <- _ IH]; [reflexivity |].
  change (changes (running :: (running :: mid) ++ l)) with (changes (running :: mid ++ l)).
  exact IH.
Qed.

(** The loop over the selected models, reporting to a running run: the run
    stays running, with its metadata and result as they were, and the loop
    returns the reports in order or raises what the first failing test
    raised. *)
Lemma test_loop_keeps_running e repeat token total mns :
  String.eqb token "" = false ->
  forall idx tested R h i ms p md rs,
    R !! token = Some (Run i running ms p md rs) ->
    match test_loop e repeat (Some token) total idx mns tested (World R h) with
    | (out, w) =>
        exists h' ms' p',
          history w = h ++ h'
          /\ RUNS w !! token = Some (Run i running ms' p' md rs)
          /\ Forall (run_has_status running token) h'
          /\ match out with
             | Ok ts =>
                 exists reps, ts = tested ++ reps
                   /\ Forall2 (fun mn rep => run_test_model e mn repeat = Ok rep) mns reps
             | Raise ex =>
                 exists pre mn post, mns = pre ++ mn :: post
                   /\ Forall (fun m => exists rep, run_test_model e m repeat = Ok rep) pre
                   /\ run_test_model e mn repeat = Raise ex
             end
    end.
Proof.
  intros Et. induction mns as [| mn rest IH]; intros idx tested R h i ms p md rs HR.
  - cbn [test_loop]. unfold retW. exists [], ms, p. cbn [history RUNS].
    rewrite app_nil_r. split; [reflexivity |]. split; [exact HR |]. split; [constructor |].
    exists []. rewrite app_nil_r. split; [reflexivity | constructor].
  - cbn [test_loop when_run]. rewrite Et. unfold bindW, liftW.
    do 2 arun_step token.
    destruct (run_test_model e mn repeat) as [rep | ex] eqn:Em.
    + do 2 arun_step token.
      match goal with
      | H : ?R4 !! token = Some _
        |- context [test_loop _ _ _ _ _ _ _ (World ?R4 ?h4)] =>
          pose proof (IH (idx + 1)%Z (tested ++ [rep]) R4 h4 _ _ _ _ _ H) as HI; revert HI
      end.
      match goal with
      | |- context [test_loop ?a ?b ?c ?d ?f ?g ?k ?w] =>
          destruct (test_loop a b c d f g k w) as [out [Rl hl]]
      end.
      cbn [history RUNS]. intros (h' & ms' & p' & -> & Hr & Hf & Hout).
      eexists (_ :: _ :: _ :: _ :: h'), ms', p'.
      split; [rewrite <- !app_assoc; reflexivity |]. split; [exact Hr |].
      split.
      { repeat (constructor; [unfold run_has_status;
          match goal with H : ?X !! token = Some _ |- context [?X !! token] => rewrite H end;
          reflexivity |]). exact Hf. }
      destruct out as [ts | ex].
      * destruct Hout as (reps & -> & HF). exists (rep :: reps).
        split; [rewrite <- app_assoc; reflexivity |]. constructor; assumption.
      * destruct Hout as (pre & m & post & -> & Hp & Hm). exists (mn :: pre), m, post.
        split; [reflexivity |]. split; [| exact Hm].
        constructor; [exists rep; exact Em | exact Hp].
    + cbn [history RUNS]. eexists [_; _], _, _.
      split; [rewrite <- !app_assoc; reflexivity |]. split; [eassumption |].
      split.
      { repeat (constructor; [unfold run_has_status;
          match goal with H : ?X !! token = Some _ |- context [?X !! token] => rewrite H end;
          reflexivity |]). constructor. }
      exists [], mn, rest. split; [reflexivity |]. split; [constructor | exact Em].
Qed.

(** The statuses seen over a history that is written out, but for one
    stretch [h'] in the middle *)
Ltac seen_statuses token :=
  unfold observed; cbn [history]; rewrite <- ?app_assoc; cbn [app];
  repeat (progress (
    cbn [omap list_omap]; rewrite ?omap_app;
    repeat match goal with
           | H : ?X !! token = Some _ |- context [?X !! token] => rewrite H
           end;
    cbn [fmap option_fmap option_map status_of])).

(** X13. When the models of the host can be listed, the run that [start_run]
    registers ends in exactly one of two ways. If the test of every selected
    model returns, it is seen pending, running and then done, with progress
    100 and the summary stored: the reports in the order of the selection,
    the host's models, no error, and the top summary of these reports. If the
    test of a selected model raises, the models before it were tested, the
    run is seen pending, running and then in error, no result is stored and
    the last logged message is the text of the exception. *)
Theorem listed_run_ends_done_or_error e token host api_key repeat models R0 names :
  listing e = Ok names ->
  host <> "" ->
  token <> "" ->
  exists w,
    start_run e token host api_key repeat models R0 = Some (token, w)
    /\ exists r, RUNS w !! token = Some r
    /\ ((exists s,
           status_of r = done /\ progress r = 100%Z /\ result r = Some s
           /\ changes (observed status_of token w) = [pending; running; done]
           /\ Forall2 (fun mn rep => run_test_model e mn repeat = Ok rep)
                (test_models_of models names) (models_tested s)
           /\ available_models s = names /\ error_of s = None
           /\ top_of s = Some (top_summary_of (models_tested s)))
        \/ (exists pre mn post ex,
           test_models_of models names = pre ++ mn :: post
           /\ Forall (fun m => exists rep, run_test_model e m repeat = Ok rep) pre
           /\ run_test_model e mn repeat = Raise ex
           /\ status_of r = error /\ result r = None
           /\ last (messages r) = Some (str_exn ex)
           /\ changes (observed status_of token w) = [pending; running; error])).
Proof.
  intros Hl Hh Ht. unfold start_run.
  destruct (String.eqb host "") eqn:E; [apply String.eqb_eq in E; contradiction |].
  cbn [create_run]. eexists. split; [reflexivity |].
  pose proof (lookup_insert_eq R0 token
    (Run token pending [] 0 (Metadata host models repeat) None)) as H1.
  remember (<[token := Run token pending [] 0 (Metadata host models repeat) None]> R0)
    as R1 eqn:E1.
  clear E1.
  destruct (String.eqb token "") eqn:Et; [apply String.eqb_eq in Et; contradiction |].
  unfold bg. rewrite (run_tests_sync_listed _ _ _ _ _ _ names Hl).
  destruct (test_models_of models names) as [| m0 sel] eqn:Esel.
  all: match goal with |- context [snd ?X] => pattern (snd X) end;
       match goal with |- ?Q _ => set (Q0 := Q) end;
       cbn [when_run]; rewrite ?Et; unfold bindW, catchW, retW, liftW;
       do 2 arun_step token.
  - do 2 arun_step token.
    destruct (dump_file e), (save_run e); repeat arun_step token;
      subst Q0; cbv beta; cbn [snd RUNS]; (eexists; split; [eassumption |]);
      left; eexists; (split; [reflexivity |]); (split; [reflexivity |]);
      (split; [reflexivity |]);
      (split; [seen_statuses token; reflexivity |]);
      (split; [constructor |]); repeat split.
  - match goal with
    | H : ?R3 !! token = Some _
      |- context [test_loop _ _ _ ?total ?idx ?mns ?tested (World ?R3 ?h3)] =>
        pose proof (test_loop_keeps_running e repeat token total mns Et idx tested R3 h3
                      _ _ _ _ _ H) as HL; revert HL
    end.
    match goal with
    | |- context [test_loop ?a ?b ?c ?d ?f ?g ?k ?w] =>
        destruct (test_loop a b c d f g k w) as [out [Rl hl]]
    end.
    cbn [history RUNS]. intros (h' & ms' & p' & -> & Hr & Hf & Hout).
    destruct out as [ts | ex].
    + destruct Hout as (reps & -> & HF). cbn [app] in *.
      do 3 arun_step token.
      destruct (dump_file e), (save_run e); repeat arun_step token;
        subst Q0; cbv beta; cbn [snd RUNS]; (eexists; split; [eassumption |]);
        left; eexists; (split; [reflexivity |]); (split; [reflexivity |]);
        (split; [reflexivity |]);
        (split; [seen_statuses token;
                 rewrite (changes_running_mid _ _ (statuses_running token h' Hf));
                 reflexivity |]);
        (split; [exact HF |]); repeat split.
    + destruct Hout as (pre & mn & post & Hsel & Hp & Hm).
      arun_step token.
      subst Q0; cbv beta; cbn [snd RUNS]. eexists. split; [eassumption |].
      right. exists pre, mn, post, ex. split; [exact Hsel |]. split; [exact Hp |].
      split; [exact Hm |]. split; [reflexivity |]. split; [reflexivity |].
      split; [apply last_snoc |].
      seen_statuses token.
      rewrite (changes_running_mid _ _ (statuses_running token h' Hf)). reflexivity.
Qed.

Lemma listed_run_ends_done_or_error_witness :
  exists w,
    start_run env_23 "4f1c" "http://localhost:11434" None 1 ["m2"; "m1"; "zz"] ∅
    = Some ("4f1c", w)
    /\ exists r, RUNS w !! "4f1c" = Some r
    /\ ((exists s,
           status_of r = done /\ progress r = 100%Z /\ result r = Some s
           /\ changes (observed status_of "4f1c" w) = [pending; running; done]
           /\ Forall2 (fun mn rep => run_test_model env_23 mn 1 = Ok rep)
                (test_models_of ["m2"; "m1"; "zz"] names23) (models_tested s)
           /\ available_models s = names23 /\ error_of s = None
           /\ top_of s = Some (top_summary_of (models_tested s)))
        \/ (exists pre mn post ex,
           test_models_of ["m2"; "m1"; "zz"] names23 = pre ++ mn :: post
           /\ Forall (fun m => exists rep, run_test_model env_23 m 1 = Ok rep) pre
           /\ run_test_model env_23 mn 1 = Raise ex
           /\ status_of r = error /\ result r = None
           /\ last (messages r) = Some (str_exn ex)
           /\ changes (observed status_of "4f1c" w) = [pending; running; error])).
Proof.
  apply (listed_run_ends_done_or_error env_23 "4f1c" "http://localhost:11434" None 1
           ["m2"; "m1"; "zz"] ∅ names23).
  - reflexivity.
  - discriminate.
  - discriminate.
Defined.

End AppLifeExtra.

(** ** More on the run orchestrator: what the thread never does *)

Module AppThreadExtra.
Import Py RunManager RunManagerMore App AppMore RunManagerFacts RunManagerExtra AppFacts.
Import AppRunExtra Samples.
Local Open Scope app_scope.

Lemma only_writes_ret {A} token (a : A) : only_writes token (retW a).
Proof. intros w other _. reflexivity. Qed.

Lemma only_writes_lift {A} token (r : res A) : only_writes token (liftW r).
Proof. intros w other _. reflexivity. Qed.

Lemma only_writes_bind {A B} token (m : W A) (k : A -> W B) :
  only_writes token m -> (forall a, only_writes token (k a)) -> only_writes token (bindW m k).
Proof.
  intros Hm Hk w other Hne. unfold bindW. specialize (Hm w other Hne).
  destruct (m w) as [[a | e] w1]; cbn [snd] in *; [| exact Hm].
  rewrite (Hk a w1 other Hne). exact Hm.
Qed.

Lemma only_writes_catch {A} token (m : W A) (h : exn -> W A) :
  only_writes token m -> (forall e, only_writes token (h e)) -> only_writes token (catchW m h).
Proof.
  intros Hm Hh w other Hne. unfold catchW. specialize (Hm w other Hne).
  destruct (m w) as [[a | e] w1]; cbn [snd] in *; [exact Hm |].
  rewrite (Hh e w1 other Hne). exact Hm.
Qed.

Lemma only_writes_arun token (m : mutation summary) :
  only_writes token (arun (apply_mutation m token)).
Proof.
  intros w other Hne. unfold arun.
  destruct (apply_mutation_ok m token (RUNS w)) as (R' & -> & Hf).
  cbn [snd RUNS]. apply Hf, Hne.
Qed.

Lemma only_writes_when_run token (m : mutation summary) :
  only_writes token (when_run (Some token) (fun rid => apply_mutation m rid)).
Proof.
  unfold when_run. destruct (String.eqb token ""); [apply only_writes_ret |].
  apply only_writes_arun.
Qed.

Lemma returns_ret {A} (a : A) : returns (retW a).
Proof. intros w. exists a. reflexivity. Qed.

Lemma returns_bind {A B} (m : W A) (k : A -> W B) :
  returns m -> (forall a, returns (k a)) -> returns (bindW m k).
Proof.
  intros Hm Hk w. unfold bindW. destruct (Hm w) as [a Ha].
  destruct (m w) as [[a' | e] w1]; cbn [fst] in Ha; [| discriminate Ha]. apply Hk.
Qed.

Lemma returns_catch {A} (m : W A) (h : exn -> W A) :
  (forall e, returns (h e)) -> returns (catchW m h).
Proof.
  intros Hh w. unfold catchW. destruct (m w) as [[a | e] w1]; [exists a; reflexivity |].
  apply Hh.
Qed.

Lemma returns_arun token (m : mutation summary) : returns (arun (apply_mutation m token)).
Proof.
  intros w. unfold arun.
  destruct (apply_mutation_ok m token (RUNS w)) as (R' & -> & _).
  exists tt. reflexivity.
Qed.

Lemma test_loop_only_writes e repeat token total mns :
  forall idx tested, only_writes token (test_loop e repeat (Some token) total idx mns tested).
Proof.
  induction mns as [| mn rest IH]; intros idx tested; cbn [test_loop];
    [apply only_writes_ret |].
  apply only_writes_bind;
    [exact (only_writes_when_run token (AppendMessage _)) | intros _].
  apply only_writes_bind;
    [exact (only_writes_when_run token (SetProgress _)) | intros _].
  apply only_writes_bind; [apply only_writes_lift | intros rep].
  apply only_writes_bind;
    [exact (only_writes_when_run token (AppendMessage _)) | intros _].
  apply only_writes_bind;
    [exact (only_writes_when_run token (SetProgress _)) | intros _].
  apply IH.
Qed.

Lemma run_tests_sync_only_writes e host api_key repeat models token :
  only_writes token (_run_tests_sync e host api_key repeat models (Some token)).
Proof.
  unfold _run_tests_sync. destruct (listing e) as [names | ex].
  - cbv zeta. destruct (match models with [] => _ | _ => _ end); [apply only_writes_ret |].
    apply only_writes_bind; [apply test_loop_only_writes | intros tested].
    apply only_writes_bind;
      [exact (only_writes_when_run token (SetProgress _)) | intros _].
    apply only_writes_ret.
  - apply only_writes_bind;
      [exact (only_writes_when_run token (SetError _)) | intros _].
    apply only_writes_ret.
Qed.

(** X14. The background thread of a run never ends with an exception, whatever
    the host, the tests, the results file and the database do; and it writes
    to no entry of the registry but the run's own: every other run is, at the
    end, as it was at the start. *)
Theorem thread_returns_and_writes_own_run e host api_key repeat models token w :
  fst (bg e host api_key repeat models token w) = Ok tt
  /\ forall other, other <> token ->
       RUNS (snd (bg e host api_key repeat models token w)) !! other = RUNS w !! other.
Proof.
  split.
  - assert (H : returns (bg e host api_key repeat models token)).
    { unfold bg.
      apply returns_bind; [exact (returns_arun token SetRunning) | intros _].
      apply returns_bind; [exact (returns_arun token (AppendMessage _)) | intros _].
      apply returns_catch. intros ex. exact (returns_arun token (SetError _)). }
    destruct (H w) as [[] Ha]. exact Ha.
  - revert w. change (only_writes token (bg e host api_key repeat models token)).
    unfold bg.
    apply only_writes_bind; [exact (only_writes_arun token SetRunning) | intros _].
    apply only_writes_bind; [exact (only_writes_arun token (AppendMessage _)) | intros _].
    apply only_writes_catch; [| intros ex; exact (only_writes_arun token (SetError _))].
    apply only_writes_bind; [apply run_tests_sync_only_writes | intros s].
    cbv zeta.
    apply only_writes_bind; [exact (only_writes_arun token (AppendMessage _)) | intros _].
    apply only_writes_bind; [exact (only_writes_arun token (SetResult _)) | intros _].
    apply only_writes_bind.
    { destruct (dump_file e); exact (only_writes_arun token (AppendMessage _)). }
    intros _. apply only_writes_bind.
    { apply only_writes_catch.
      - apply only_writes_bind; [apply only_writes_lift | intros i].
        apply only_writes_bind; [exact (only_writes_arun token (AppendMessage _)) | intros _].
        exact (only_writes_arun token (SetResult _)).
      - intros e3. exact (only_writes_arun token (AppendMessage _)). }
    intros _. exact (only_writes_arun token (SetProgress _)).
Qed.

End AppThreadExtra.

(** ** More on the run orchestrator: the progress it writes *)

Module AppProgressExtra.
Import Py RunManager App AppMore.

(** X15. For up to 100 selected models, the progress written before a model's
    test is between 0 and 99 and starts at 0, and the progress written after
    it is between 0 and 95 and is 95 after the last model: while the tests
    run, a poller never sees 100. *)
Theorem progress_while_testing_stays_below_100 (total idx : nat) :
  (1 <= idx)%nat -> (idx <= total)%nat -> (total <= 100)%nat ->
  (0 <= progress_before (Z.of_nat idx) (Z.of_nat total) <= 99)%Z
  /\ (0 <= progress_after (Z.of_nat idx) (Z.of_nat total) <= 95)%Z
  /\ progress_before 1 (Z.of_nat total) = 0%Z
  /\ progress_after (Z.of_nat total) (Z.of_nat total) = 95%Z.
Proof.
  intros H1 H2 H3.
  assert (Hall : forallb (fun t =>
             (progress_before 1 (Z.of_nat t) =? 0)%Z
             && (progress_after (Z.of_nat t) (Z.of_nat t) =? 95)%Z
             && forallb (fun i =>
                  (0 <=? progress_before (Z.of_nat i) (Z.of_nat t))%Z
                  && (progress_before (Z.of_nat i) (Z.of_nat t) <=? 99)%Z
                  && (0 <=? progress_after (Z.of_nat i) (Z.of_nat t))%Z
                  && (progress_after (Z.of_nat i) (Z.of_nat t) <=? 95)%Z)
                  (seq 1 t)) (seq 1 100) = true) by (vm_compute; reflexivity).
  rewrite forallb_forall in Hall. specialize (Hall total). rewrite in_seq in Hall.
  assert (Ht := Hall ltac:(lia)). clear Hall.
  apply andb_prop in Ht. destruct Ht as [Ht Hi]. apply andb_prop in Ht. destruct Ht as [Ha Hb].
  rewrite forallb_forall in Hi. specialize (Hi idx). rewrite in_seq in Hi.
  assert (Hj := Hi ltac:(lia)). clear Hi.
  repeat (apply andb_prop in Hj; destruct Hj as [Hj ?]).
  repeat match goal with
         | H : (_ <=? _)%Z = true |- _ => apply Z.leb_le in H
         | H : (_ =? _)%Z = true |- _ => apply Z.eqb_eq in H
         end.
  repeat split; assumption.
Qed.

Lemma progress_while_testing_stays_below_100_witness :
  (0 <= progress_before (Z.of_nat 22) (Z.of_nat 23) <= 99)%Z
  /\ (0 <= progress_after (Z.of_nat 22) (Z.of_nat 23) <= 95)%Z
  /\ progress_before 1 (Z.of_nat 23) = 0%Z
  /\ progress_after (Z.of_nat 23) (Z.of_nat 23) = 95%Z.
Proof.
  apply (progress_while_testing_stays_below_100 23 22); lia.
Defined.

End AppProgressExtra.

(** ** More on the JSON text between the harness and its parent *)

Module JsonExtra.
Import Py Json JsonFacts.

Lemma render_length v : (1 <= length (render v))%nat.
Proof. destruct (render_head v) as (c & t & -> & _). cbn [length]. lia. Qed.

(** The decoder reads back all of what [render] wrote, when its fuel is at
    least the length of the text. *)
Lemma parse_render_complete n :
  (forall v r,
     (length (render v) <= n)%nat -> follows r = true ->
     parse_value n (render v ++ r) = Some (v, r))
  /\ (forall x l r,
        (length (render_elems (x :: l)) < n)%nat ->
        parse_elems n (render_elems (x :: l) ++ "]"%char :: r) = Some (x :: l, r))
  /\ (forall kx kvs r,
        (length (render_members (kx :: kvs)) < n)%nat ->
        parse_members n (render_members (kx :: kvs) ++ "}"%char :: r) = Some (kx :: kvs, r)).
Proof.
  induction n as [| n (IHv & IHe & IHm)].
  { split; [| split; intros; lia]. intros v r H. pose proof (render_length v). lia. }
  split; [| split].
  - intros v r Hlen Hr. destruct v as [| [] | z | s | l | kvs].
    + reflexivity.
    + reflexivity.
    + reflexivity.
    + cbn [render]. destruct (render_int_head z) as (c & t & Hz & Hc).
      pose proof (scan_render_int z r Hr) as Hs. rewrite Hz in Hs |- *. cbn [app] in Hs |- *.
      rewrite (parse_value_number n c _ Hc), Hs. reflexivity.
    + cbn [render]. cbn [app]. rewrite parse_value_string, <- app_assoc.
      cbn [app]. rewrite scan_escape, string_of_list_ascii_of_string. reflexivity.
    + rewrite render_list in Hlen |- *. cbn [app]. rewrite parse_value_list, <- app_assoc.
      cbn [app]. destruct l as [| x l]; [reflexivity |].
      rewrite skip_ws_render_elems.
      destruct (render_elems_head x l) as (c & t & He & Hc).
      destruct (value_start_plain c Hc) as (_ & Hb & _).
      assert (Hl : (length (render_elems (x :: l)) < n)%nat).
      { cbn [length] in Hlen. rewrite length_app in Hlen. cbn [length] in Hlen. lia. }
      pose proof (IHe x l r Hl) as IH. rewrite He in IH |- *. cbn [app] in IH |- *.
      rewrite Hb, IH. reflexivity.
    + rewrite render_dict in Hlen |- *. cbn [app]. rewrite parse_value_dict, <- app_assoc.
      cbn [app]. destruct kvs as [| kx kvs]; [reflexivity |].
      assert (Hl : (length (render_members (kx :: kvs)) < n)%nat).
      { cbn [length] in Hlen. rewrite length_app in Hlen. cbn [length] in Hlen. lia. }
      pose proof (IHm kx kvs r Hl) as IH.
      assert (Hd : exists t, render_members (kx :: kvs) = dq :: t)
        by (destruct kx; cbn [render_members]; destruct kvs; eauto).
      destruct Hd as [t Hd]. rewrite Hd in IH |- *. cbn [app] in IH |- *.
      rewrite skip_ws_plain by reflexivity.
      change (Ascii.eqb dq "}") with false. cbn iota. rewrite IH. reflexivity.
  - intros x l r Hlen. destruct l as [| y l];
      [change (render_elems [x]) with (render x) in Hlen |- *
      | rewrite render_elems_cons in Hlen |- *].
    + apply parse_elems_last, IHv; [lia | reflexivity].
    + rewrite !length_app in Hlen. cbn [lit length list_ascii_of_string] in Hlen.
      rewrite <- !app_assoc.
      rewrite (parse_elems_more n _ x (render_elems (y :: l) ++ "]"%char :: r)).
      * rewrite skip_ws_render_elems, IHe by lia. reflexivity.
      * apply IHv; [lia | reflexivity].
  - intros [k x] kvs r Hlen. destruct kvs as [| ky kvs];
      [change (render_members [(k, x)])
         with (dq :: escape (list_ascii_of_string k) ++ dq :: lit ": " ++ render x) in Hlen |- *
      | rewrite render_members_cons in Hlen |- *].
    + cbn [length] in Hlen. rewrite length_app in Hlen. cbn [length] in Hlen.
      rewrite length_app in Hlen.
      cbn [app]. rewrite <- !app_assoc. cbn [app]. rewrite <- !app_assoc.
      pose proof (scan_escape (list_ascii_of_string k) (lit ": " ++ render x ++ "}"%char :: r))
        as Hk.
      rewrite <- (string_of_list_ascii_of_string k) at 2.
      apply (parse_members_last n _ _ _ _ _ Hk).
      rewrite skip_ws_render. apply IHv; [lia | reflexivity].
    + cbn [length] in Hlen. rewrite length_app in Hlen. cbn [length] in Hlen.
      rewrite !length_app in Hlen. cbn [lit length list_ascii_of_string] in Hlen.
      cbn [app]. rewrite <- !app_assoc. cbn [app]. rewrite <- !app_assoc.
      pose proof (scan_escape (list_ascii_of_string k)
        (lit ": " ++ render x ++ lit ", " ++ render_members (ky :: kvs) ++ "}"%char :: r)) as Hk.
      assert (E : parse_value n (skip_ws (render x ++ lit ", "
                    ++ render_members (ky :: kvs) ++ "}"%char :: r))
                  = Some (x, lit ", " ++ render_members (ky :: kvs) ++ "}"%char :: r)).
      { rewrite skip_ws_render. apply IHv; [lia | reflexivity]. }
      rewrite (parse_members_more n _ _ _ _ _ Hk E), string_of_list_ascii_of_string.
      assert (Hs : skip_ws (render_members (ky :: kvs) ++ "}"%char :: r)
                   = render_members (ky :: kvs) ++ "}"%char :: r)
        by (destruct ky; cbn [render_members]; destruct kvs; reflexivity).
      rewrite Hs, IHm by lia. reflexivity.
Qed.

(** [json.loads(json.dumps(v))] is [v]. *)
Lemma loads_dumps v : loads (dumps v) = Some v.
Proof.
  unfold loads, dumps. rewrite list_ascii_of_string_of_list_ascii. unfold loads_l.
  pose proof (skip_ws_render v []) as Hs. rewrite app_nil_r in Hs. rewrite Hs.
  pose proof (proj1 (parse_render_complete (S (length (render v)))) v []
                ltac:(lia) eq_refl) as Hp.
  rewrite app_nil_r in Hp. rewrite Hp. reflexivity.
Qed.

Lemma strip_empty_blank s : strip s = "" -> lstrip (list_ascii_of_string s) = [].
Proof.
  unfold strip, strip_l. intros H.
  destruct (lstrip_head (list_ascii_of_string s)) as [E | (c & t & E & Hc)]; [exact E |].
  exfalso. rewrite E in H. cbn [rev] in H. rewrite lstrip_app in H by exact Hc.
  rewrite rev_app_distr in H. cbn [rev app] in H. cbn in H. discriminate H.
Qed.

(** The printed line of a dict, behind text that is blank, is decoded to
    the dict. *)
Lemma loads_behind_blank (pre : string) (kvs : list (string * value)) :
  strip pre = "" ->
  loads (strip (pre +:+ dumps (VDict kvs) +:+ String nl "")) = Some (VDict kvs).
Proof.
  intros Hb. apply strip_empty_blank in Hb. unfold strip, dumps.
  rewrite loads_of_list, !list_of_append, list_ascii_of_string_of_list_ascii.
  change (list_ascii_of_string (String nl "")) with [nl].
  rewrite app_assoc. rewrite render_dict at 1.
  rewrite <- app_assoc, strip_printed, <- render_dict, Hb. cbn [app].
  rewrite <- loads_of_list. apply loads_dumps.
Qed.


(** The printed line of a dict whose first key starts with a plain
    character is decoded only behind blank text. *)
Lemma loads_behind_text_blank (pre : string) (kvs : list (string * value)) c0 t0 data :
  render (VDict kvs) = "{"%char :: dq :: c0 :: t0 ->
  is_ws c0 = false /\ Ascii.eqb c0 ":" = false /\ Ascii.eqb c0 "," = false
  /\ Ascii.eqb c0 "]" = false /\ Ascii.eqb c0 "}" = false ->
  loads (strip (pre +:+ dumps (VDict kvs) +:+ String nl "")) = Some data ->
  strip pre = "".
Proof.
  intros Hshape Hplain H. unfold strip, dumps in H.
  rewrite loads_of_list, !list_of_append, list_ascii_of_string_of_list_ascii in H.
  change (list_ascii_of_string (String nl "")) with [nl] in H.
  rewrite app_assoc in H. rewrite render_dict in H at 1.
  rewrite <- app_assoc, strip_printed, <- render_dict in H.
  unfold loads_l in H.
  assert (Hskip : skip_ws (lstrip (list_ascii_of_string pre) ++ render (VDict kvs))
                  = lstrip (list_ascii_of_string pre) ++ render (VDict kvs)).
  { destruct (lstrip_head (list_ascii_of_string pre)) as [-> | (c & t & -> & Hc)].
    - cbn [app]. rewrite <- (app_nil_r (render (VDict kvs))). apply skip_ws_render.
    - apply skip_ws_plain, ws_is_space, Hc. }
  rewrite Hskip in H.
  destruct (parse_value _ _) as [[v r] |] eqn:E; [| discriminate].
  destruct (skip_ws r) eqn:Hr; [| discriminate].
  rewrite Hshape in E.
  assert (Hsound : forall n v r,
             parse_value n ("{"%char :: dq :: c0 :: t0) = Some (v, r) -> r = []).
  { intros n v' r' Hp. rewrite <- Hshape, <- (app_nil_r (render (VDict kvs))) in Hp.
    exact (proj2 (proj1 (parse_render n) (VDict kvs) [] v' r' eq_refl Hp)). }
  destruct (no_text_in_front (c0 :: t0) t0 c0 eq_refl Hplain Hsound _ _ _ _ E Hr) as [Hu _].
  unfold strip, strip_l. rewrite Hu. reflexivity.
Qed.

(** The stripped output that ends with the printed line of a dict is not
    empty. *)
Lemma strip_printed_nonempty (pre : string) (kvs : list (string * value)) :
  strip (pre +:+ dumps (VDict kvs) +:+ String nl "") <> "".
Proof.
  unfold strip, dumps.
  rewrite !list_of_append, list_ascii_of_string_of_list_ascii.
  change (list_ascii_of_string (String nl "")) with [nl].
  rewrite app_assoc. rewrite render_dict at 1.
  rewrite <- app_assoc, strip_printed.
  destruct (lstrip (list_ascii_of_string pre)); discriminate.
Qed.

End JsonExtra.

(** ** More on the sandbox: what a run that finishes reports *)

Module SandboxExtra.
Import Py Sandbox SandboxMore SandboxFacts JsonExtra Samples.

Section facts.
Variable py_eq : value -> value -> bool.
Variable repr_str : string -> string.

Lemma run_tests_records fn :
  forall tests k passed results out passed' results' out',
    run_tests py_eq repr_str fn k tests passed results out = Finished passed' results' out' ->
    exists records,
      results' = results ++ records
      /\ Forall2 (record_of_test repr_str) tests records
      /\ passed' = (passed + Z.of_nat (length (List.filter record_passed records)))%Z.
Proof.
  induction tests as [| [inp expected] rest IH]; intros k passed results out p' r' o' H;
    cbn [run_tests] in H.
  - inversion H. exists []. rewrite app_nil_r. repeat split; [constructor | cbn; lia].
  - destruct (call fn k inp) as [o1 v | o1 msg | o1 e1 |]; try discriminate;
      apply IH in H; destruct H as (records & -> & HF & ->);
      eexists (_ :: records); (split; [rewrite <- app_assoc; reflexivity |]);
      (split; [constructor; [split; reflexivity | exact HF] |]).
    + destruct (compare py_eq v expected); cbn [List.filter record_passed dict_get length];
        cbn; lia.
    + cbn; lia.
Qed.


(** X17. A call that raises is recorded as a failed test and the next test is
    run: a function whose calls return or raise, without ending the process
    or running over the time, gets every test case run. *)
Theorem raising_calls_do_not_stop_the_batch fn tests :
  (forall k args, fn k args <> Overtime /\ forall o e, fn k args <> Exits o e) ->
  exists passed results out,
    run_tests py_eq repr_str fn 0 tests 0 [] "" = Finished passed results out.
Proof.
  intros Hfn. generalize 0%nat 0%Z (@nil value) "".
  induction tests as [| [inp expected] rest IH]; intros k passed results out;
    cbn [run_tests]; [eauto |].
  destruct (call fn k inp) as [o1 v | o1 msg | o1 e1 |] eqn:E; try apply IH.
  - apply call_exits in E as [args E]. exfalso. exact (proj2 (Hfn k args) _ _ E).
  - exfalso. unfold call in E.
    destruct inp; try discriminate E; exact (proj1 (Hfn _ _) E).
Qed.

Variable python : string -> program.



End facts.


Lemma sum_callable_stays k args :
  sum_callable k args <> Overtime /\ forall o e, sum_callable k args <> Exits o e.
Proof. unfold sum_callable. destruct args as [| [] []]; split; try intros ? ?; discriminate. Qed.

Lemma raising_calls_do_not_stop_the_batch_witness :
  exists passed results out,
    run_tests sample_eq sample_repr_str sum_callable 0 [(VNone, VInt 0); (Tester.ints [1; 2], VInt 3)]
      0 [] ""
    = Finished passed results out.
Proof.
  exact (raising_calls_do_not_stop_the_batch sample_eq sample_repr_str sum_callable
           [(VNone, VInt 0); (Tester.ints [1; 2], VInt 3)] sum_callable_stays).
Defined.



End SandboxExtra.

(** ** More on the tester: the accounts of the two batteries *)

Module TesterExtra.
Import Py Tester TesterMore TesterFacts Samples.
Local Set Warnings "-clear-no-such-hyp".
Local Open Scope tester_scope.

Lemma sr_earned_record n c p b l r e :
  sr_earned (SmartResult n c p b l r e) = if b then p else 0%Z.
Proof. reflexivity. Qed.

Lemma cat_sum_snoc {R} (val : R -> Z) (cat : R -> string) k l t :
  cat_sum val cat k (l ++ [t])
  = (cat_sum val cat k l + if String.eqb (cat t) k then val t else 0)%Z.
Proof.
  unfold cat_sum. induction l as [| x l IH]; cbn [app fold_right].
  - destruct (String.eqb (cat t) k); lia.
  - rewrite IH. destruct (String.eqb (cat x) k); lia.
Qed.

Lemma total_sum_snoc {R} (val : R -> Z) l t :
  total_sum val (l ++ [t]) = (total_sum val l + val t)%Z.
Proof.
  unfold total_sum. induction l as [| x l IH]; cbn [app fold_right]; [lia |].
  rewrite IH. lia.
Qed.

Lemma total_sum_app {R} (val : R -> Z) l1 l2 :
  total_sum val (l1 ++ l2) = (total_sum val l1 + total_sum val l2)%Z.
Proof.
  unfold total_sum. induction l1 as [| x l IH]; cbn [app fold_right]; [lia |].
  rewrite IH. lia.
Qed.

(** [bump] on a table that holds each key once *)
Lemma bump_keys k f (g : string -> Z * Z) keys :
  NoDup keys ->
  bump k f (map (fun k' => (k', g k')) keys)
  = if existsb (String.eqb k) keys
    then Ok (map (fun k' => (k', if String.eqb k k' then f (g k') else g k')) keys)
    else Raise (KeyError k).
Proof.
  induction keys as [| k0 keys IH]; intros Hnd; cbn [map bump existsb]; [reflexivity |].
  apply NoDup_cons in Hnd. destruct Hnd as [Hk0 Hnd].
  destruct (String.eqb k k0) eqn:E; cbn [orb].
  - apply String.eqb_eq in E. subst k0. do 2 f_equal. apply map_ext_in.
    intros k' Hin. destruct (String.eqb k k') eqn:E'; [| reflexivity].
    apply String.eqb_eq in E'. subst k'. exfalso. apply Hk0, list_elem_of_In, Hin.
  - rewrite (IH Hnd). destruct (existsb (String.eqb k) keys); reflexivity.
Qed.

(** A lifted step of a loop that returned must have returned. *)
Ltac lifted H :=
  match type of H with
  | context [lift ?r ?l] =>
      change (lift r l) with (r, l) in H; destruct r eqn:?;
      [cbn beta iota in H | discriminate H]
  end.

Ltac lifted_as H x :=
  match type of H with
  | context [lift ?r ?l] =>
      change (lift r l) with (r, l) in H; destruct r as [x |] eqn:?;
      [cbn beta iota in H | discriminate H]
  end.

Section facts.
Variable repr_str : string -> string.
Variable py_eq : value -> value -> bool.
Variable python : string -> Sandbox.program.
Variable py_round : float -> Z -> float.
Variable mean median : list float -> float.
Variable _extract_code : value -> res string.

Lemma smartness_loop_accounts keys c model tests :
  NoDup keys ->
  forall a log a' log',
    accounted sr_earned sr_points sr_category keys a ->
    smartness_loop repr_str py_round c model tests a log = (Ok a', log') ->
    exists news,
      a_results a' = a_results a ++ news
      /\ Forall2 smart_record tests news
      /\ accounted sr_earned sr_points sr_category keys a'.
Proof.
  intros Hnd. induction tests as [| test rest IH]; intros a log a' log' Ha H.
  - cbn in H. inversion H. subst a'. exists []. rewrite app_nil_r.
    split; [reflexivity |]. split; [constructor | exact Ha].
  - cbn [smartness_loop] in H. unfold bindM in H.
    destruct Ha as (Ht & He & Hb). rewrite Hb in H. unfold tally in H.
    rewrite (bump_keys _ _
      (fun k => (cat_sum sr_earned sr_category k (a_results a),
                 cat_sum sr_points sr_category k (a_results a))) keys Hnd) in H.
    unfold lift at 1 in H.
    destruct (existsb (String.eqb (s_category test)) keys) eqn:Ex; [| discriminate H].
    destruct (chat_shape repr_str c model (s_prompt test) log) as (dt & text & err & Hc).
    rewrite Hc in H. cbn beta iota in H.
    remember (truthy text && negb (truthy_err err) && s_check test (str repr_str text))
      as passed eqn:Ep.
    assert (Hpe : truthy_err err = true -> passed = false).
    { intros E. rewrite Ep, E. cbn [negb]. rewrite andb_false_r. reflexivity. }
    clear Ep.
    match type of H with
    | context [lift (if passed then bump ?k ?f ?t else Ok ?t) ?l] =>
        assert (Hb2 : lift (if passed then bump k f t else Ok t) l
                      = (Ok (map (fun k' =>
                           (k', ((cat_sum sr_earned sr_category k' (a_results a)
                                  + if String.eqb (s_category test) k'
                                    then (if passed then s_points test else 0) else 0)%Z,
                                 (cat_sum sr_points sr_category k' (a_results a)
                                  + if String.eqb (s_category test) k'
                                    then s_points test else 0)%Z))) keys), l))
    end.
    { unfold lift. f_equal. destruct passed.
      - rewrite (bump_keys _ _
          (fun k' => if String.eqb (s_category test) k'
                     then (fst (cat_sum sr_earned sr_category k' (a_results a),
                                cat_sum sr_points sr_category k' (a_results a)),
                           (snd (cat_sum sr_earned sr_category k' (a_results a),
                                 cat_sum sr_points sr_category k' (a_results a))
                            + s_points test)%Z)
                     else (cat_sum sr_earned sr_category k' (a_results a),
                           cat_sum sr_points sr_category k' (a_results a))) keys Hnd).
        rewrite Ex. f_equal. apply map_ext. intros k'.
        destruct (String.eqb (s_category test) k'); cbn [fst snd]; do 2 f_equal; lia.
      - f_equal. apply map_ext. intros k'.
        destruct (String.eqb (s_category test) k'); cbn [fst snd]; do 2 f_equal; lia. }
    rewrite Hb2 in H. cbn beta iota in H. lifted H.
    apply IH in H.
    + destruct H as (news & Hr & HF & Hacc). cbn [a_results] in Hr.
      eexists (_ :: news). split; [rewrite Hr, <- app_assoc; reflexivity |].
      split; [| exact Hacc]. constructor; [| exact HF].
      repeat split. exact Hpe.
    + unfold accounted. cbn [a_results a_total a_earned a_buckets].
      rewrite !total_sum_snoc, sr_earned_record. cbn [sr_points].
      split; [lia |]. split; [destruct passed; lia |].
      unfold tally. apply map_ext. intros k'. rewrite !cat_sum_snoc, sr_earned_record.
      cbn [sr_category sr_points]. reflexivity.
Qed.

Lemma smart_records_points tests news :
  Forall2 smart_record tests news ->
  Forall (fun t => (0 <= s_points t)%Z) tests ->
  total_sum sr_points news = total_sum s_points tests
  /\ (0 <= total_sum sr_earned news <= total_sum s_points tests)%Z
  /\ forall k, cat_sum sr_points sr_category k news = cat_sum s_points s_category k tests.
Proof.
  induction 1 as [| test t tests news (_ & Hc & Hp & _) _ IH]; intros Hpos.
  - repeat split; cbn; lia.
  - apply Forall_cons in Hpos. destruct Hpos as [Hpos0 Hpos].
    destruct (IH Hpos) as (IH1 & IH2 & IH3).
    unfold total_sum, cat_sum in *. cbn [fold_right]. rewrite IH1, Hp, Hc.
    split; [reflexivity |]. split.
    + unfold sr_earned at 1 3. rewrite Hp. destruct (sr_passed t); lia.
    + intros k. rewrite IH3. reflexivity.
Qed.

(** X20. When the smartness battery returns, its records are those of the
    eight tests of the table, in order, and a record with an error has not
    passed; the total is 100 points, the earned points are the points of the
    records that passed, between 0 and 100, and the score is their
    percentage; each category's score is the percentage of the points of its
    passed records in the category's 30, 45 or 25 points. *)
Theorem smartness_battery_accounts c model log b log' :
  _run_smartness_tests repr_str py_round c model log = (Ok b, log') ->
  Forall2 smart_record SMARTNESS_TESTS (b_tests b)
  /\ b_total_points b = 100%Z
  /\ b_earned_points b = total_sum sr_earned (b_tests b)
  /\ (0 <= b_earned_points b <= 100)%Z
  /\ b_score b = percentage py_round (b_earned_points b) 100
  /\ b_bucket_scores b
     = [("math", percentage py_round (cat_sum sr_earned sr_category "math" (b_tests b)) 30);
        ("logic", percentage py_round (cat_sum sr_earned sr_category "logic" (b_tests b)) 45);
        ("knowledge",
         percentage py_round (cat_sum sr_earned sr_category "knowledge" (b_tests b)) 25)].
Proof.
  clear python py_eq mean median _extract_code.
  intros H. unfold _run_smartness_tests, bindM in H.
  destruct (smartness_loop _ _ _ _ _ _ _) as [[a' |] l] eqn:E; [| discriminate H].
  inversion H. subst b l. clear H.
  assert (Hnd : NoDup ["math"; "logic"; "knowledge"])
    by (apply (bool_decide_unpack _); vm_compute; reflexivity).
  assert (Hacc : accounted sr_earned sr_points sr_category ["math"; "logic"; "knowledge"]
            (Acc [] 0 0 [("math", (0, 0)); ("logic", (0, 0)); ("knowledge", (0, 0))])%Z)
    by (repeat split).
  destruct (smartness_loop_accounts ["math"; "logic"; "knowledge"] c model SMARTNESS_TESTS
              Hnd _ log a' log' Hacc E)
    as (news & Hr & HF & Ht & He & Hb).
  cbn [a_results app] in Hr.
  destruct (smart_records_points _ _ HF) as (Hp & Hbound & Hcat).
  { repeat (constructor; [cbn; lia |]). constructor. }
  unfold finish. cbn [b_tests b_total_points b_earned_points b_score b_bucket_scores].
  rewrite Hb, Ht, He, Hr. unfold tally. cbn [map fst snd]. rewrite !Hcat, Hp.
  change (total_sum s_points SMARTNESS_TESTS) with 100%Z in *.
  repeat split; try assumption; try lia.
Qed.

Lemma cr_fields n d p e pt tt l er co rr tr :
  cr_earned (CodingResult n d p e pt tt l er co rr tr) = e
  /\ cr_points (CodingResult n d p e pt tt l er co rr tr) = p
  /\ cr_difficulty (CodingResult n d p e pt tt l er co rr tr) = d.
Proof. repeat split. Qed.

Lemma coding_loop_accounts keys c model tests :
  NoDup keys ->
  forall a log a' log',
    accounted cr_earned cr_points cr_difficulty keys a ->
    coding_loop repr_str py_eq python py_round _extract_code c model tests a log
    = (Ok a', log') ->
    exists news,
      a_results a' = a_results a ++ news
      /\ Forall2 coding_record tests news
      /\ accounted cr_earned cr_points cr_difficulty keys a'.
Proof.
  intros Hnd. induction tests as [| test rest IH]; intros a log a' log' Ha H.
  - cbn in H. inversion H. subst a'. exists []. rewrite app_nil_r.
    split; [reflexivity |]. split; [constructor | exact Ha].
  - cbn [coding_loop] in H. unfold bindM in H.
    destruct Ha as (Ht & He & Hb). rewrite Hb in H. unfold tally in H.
    rewrite (bump_keys _ _
      (fun k => (cat_sum cr_earned cr_difficulty k (a_results a),
                 cat_sum cr_points cr_difficulty k (a_results a))) keys Hnd) in H.
    unfold lift at 1 in H.
    destruct (existsb (String.eqb (c_difficulty test)) keys) eqn:Ex; [| discriminate H].
    destruct (chat_shape repr_str c model (c_prompt test) log) as (dt & text & err & Hc).
    rewrite Hc in H. cbn beta iota in H.
    destruct (truthy_err err) eqn:Ee.
    + apply IH in H.
      * destruct H as (news & Hr & HF & Hacc). cbn [a_results] in Hr.
        eexists (_ :: news). split; [rewrite Hr, <- app_assoc; reflexivity |].
        split; [| exact Hacc]. constructor; [| exact HF]. repeat split.
      * unfold accounted. cbn [a_results a_total a_earned a_buckets].
        rewrite !total_sum_snoc. cbn [cr_points cr_earned].
        split; [lia |]. split; [lia |].
        unfold tally. apply map_ext. intros k'. rewrite !cat_sum_snoc.
        cbn [cr_difficulty cr_points cr_earned].
        destruct (String.eqb (c_difficulty test) k'); cbn [fst snd]; do 2 f_equal; lia.
    + unfold bindM in H. lifted H. lifted H.
      match goal with
      | x : (value * value * value)%type |- _ => destruct x as [[passed total] test_details]
      end.
      lifted_as H z.
      match type of H with
      | context [lift (bump ?k ?f ?t) ?l] =>
          assert (Hb2 : lift (bump k f t) l
                        = (Ok (map (fun k' =>
                             (k', ((cat_sum cr_earned cr_difficulty k' (a_results a)
                                    + if String.eqb (c_difficulty test) k' then z else 0)%Z,
                                   (cat_sum cr_points cr_difficulty k' (a_results a)
                                    + if String.eqb (c_difficulty test) k'
                                      then c_points test else 0)%Z))) keys), l))
      end.
      { unfold lift. f_equal.
        rewrite (bump_keys _ _
          (fun k' => if String.eqb (c_difficulty test) k'
                     then (fst (cat_sum cr_earned cr_difficulty k' (a_results a),
                                cat_sum cr_points cr_difficulty k' (a_results a)),
                           (snd (cat_sum cr_earned cr_difficulty k' (a_results a),
                                 cat_sum cr_points cr_difficulty k' (a_results a))
                            + c_points test)%Z)
                     else (cat_sum cr_earned cr_difficulty k' (a_results a),
                           cat_sum cr_points cr_difficulty k' (a_results a))) keys Hnd).
        rewrite Ex. f_equal. apply map_ext. intros k'.
        destruct (String.eqb (c_difficulty test) k'); cbn [fst snd]; do 2 f_equal; lia. }
      rewrite Hb2 in H. cbn beta iota in H. lifted H. lifted H.
      apply IH in H.
      * destruct H as (news & Hr & HF & Hacc). cbn [a_results] in Hr.
        eexists (_ :: news). split; [rewrite Hr, <- app_assoc; reflexivity |].
        split; [| exact Hacc]. constructor; [| exact HF]. repeat split; discriminate.
      * unfold accounted. cbn [a_results a_total a_earned a_buckets].
        rewrite !total_sum_snoc. cbn [cr_points cr_earned].
        split; [lia |]. split; [lia |].
        unfold tally. apply map_ext. intros k'. rewrite !cat_sum_snoc.
        cbn [cr_difficulty cr_points cr_earned]. reflexivity.
Qed.

Lemma coding_records_points tests news :
  Forall2 coding_record tests news ->
  total_sum cr_points news = total_sum c_points tests
  /\ forall k, cat_sum cr_points cr_difficulty k news = cat_sum c_points c_difficulty k tests.
Proof.
  induction 1 as [| test t tests news (_ & Hc & Hp & _) _ (IH1 & IH3)].
  - repeat split.
  - unfold total_sum, cat_sum in *. cbn [fold_right]. rewrite IH1, Hp, Hc.
    split; [reflexivity |]. intros k. rewrite IH3. reflexivity.
Qed.

(** X21. When the coding battery returns, its records are those of the five
    tests of the table, in order, and a record with an error earned nothing
    and holds no code; the total is 150 points, the earned points are the sum
    of what the records earned, and the score is their percentage; each
    difficulty's score is the percentage of what its records earned in the
    difficulty's 50, 60 or 40 points. *)
Theorem coding_battery_accounts c model log b log' :
  _run_coding_tests repr_str py_eq python py_round _extract_code c model log = (Ok b, log') ->
  Forall2 coding_record CODING_TESTS (b_tests b)
  /\ b_total_points b = 150%Z
  /\ b_earned_points b = total_sum cr_earned (b_tests b)
  /\ b_score b = percentage py_round (b_earned_points b) 150
  /\ b_bucket_scores b
     = [("easy", percentage py_round (cat_sum cr_earned cr_difficulty "easy" (b_tests b)) 50);
        ("medium", percentage py_round (cat_sum cr_earned cr_difficulty "medium" (b_tests b)) 60);
        ("hard", percentage py_round (cat_sum cr_earned cr_difficulty "hard" (b_tests b)) 40)].
Proof.
  intros H. unfold _run_coding_tests, bindM in H.
  destruct (coding_loop _ _ _ _ _ _ _ _ _ _) as [[a' |] l] eqn:E; [| discriminate H].
  inversion H. subst b l. clear H.
  assert (Hnd : NoDup ["easy"; "medium"; "hard"])
    by (apply (bool_decide_unpack _); vm_compute; reflexivity).
  assert (Hacc : accounted cr_earned cr_points cr_difficulty ["easy"; "medium"; "hard"]
            (Acc [] 0 0 [("easy", (0, 0)); ("medium", (0, 0)); ("hard", (0, 0))])%Z)
    by (repeat split).
  destruct (coding_loop_accounts ["easy"; "medium"; "hard"] c model CODING_TESTS
              Hnd _ log a' log' Hacc E)
    as (news & Hr & HF & Ht & He & Hb).
  cbn [a_results app] in Hr.
  destruct (coding_records_points _ _ HF) as (Hp & Hcat).
  unfold finish. cbn [b_tests b_total_points b_earned_points b_score b_bucket_scores].
  rewrite Hb, Ht, He, Hr. unfold tally. cbn [map fst snd]. rewrite !Hcat, Hp.
  change (total_sum c_points CODING_TESTS) with 150%Z in *.
  repeat split; try assumption.
Qed.

(** *** A client that cannot reach its model *)

Lemma bump_ok k f t :
  In k (map fst t) -> exists t', bump k f t = Ok t' /\ map fst t' = map fst t.
Proof.
  induction t as [| [k' v] t IH]; intros Hin; [destruct Hin |]. cbn [bump].
  destruct (String.eqb k k') eqn:E; [eexists; split; reflexivity |].
  destruct Hin as [Hk | Hin]; [cbn in Hk; subst k'; rewrite String.eqb_refl in E; discriminate |].
  destruct (IH Hin) as (t' & -> & Hk). cbn [bind]. eexists. split; [reflexivity |].
  cbn [map fst]. rewrite Hk. reflexivity.
Qed.

Lemma chat_unreachable c model prompt log :
  unreachable c ->
  exists dt msg,
    _chat_with_model repr_str c model prompt log
    = (Ok (dt, VNone, Some msg), log ++ [(model, prompt)])
    /\ truthy_err (Some msg) = true.
Proof.
  intros Hc. destruct (Hc log model prompt) as (ex & dt & E & Hne).
  unfold _chat_with_model. rewrite E. cbn [bind]. exists dt, (str_exn ex).
  split; [reflexivity |]. cbn [truthy_err]. apply String.eqb_neq in Hne. rewrite Hne.
  reflexivity.
Qed.

Lemma smartness_loop_unreachable c model tests :
  unreachable c ->
  forall a log,
    Forall (fun t => In (s_category t) (map fst (a_buckets a))) tests ->
    exists a',
      smartness_loop repr_str py_round c model tests a log
      = (Ok a', log ++ map (fun t => (model, s_prompt t)) tests)
      /\ a_earned a' = a_earned a
      /\ a_total a' = (a_total a + total_sum s_points tests)%Z.
Proof.
  intros Hc. induction tests as [| test rest IH]; intros a log Hk.
  - exists a. cbn. rewrite app_nil_r. repeat split. lia.
  - apply Forall_cons in Hk. destruct Hk as [Hk0 Hk].
    cbn [smartness_loop]. unfold bindM.
    destruct (bump_ok (s_category test) (fun et => (fst et, snd et + s_points test)%Z)
                _ Hk0) as (t' & -> & Hkeys).
    unfold lift at 1.
    destruct (chat_unreachable c model (s_prompt test) log Hc) as (dt & msg & -> & Hm).
    cbn [truthy andb value_of_err]. unfold lift.
    match goal with
    | |- context [smartness_loop _ _ _ _ rest ?a1 ?l1] =>
        destruct (IH a1 l1) as (a' & -> & He & Ht)
    end.
    { cbn [a_buckets]. rewrite Hkeys. exact Hk. }
    cbn [a_total] in Ht.
    exists a'. split; [rewrite <- app_assoc; reflexivity |]. split; [exact He |].
    rewrite Ht. unfold total_sum. cbn [fold_right]. lia.
Qed.

Lemma coding_loop_unreachable c model tests :
  unreachable c ->
  forall a log,
    Forall (fun t => In (c_difficulty t) (map fst (a_buckets a))) tests ->
    exists a' news,
      coding_loop repr_str py_eq python py_round _extract_code c model tests a log
      = (Ok a', log ++ map (fun t => (model, c_prompt t)) tests)
      /\ a_earned a' = a_earned a
      /\ a_total a' = (a_total a + total_sum c_points tests)%Z
      /\ a_results a' = a_results a ++ news
      /\ Forall (fun t => cr_passed_tests t = VInt 0) news.
Proof.
  intros Hc. induction tests as [| test rest IH]; intros a log Hk.
  - exists a, []. cbn. rewrite !app_nil_r. repeat split; [lia | constructor].
  - apply Forall_cons in Hk. destruct Hk as [Hk0 Hk].
    cbn [coding_loop]. unfold bindM.
    destruct (bump_ok (c_difficulty test) (fun et => (fst et, snd et + c_points test)%Z)
                _ Hk0) as (t' & -> & Hkeys).
    unfold lift at 1.
    destruct (chat_unreachable c model (c_prompt test) log Hc) as (dt & msg & -> & Hm).
    rewrite Hm.
    match goal with
    | |- context [coding_loop _ _ _ _ _ _ _ rest ?a1 ?l1] =>
        destruct (IH a1 l1) as (a' & news & -> & He & Ht & Hr & Hp)
    end.
    { cbn [a_buckets]. rewrite Hkeys. exact Hk. }
    cbn [a_earned a_results a_total] in He, Hr, Ht.
    eexists a', (_ :: news). split; [rewrite <- app_assoc; reflexivity |].
    split; [exact He |].
    split; [rewrite Ht; unfold total_sum; cbn [fold_right]; lia |].
    split; [rewrite Hr, <- app_assoc; reflexivity |].
    constructor; [reflexivity | exact Hp].
Qed.

Lemma coding_passes_unreachable l :
  Forall (fun t => cr_passed_tests t = VInt 0) l ->
  exists lines, coding_passes repr_str l = Ok lines.
Proof.
  induction 1 as [| t l Ht _ (lines & IH)]; [exists []; reflexivity |].
  cbn [coding_passes]. unfold coding_pass. rewrite Ht. cbn [as_int bind]. rewrite IH.
  cbn [bind]. eexists. reflexivity.
Qed.

Lemma percentage_of_nothing :
  percentage py_round 0 100 = py_round PrimFloat.zero 1
  /\ percentage py_round 0 150 = py_round PrimFloat.zero 1.
Proof.
  unfold percentage. cbn [Z.gtb Z.compare].
  assert (E1 : PrimFloat.mul (true_div 0 100) (float_of_int 100) = PrimFloat.zero)
    by (vm_compute; reflexivity).
  assert (E2 : PrimFloat.mul (true_div 0 150) (float_of_int 100) = PrimFloat.zero)
    by (vm_compute; reflexivity).
  rewrite E1, E2. split; reflexivity.
Qed.

(** X22. A model that cannot be reached is not an error of [test_model]: when
    every call of the client raises, with a message that is not empty,
    [test_model] returns a report, having sent each prompt of the two tables
    once; both scores are the rounded zero, with 0 of 100 and 0 of 150
    points, whatever the code extraction and the interpreter would do. *)
Theorem unreachable_model_scores_zero c model repeat log :
  unreachable c ->
  exists rep,
    test_model repr_str py_eq python py_round mean median _extract_code c model repeat log
    = (Ok rep, log ++ battery_calls model)
    /\ model_of rep = model
    /\ smartness_score rep = Some (py_round PrimFloat.zero 1)
    /\ code_score rep = Some (py_round PrimFloat.zero 1)
    /\ d_points <$> smartness_details rep = Some "0/100"
    /\ d_points <$> coding_details rep = Some "0/150".
Proof.
  intros Hc. destruct percentage_of_nothing as [P1 P2].
  destruct (smartness_loop_unreachable c model SMARTNESS_TESTS Hc
              (Acc [] 0 0 [("math", (0, 0)); ("logic", (0, 0)); ("knowledge", (0, 0))])%Z log)
    as (a1 & E1 & He1 & Ht1).
  { repeat (constructor; [cbn; tauto |]). constructor. }
  assert (Hs : _run_smartness_tests repr_str py_round c model log
               = (Ok (finish py_round a1), log ++ map (fun t => (model, s_prompt t)) SMARTNESS_TESTS)).
  { unfold _run_smartness_tests, bindM. rewrite E1. reflexivity. }
  destruct (coding_loop_unreachable c model CODING_TESTS Hc
              (Acc [] 0 0 [("easy", (0, 0)); ("medium", (0, 0)); ("hard", (0, 0))])%Z
              (log ++ map (fun t => (model, s_prompt t)) SMARTNESS_TESTS))
    as (a2 & news & E2 & He2 & Ht2 & Hr2 & Hp2).
  { repeat (constructor; [cbn; tauto |]). constructor. }
  assert (Hcd : _run_coding_tests repr_str py_eq python py_round _extract_code c model
                  (log ++ map (fun t => (model, s_prompt t)) SMARTNESS_TESTS)
                = (Ok (finish py_round a2),
                   (log ++ map (fun t => (model, s_prompt t)) SMARTNESS_TESTS)
                   ++ map (fun t => (model, c_prompt t)) CODING_TESTS)).
  { unfold _run_coding_tests, bindM. rewrite E2. reflexivity. }
  cbn [a_results a_earned a_total app] in He1, He2, Hr2, Ht1, Ht2.
  change (0 + total_sum s_points SMARTNESS_TESTS)%Z with 100%Z in Ht1.
  change (0 + total_sum c_points CODING_TESTS)%Z with 150%Z in Ht2.
  destruct (coding_passes_unreachable (b_tests (finish py_round a2))) as [lines Hl].
  { unfold finish. cbn [b_tests]. rewrite Hr2. exact Hp2. }
  unfold test_model. unfold bindM at 1. rewrite Hs. cbn beta iota.
  unfold bindM at 1. rewrite Hcd. cbn beta iota.
  unfold bindM, lift, ret. rewrite Hl.
  eexists. split; [unfold battery_calls; rewrite app_assoc; reflexivity |].
  cbn [model_of smartness_score code_score smartness_details coding_details
       fmap option_fmap option_map d_points].
  unfold finish. cbn [b_earned_points b_total_points b_score].
  rewrite He1, He2, Ht1, Ht2, P1, P2.
  repeat split.
Qed.

End facts.

Lemma smartness_battery_accounts_witness :
  exists b log',
    _run_smartness_tests sample_repr_str sample_round parrot "etch-1" [] = (Ok b, log')
    /\ Forall2 smart_record SMARTNESS_TESTS (b_tests b)
    /\ b_total_points b = 100%Z
    /\ b_earned_points b = total_sum sr_earned (b_tests b)
    /\ (0 <= b_earned_points b <= 100)%Z
    /\ b_score b = percentage sample_round (b_earned_points b) 100
    /\ b_bucket_scores b
       = [("math", percentage sample_round (cat_sum sr_earned sr_category "math" (b_tests b)) 30);
          ("logic", percentage sample_round (cat_sum sr_earned sr_category "logic" (b_tests b)) 45);
          ("knowledge",
           percentage sample_round (cat_sum sr_earned sr_category "knowledge" (b_tests b)) 25)].
Proof.
  destruct (_run_smartness_tests sample_repr_str sample_round parrot "etch-1" [])
    as [[b | e] log'] eqn:E.
  - exists b, log'. split; [reflexivity |].
    exact (smartness_battery_accounts sample_repr_str sample_round parrot "etch-1" [] b log' E).
  - exfalso. vm_compute in E. discriminate E.
Defined.

Lemma coding_battery_accounts_witness :
  exists b log',
    _run_coding_tests sample_repr_str sample_eq summing_python sample_round sample_extract
      parrot "etch-1" []
    = (Ok b, log')
    /\ Forall2 coding_record CODING_TESTS (b_tests b)
    /\ b_total_points b = 150%Z
    /\ b_earned_points b = total_sum cr_earned (b_tests b)
    /\ b_score b = percentage sample_round (b_earned_points b) 150
    /\ b_bucket_scores b
       = [("easy", percentage sample_round (cat_sum cr_earned cr_difficulty "easy" (b_tests b)) 50);
          ("medium",
           percentage sample_round (cat_sum cr_earned cr_difficulty "medium" (b_tests b)) 60);
          ("hard", percentage sample_round (cat_sum cr_earned cr_difficulty "hard" (b_tests b)) 40)].
Proof.
  destruct (_run_coding_tests sample_repr_str sample_eq summing_python sample_round
              sample_extract parrot "etch-1" []) as [[b | e] log'] eqn:E.
  - exists b, log'. split; [reflexivity |].
    exact (coding_battery_accounts sample_repr_str sample_eq summing_python sample_round
             sample_extract parrot "etch-1" [] b log' E).
  - exfalso. vm_compute in E. discriminate E.
Defined.

Lemma dead_is_unreachable : unreachable dead.
Proof.
  intros log model prompt. exists (Exception "connection refused"), quarter.
  split; [reflexivity | discriminate].
Qed.

Lemma unreachable_model_scores_zero_witness :
  exists rep,
    test_model sample_repr_str sample_eq summing_python sample_round sample_mean sample_mean
      sample_extract dead "etch-1" 1 []
    = (Ok rep, [] ++ battery_calls "etch-1")
    /\ model_of rep = "etch-1"
    /\ smartness_score rep = Some (sample_round PrimFloat.zero 1)
    /\ code_score rep = Some (sample_round PrimFloat.zero 1)
    /\ d_points <$> smartness_details rep = Some "0/100"
    /\ d_points <$> coding_details rep = Some "0/150".
Proof.
  exact (unreachable_model_scores_zero sample_repr_str sample_eq summing_python sample_round
           sample_mean sample_mean sample_extract dead "etch-1" 1 [] dead_is_unreachable).
Defined.

End TesterExtra.

(** ** More on the tester: an honest interpreter *)

Module HonestExtra.
Import Py Tester TesterMore TesterFacts TesterExtra Samples.
Import Sandbox SandboxFacts JsonExtra.
Local Open Scope tester_scope.

Section facts.
Variable repr_str : string -> string.
Variable py_eq : value -> value -> bool.
Variable python : string -> Sandbox.program.
Variable py_round : float -> Z -> float.
Variable mean median : list float -> float.
Variable _extract_code : value -> res string.

(** What the sandbox returns under an honest interpreter: a count within
    the number of test cases, that number, and a list. *)
Lemma honest_sandbox code_src test_cases timeout :
  honest python ->
  exists p l,
    _run_code_safely py_eq repr_str python code_src test_cases timeout
    = Ok (VInt p, VInt (Z.of_nat (length test_cases)), VList l)
    /\ (0 <= p <= Z.of_nat (length test_cases))%Z.
Proof.
  intros Hh. destruct (Hh code_src) as [(out & err & Htop) Hfn].
  unfold _run_code_safely.
  destruct (String.eqb code_src ""); [unfold failure; eexists _, _; split; [reflexivity | lia] |].
  destruct (find _ dangerous); [unfold failure; eexists _, _; split; [reflexivity | lia] |].
  unfold harness_process. rewrite Htop.
  destruct (callable (python code_src)) as [fn |] eqn:Hc.
  - destruct (run_tests py_eq repr_str fn 0 test_cases 0 [] "") as [p r o | o e |] eqn:Hr;
      [| exfalso; exact (run_tests_never_exits py_eq repr_str fn (Hfn fn eq_refl) _ _ _ _ _ _ _ Hr)
       | unfold failure; eexists _, _; split; [reflexivity | lia]].
    apply run_tests_count in Hr. cbv zeta. rewrite <- append_assoc. unfold print.
    match goal with
    | |- context [Json.loads ?s] =>
        assert (Hs : String.eqb s "" = false)
          by (apply String.eqb_neq, strip_printed_nonempty);
        rewrite Hs; destruct (Json.loads s) as [data |] eqn:Hl
    end; [| unfold failure; eexists _, _; split; [reflexivity | lia]].
    destruct (report_shape p test_cases r) as [t0 Hshape].
    apply (JsonFacts.loads_behind_text (out +:+ o) _ "p" t0 data Hshape) in Hl;
      [| repeat split; reflexivity].
    subst data. eexists _, _. split; [reflexivity | lia].
  - cbv zeta. unfold print.
    match goal with
    | |- context [Json.loads ?s] =>
        assert (Hs : String.eqb s "" = false)
          by (apply String.eqb_neq, strip_printed_nonempty);
        rewrite Hs; destruct (Json.loads s) as [data |] eqn:Hl
    end; [| unfold failure; eexists _, _; split; [reflexivity | lia]].
    destruct no_function_shape as [t0 Hshape].
    apply (JsonFacts.loads_behind_text out _ "e" t0 data Hshape) in Hl;
      [| repeat split; reflexivity].
    subst data. eexists _, _. split; [reflexivity | lia].
Qed.

Lemma honest_points test p :
  In test CODING_TESTS ->
  (0 <= p <= Z.of_nat (length (c_test_cases test)))%Z ->
  exists z,
    points_earned (VInt p) (VInt (Z.of_nat (length (c_test_cases test)))) (c_points test) = Ok z
    /\ (0 <= z <= c_points test)%Z.
Proof.
  unfold CODING_TESTS. cbn [In].
  intros [<- | [<- | [<- | [<- | [<- | []]]]]]; cbn [c_test_cases c_points length]; intros Hp;
    (assert (Hc : (p = 0 \/ p = 1 \/ p = 2 \/ p = 3 \/ p = 4 \/ p = 5)%Z) by lia);
    destruct Hc as [-> | [-> | [-> | [-> | [-> | ->]]]]]; try lia;
    (eexists; split; [vm_compute; reflexivity | lia]).
Qed.

Lemma chat_text c model prompt log :
  answers_text repr_str c ->
  exists dt text err,
    _chat_with_model repr_str c model prompt log
    = (Ok (dt, text, err), log ++ [(model, prompt)])
    /\ (text = VNone \/ exists s, text = VStr s).
Proof.
  intros Hc. specialize (Hc log model prompt). unfold _chat_with_model.
  destruct (chat c log model prompt) as [r dt]. cbn [fst] in Hc.
  destruct (bind r (_get_response_text repr_str)) as [[| | | s | |] | ex]; try contradiction;
    eexists _, _, _; (split; [reflexivity |]); eauto.
Qed.

Lemma smartness_loop_returns c model tests :
  answers_text repr_str c ->
  forall a log,
    Forall (fun t => In (s_category t) (map fst (a_buckets a))) tests ->
    exists a',
      smartness_loop repr_str py_round c model tests a log
      = (Ok a', log ++ map (fun t => (model, s_prompt t)) tests).
Proof.
  intros Hc. induction tests as [| test rest IH]; intros a log Hk.
  - exists a. cbn. rewrite app_nil_r. reflexivity.
  - apply Forall_cons in Hk. destruct Hk as [Hk0 Hk].
    cbn [smartness_loop]. unfold bindM.
    destruct (bump_ok (s_category test) (fun et => (fst et, snd et + s_points test)%Z)
                _ Hk0) as (t1 & -> & Hkeys).
    unfold lift at 1.
    destruct (chat_text c model (s_prompt test) log Hc) as (dt & text & err & -> & Htext).
    set (passed := truthy text && negb (truthy_err err) && s_check test (str repr_str text)).
    assert (Hb : exists t2,
               (if passed
                then bump (s_category test) (fun et => (fst et + s_points test, snd et)%Z) t1
                else Ok t1) = Ok t2 /\ map fst t2 = map fst (a_buckets a)).
    { destruct passed; [| exists t1; split; [reflexivity | exact Hkeys]].
      destruct (bump_ok (s_category test) (fun et => (fst et + s_points test, snd et)%Z) t1)
        as (t2 & -> & Hk2); [rewrite Hkeys; exact Hk0 |].
      exists t2. split; [reflexivity | congruence]. }
    destruct Hb as (t2 & -> & Hk2). unfold lift at 1.
    assert (Hr : exists recorded,
               (if truthy text then slice 500 text else Ok (value_of_err err)) = Ok recorded).
    { destruct Htext as [-> | [s ->]]; [eexists; reflexivity |].
      destruct (truthy (VStr s)); eexists; reflexivity. }
    destruct Hr as (recorded & ->). unfold lift.
    match goal with
    | |- context [smartness_loop _ _ _ _ rest ?a1 ?l1] =>
        destruct (IH a1 l1) as (a' & ->)
    end.
    { cbn [a_buckets]. rewrite Hk2. exact Hk. }
    exists a'. rewrite <- app_assoc. reflexivity.
Qed.

Lemma coding_loop_returns c model tests :
  answers_text repr_str c -> honest python -> extracts _extract_code ->
  forall a log,
    Forall (fun t => In t CODING_TESTS) tests ->
    Forall (fun t => In (c_difficulty t) (map fst (a_buckets a))) tests ->
    exists a' news,
      coding_loop repr_str py_eq python py_round _extract_code c model tests a log
      = (Ok a', log ++ map (fun t => (model, c_prompt t)) tests)
      /\ a_results a' = a_results a ++ news
      /\ Forall (fun t => (0 <= cr_earned t <= cr_points t)%Z
                          /\ exists p, cr_passed_tests t = VInt p) news.
Proof.
  intros Hc Hh [Hx0 Hx]. induction tests as [| test rest IH]; intros a log Hin Hk.
  - exists a, []. cbn. rewrite !app_nil_r. repeat split. constructor.
  - apply Forall_cons in Hk. destruct Hk as [Hk0 Hk].
    apply Forall_cons in Hin. destruct Hin as [Hin0 Hin].
    assert (Hpts : (0 <= c_points test)%Z)
      by (destruct (coding_points test Hin0) as [-> | [-> | ->]]; lia).
    cbn [coding_loop]. unfold bindM.
    destruct (bump_ok (c_difficulty test) (fun et => (fst et, snd et + c_points test)%Z)
                _ Hk0) as (t1 & -> & Hkeys).
    unfold lift at 1.
    destruct (chat_text c model (c_prompt test) log Hc) as (dt & text & err & -> & Htext).
    destruct (truthy_err err) eqn:Ee.
    + match goal with
      | |- context [coding_loop _ _ _ _ _ _ _ rest ?a1 ?l1] =>
          destruct (IH a1 l1 Hin) as (a' & news & -> & Hr & Hp)
      end.
      { cbn [a_buckets]. rewrite Hkeys. exact Hk. }
      cbn [a_results] in Hr.
      eexists a', (_ :: news). split; [rewrite <- app_assoc; reflexivity |].
      split; [rewrite Hr, <- app_assoc; reflexivity |].
      constructor; [| exact Hp]. cbn [cr_earned cr_points cr_passed_tests].
      split; [lia | eexists; reflexivity].
    + assert (He : exists code, _extract_code text = Ok code)
        by (destruct Htext as [-> | [s ->]]; [eexists; exact Hx0 | apply Hx]).
      destruct He as (code & ->). unfold lift at 1.
      destruct (honest_sandbox code (c_test_cases test) 5 Hh) as (p & l & -> & Hpb).
      unfold lift at 1.
      destruct (honest_points test p Hin0 Hpb) as (z & -> & Hz). unfold lift at 1.
      destruct (bump_ok (c_difficulty test) (fun et => (fst et + z, snd et)%Z) t1)
        as (t2 & -> & Hk2); [rewrite Hkeys; exact Hk0 |].
      unfold lift at 1.
      assert (Hr : exists raw, (if truthy text then slice 300 text else Ok VNone) = Ok raw).
      { destruct Htext as [-> | [s ->]]; [eexists; reflexivity |].
        destruct (truthy (VStr s)); eexists; reflexivity. }
      destruct Hr as (raw & ->). unfold lift. cbn [slice].
      match goal with
      | |- context [coding_loop _ _ _ _ _ _ _ rest ?a1 ?l1] =>
          destruct (IH a1 l1 Hin) as (a' & news & -> & Hr & Hp)
      end.
      { cbn [a_buckets]. rewrite Hk2, Hkeys. exact Hk. }
      cbn [a_results] in Hr.
      eexists a', (_ :: news). split; [rewrite <- app_assoc; reflexivity |].
      split; [rewrite Hr, <- app_assoc; reflexivity |].
      constructor; [| exact Hp]. cbn [cr_earned cr_points cr_passed_tests].
      split; [lia | eexists; reflexivity].
Qed.

Lemma coding_passes_return l :
  Forall (fun t => (0 <= cr_earned t <= cr_points t)%Z
                   /\ exists p, cr_passed_tests t = VInt p) l ->
  exists lines, coding_passes repr_str l = Ok lines.
Proof.
  induction 1 as [| t l (_ & p & Ht) _ (lines & IH)]; [exists []; reflexivity |].
  cbn [coding_passes]. unfold coding_pass. rewrite Ht. cbn [as_int bind]. rewrite IH.
  cbn [bind]. eexists. reflexivity.
Qed.

Lemma earned_within l :
  Forall (fun t => (0 <= cr_earned t <= cr_points t)%Z
                   /\ exists p, cr_passed_tests t = VInt p) l ->
  (0 <= total_sum cr_earned l <= total_sum cr_points l)%Z.
Proof.
  induction 1 as [| t l (Hb & _) _ IH]; unfold total_sum in *; cbn [fold_right]; lia.
Qed.


End facts.

Lemma parrot_answers_text : answers_text sample_repr_str parrot.
Proof. intros log model prompt. exact I. Qed.

Lemma summing_python_honest : honest summing_python.
Proof.
  intros src. split; [exists "", ""; reflexivity |].
  intros fn Hfn k args o e. injection Hfn as <-. unfold sum_callable.
  destruct args as [| [] []]; discriminate.
Qed.

Lemma sample_extract_total_extracts : extracts sample_extract_total.
Proof. split; [reflexivity | intros s; exists s; reflexivity]. Qed.


End HonestExtra.

(** ** More on the tester: the whole-word check of the arithmetic tests *)

Module SearchExtra.
Import Py Tester TesterMore.

Lemma drop_prefix_spec w s r : drop_prefix w s = Some r <-> s = w +:+ r.
Proof.
  revert s. induction w as [| a w IH]; intros s; cbn [drop_prefix].
  - split; [intros [= ->]; reflexivity | intros ->; reflexivity].
  - destruct s as [| b s]; [split; discriminate |].
    destruct (Ascii.eqb a b) eqn:E.
    + apply Ascii.eqb_eq in E. subst b. rewrite IH. split.
      * intros ->. reflexivity.
      * intros H. cbn in H. injection H as ->. reflexivity.
    + split; [discriminate |]. intros H. cbn in H. injection H as -> _.
      rewrite Ascii.eqb_refl in E. discriminate E.
Qed.

Lemma search_word_from_spec w s :
  forall prev,
    search_word_from prev w s = true
    <-> exists a b, s = a +:+ w +:+ b /\ ends_word prev a = false /\ starts_word b = false.
Proof.
  induction s as [| c s IH]; intros prev.
  - cbn [search_word_from]. rewrite orb_false_r. split.
    + intros H. apply andb_prop in H. destruct H as [Hp H].
      destruct (drop_prefix w "") as [r |] eqn:E; [| discriminate H].
      apply drop_prefix_spec in E. exists "", r. split; [exact E |].
      split; [cbn; destruct prev; [discriminate Hp | reflexivity] |].
      destruct r; [reflexivity |]. cbn. apply negb_true_iff, H.
    + intros (a & b & E & Ha & Hb). destruct a; [| discriminate E]. cbn in Ha.
      subst prev. apply (proj2 (drop_prefix_spec w "" b)) in E. rewrite E. cbn [negb andb].
      destruct b; [reflexivity |]. cbn in Hb. rewrite Hb. reflexivity.
  - change (search_word_from prev w (String c s))
      with ((negb prev &&
             match drop_prefix w (String c s) with
             | Some EmptyString => true
             | Some (String c' _) => negb (is_word c')
             | None => false
             end) || search_word_from (is_word c) w s).
    rewrite orb_true_iff, IH. split.
    + intros [H | (a & b & E & Ha & Hb)].
      * apply andb_prop in H. destruct H as [Hp H].
        destruct (drop_prefix w (String c s)) as [r |] eqn:E; [| discriminate H].
        apply drop_prefix_spec in E. exists "", r. split; [exact E |].
        split; [cbn; destruct prev; [discriminate Hp | reflexivity] |].
        destruct r; [reflexivity |]. cbn. apply negb_true_iff, H.
      * exists (String c a), b. split; [cbn; rewrite E; reflexivity |].
        split; [exact Ha | exact Hb].
    + intros (a & b & E & Ha & Hb). destruct a as [| c' a].
      * left. cbn in Ha. subst prev.
        apply (proj2 (drop_prefix_spec w (String c s) b)) in E. rewrite E.
        cbn [negb andb]. destruct b; [reflexivity |]. cbn in Hb. rewrite Hb. reflexivity.
      * right. cbn in E. injection E as <- ->. exists a, b.
        split; [reflexivity |]. split; [exact Ha | exact Hb].
Qed.


End SearchExtra.
